(** * chisage-generate: Home Assistant Modbus configuration generator

    A shallow embedding of [chisage-generate.py] and the properties of its
    parameter derivation, registry merge and [!include] post-processing.

    Conventions of the embedding.
    - A Python [str] is a Rocq [string] whose characters are read as the code
      points 0..255 (Latin-1); [str.lower] and [str.isdigit] are written out
      for that range, which they do not leave.
    - A Python [int] is a [Z].  A Python [float] is carried by its [repr]:
      the program stores scales and never computes with them.
    - A Python [dict] is an insertion-ordered association list.
    - The file system is a finite map from paths to file contents together
      with a set of directories; the only I/O failure that is modelled is the
      one the program handles, a missing file on [open(..., "r")].
    - The two PyYAML entry points the program calls, [yaml.dump] and
      [yaml.safe_load], are parameters of the program ([Section Program]);
      module [PyYAML] gives a model of them for block-style documents. *)

From Stdlib Require Import ZArith Ascii Decimal DecimalString DecimalFacts DecimalPos DecimalZ.
From stdpp Require Import gmap strings list fin_maps.

Set Warnings "-register-all".
Local Open Scope Z_scope.

(** ** Python strings *)

Module Py.

Definition ord (c : ascii) : N := N_of_ascii c.

(** Characters with a lower-case partner in Latin-1: A-Z, and U+00C0..U+00DE
    without the multiplication sign U+00D7. *)
Definition is_upper (c : ascii) : bool :=
  ((65 <=? ord c) && (ord c <=? 90))%N
  || ((192 <=? ord c) && (ord c <=? 222) && negb (ord c =? 215))%N.

Definition lower_char (c : ascii) : ascii :=
  if is_upper c then ascii_of_N (ord c + 32) else c.

(** [s.lower()] *)
Fixpoint lower (s : string) : string :=
  match s with
  | EmptyString => EmptyString
  | String c r => String (lower_char c) (lower r)
  end.

(** [s.replace(a, b)] for one-character [a] and [b]. *)
Fixpoint replace (a b : ascii) (s : string) : string :=
  match s with
  | EmptyString => EmptyString
  | String c r => String (if Ascii.eqb c a then b else c) (replace a b r)
  end.

(** [s.split(sep)] for a one-character separator: empty fields are kept. *)
Fixpoint split (sep : ascii) (s : string) : list string :=
  match s with
  | EmptyString => [EmptyString]
  | String c r =>
      if Ascii.eqb c sep then EmptyString :: split sep r
      else match split sep r with
           | x :: xs => String c x :: xs
           | [] => [String c EmptyString]
           end
  end.

(** [sep.join(l)] *)
Fixpoint join (sep : string) (l : list string) : string :=
  match l with
  | [] => ""
  | [x] => x
  | x :: xs => x +:+ sep +:+ join sep xs
  end.

Definition is_ascii_digit (c : ascii) : bool :=
  ((48 <=? ord c) && (ord c <=? 57))%N.

(** Characters for which [str.isdigit] holds in Latin-1: the decimal digits
    and the superscripts U+00B2, U+00B3, U+00B9. *)
Definition isdigit_char (c : ascii) : bool :=
  is_ascii_digit c || (ord c =? 178)%N || (ord c =? 179)%N || (ord c =? 185)%N.

Fixpoint all_chars (p : ascii → bool) (s : string) : bool :=
  match s with
  | EmptyString => true
  | String c r => p c && all_chars p r
  end.

(** [s.isdigit()]: every character is a digit and there is at least one. *)
Definition isdigit (s : string) : bool :=
  match s with
  | EmptyString => false
  | _ => all_chars isdigit_char s
  end.

(** [int(s)] on the strings [isdigit] admits: [None] is the [ValueError]
    raised for a superscript digit.  (The interpreter's optional limit on the
    number of digits is not modelled.) *)
Definition int (s : string) : option Z :=
  match s with
  | EmptyString => None
  | _ => Z.of_uint <$> NilEmpty.uint_of_string s
  end.

(** [str(z)] for an integer. *)
Definition str (z : Z) : string := NilZero.string_of_int (Z.to_int z).

(** [s.startswith(p)] *)
Fixpoint startswith (p s : string) : bool :=
  match p, s with
  | EmptyString, _ => true
  | String a p', String b s' => Ascii.eqb a b && startswith p' s'
  | String _ _, EmptyString => false
  end.

(** [s[n:]] *)
Fixpoint drop (n : nat) (s : string) : string :=
  match n, s with
  | O, _ => s
  | S n', String _ r => drop n' r
  | S _, EmptyString => EmptyString
  end.

End Py.

(** ** Python values *)

(** A float, identified by its [repr]. *)
Record pyfloat := PyFloat { float_repr : string }.

(** The values the program builds and the ones [yaml.safe_load] can hand to
    it.  [PObject] stands for the remaining loader results (dates, binary
    data, sets), which are neither [list] nor [dict] nor [None]. *)
Inductive pyval :=
| PNone
| PBool (b : bool)
| PInt (z : Z)
| PFloat (r : pyfloat)
| PStr (s : string)
| PList (l : list pyval)
| PDict (d : list (pyval * pyval))
| PObject (type_name repr : string).

Definition pydict := list (pyval * pyval).

(** [k == key] for a dictionary key [k] and a string [key]. *)
Definition key_is (key : string) (k : pyval) : bool :=
  match k with
  | PStr s => String.eqb s key
  | _ => false
  end.

(** [d.get(key)] for a string key; [None] when the key is absent. *)
Fixpoint dict_get (key : string) (d : pydict) : option pyval :=
  match d with
  | [] => None
  | (k, v) :: r => if key_is key k then Some v else dict_get key r
  end.

(** [d[key] = v] for a string key: an existing key keeps its position. *)
Fixpoint dict_set (key : string) (v : pyval) (d : pydict) : pydict :=
  match d with
  | [] => [(PStr key, v)]
  | (k, w) :: r =>
      if key_is key k then (k, v) :: r else (k, w) :: dict_set key v r
  end.

(** [v == s] for a loaded value [v] and a string [s]. *)
Definition eq_str (v : pyval) (s : string) : bool :=
  match v with
  | PStr t => String.eqb t s
  | _ => false
  end.

(** ** The register and device classes *)

Module ModbusRegister.

Record t := mk {
  name : string;
  slave : Z;
  address : Z;
  data_type : string;
  scale : option pyfloat;
  unit_of_measurement : option string;
  scan_interval : option Z;
  state_class : option string
}.

(** [result[key] = value] under [if value is not None]. *)
Definition set_if_not_none (key : string) (v : option pyval) (d : pydict) : pydict :=
  match v with
  | Some x => dict_set key x d
  | None => d
  end.

Definition to_dict (self : t) : pydict :=
  let result :=
    [ (PStr "name", PStr (name self));
      (PStr "slave", PInt (slave self));
      (PStr "address", PInt (address self));
      (PStr "data_type", PStr (data_type self)) ] in
  let result := set_if_not_none "scale" (PFloat <$> scale self) result in
  let result :=
    set_if_not_none "unit_of_measurement" (PStr <$> unit_of_measurement self) result in
  let result := set_if_not_none "scan_interval" (PInt <$> scan_interval self) result in
  let result := set_if_not_none "state_class" (PStr <$> state_class self) result in
  result.

End ModbusRegister.

Module ModbusDevice.

Record t := mk {
  name : string;
  slave : Z;
  sensors : list ModbusRegister.t;
  host : string
}.

(** The loop of [__init__]: a register without a scan interval takes the
    device's default. *)
Definition back_fill (default : Z) (sensor : ModbusRegister.t) : ModbusRegister.t :=
  match ModbusRegister.scan_interval sensor with
  | None =>
      ModbusRegister.mk (ModbusRegister.name sensor) (ModbusRegister.slave sensor)
        (ModbusRegister.address sensor) (ModbusRegister.data_type sensor)
        (ModbusRegister.scale sensor) (ModbusRegister.unit_of_measurement sensor)
        (Some default) (ModbusRegister.state_class sensor)
  | Some _ => sensor
  end.

(** [ModbusDevice.__init__] *)
Definition init (name : string) (slave : Z) (host : string)
    (default_sensor_scan_interval : option Z)
    (sensors : option (list ModbusRegister.t)) : t :=
  let sensors := default [] sensors in
  let sensors :=
    match default_sensor_scan_interval with
    | Some d => back_fill d <$> sensors
    | None => sensors
    end in
  mk name slave sensors host.

(** [ModbusDevice.to_dict] *)
Definition to_dict (self : t) : pydict :=
  [ (PStr "name", PStr (name self));
    (PStr "slave", PInt (slave self));
    (PStr "sensors", PList ((λ s, PDict (ModbusRegister.to_dict s)) <$> sensors self)) ].

End ModbusDevice.

Module ChisageInverter.

(** The unit of the temperature register: U+00B0 followed by C. *)
Definition degree_C : string := String (ascii_of_N 176) "C".

Section Table.
Variables (name : string) (slave : Z).

Definition reg (suffix : string) (address : Z) (data_type : string)
    (scale : option pyfloat) (unit_of_measurement state_class : option string)
    : ModbusRegister.t :=
  ModbusRegister.mk (name +:+ " " +:+ suffix) slave address data_type
    scale unit_of_measurement None state_class.

Definition inverter_sensors : list ModbusRegister.t :=
  [
    reg "Inverter Voltage A" 26 "uint16" (Some (PyFloat "0.1")) (Some "V") None;
    reg "Inverter Voltage B" 27 "uint16" (Some (PyFloat "0.1")) (Some "V") None;
    reg "Inverter Voltage C" 28 "uint16" (Some (PyFloat "0.1")) (Some "V") None;
    reg "Inverter Current A" 29 "uint16" (Some (PyFloat "0.01")) (Some "A") None;
    reg "Inverter Current B" 30 "uint16" (Some (PyFloat "0.01")) (Some "A") None;
    reg "Inverter Current C" 31 "uint16" (Some (PyFloat "0.01")) (Some "A") None;
    reg "Grid Voltage A" 32 "uint16" (Some (PyFloat "0.1")) (Some "V") None;
    reg "Grid Voltage B" 33 "uint16" (Some (PyFloat "0.1")) (Some "V") None;
    reg "Grid Voltage C" 34 "uint16" (Some (PyFloat "0.1")) (Some "V") None;
    reg "Grid Current A" 35 "uint16" (Some (PyFloat "0.01")) (Some "A") None;
    reg "Grid Current B" 36 "uint16" (Some (PyFloat "0.01")) (Some "A") None;
    reg "Grid Current C" 37 "uint16" (Some (PyFloat "0.01")) (Some "A") None;
    reg "Load Voltage A" 38 "uint16" (Some (PyFloat "0.1")) (Some "V") None;
    reg "Load Voltage B" 39 "uint16" (Some (PyFloat "0.1")) (Some "V") None;
    reg "Load Voltage C" 40 "uint16" (Some (PyFloat "0.1")) (Some "V") None;
    reg "Load Current A" 41 "uint16" (Some (PyFloat "0.01")) (Some "A") None;
    reg "Load Current B" 42 "uint16" (Some (PyFloat "0.01")) (Some "A") None;
    reg "Load Current C" 43 "uint16" (Some (PyFloat "0.01")) (Some "A") None;
    reg "Diesel Generator Voltage A" 44 "uint16" (Some (PyFloat "0.1")) (Some "V") None;
    reg "Diesel Generator Voltage B" 45 "uint16" (Some (PyFloat "0.1")) (Some "V") None;
    reg "Diesel Generator Voltage C" 46 "uint16" (Some (PyFloat "0.1")) (Some "V") None;
    reg "Diesel Generator Current A" 47 "uint16" (Some (PyFloat "0.01")) (Some "A") None;
    reg "Diesel Generator Current B" 48 "uint16" (Some (PyFloat "0.01")) (Some "A") None;
    reg "Diesel Generator Current C" 49 "uint16" (Some (PyFloat "0.01")) (Some "A") None;
    reg "Inverter Positive Bus Voltage" 50 "uint16" (Some (PyFloat "0.1")) (Some "V") None;
    reg "Negative Bus Voltage" 51 "uint16" (Some (PyFloat "0.1")) (Some "V") None;
    reg "Inverter Frequency" 52 "int16" (Some (PyFloat "0.01")) (Some "Hz") None;
    reg "Grid Frequency" 53 "int16" (Some (PyFloat "0.01")) (Some "Hz") None;
    reg "Diesel Generator Output Frequency" 54 "int16" (Some (PyFloat "0.01")) (Some "Hz") None;
    reg "Maximum Temperature" 56 "uint16" (Some (PyFloat "0.1")) (Some degree_C) None;
    reg "Inverter Working Stage" 57 "uint16" None (Some "") None;
    reg "External CT Power A" 58 "uint16" (Some (PyFloat "0.01")) (Some "W") (Some "measurement");
    reg "External CT Power B" 59 "uint16" (Some (PyFloat "0.01")) (Some "W") (Some "measurement");
    reg "External CT Power C" 60 "uint16" (Some (PyFloat "0.01")) (Some "W") (Some "measurement");
    reg "External CT Current A" 61 "uint16" (Some (PyFloat "0.01")) (Some "A") None;
    reg "External CT Current B" 62 "uint16" (Some (PyFloat "0.01")) (Some "A") None;
    reg "Battery Voltage" 2026 "int16" (Some (PyFloat "0.01")) (Some "V") None;
    reg "Battery Current" 2027 "int16" (Some (PyFloat "0.1")) (Some "A") None;
    reg "Photovoltaic 1 Voltage" 2028 "int16" (Some (PyFloat "0.1")) (Some "V") None;
    reg "Photovoltaic 1 Current" 2029 "int16" (Some (PyFloat "0.01")) (Some "A") None;
    reg "Photovoltaic 2 Voltage" 2030 "int16" (Some (PyFloat "0.1")) (Some "V") None;
    reg "Photovoltaic 2 Current" 2031 "int16" (Some (PyFloat "0.01")) (Some "A") None;
    reg "DC Bus Voltage" 2032 "int16" (Some (PyFloat "0.1")) (Some "V") None;
    reg "DC Positive Bus Voltage" 2033 "int16" (Some (PyFloat "0.1")) (Some "V") None;
    reg "Buck Voltage" 2034 "int16" (Some (PyFloat "0.1")) (Some "V") None;
    reg "Buck Current" 2035 "int16" (Some (PyFloat "0.01")) (Some "A") None;
    reg "Battery Power" 2036 "int16" (Some (PyFloat "1.0")) (Some "W") (Some "measurement");
    reg "Photovoltaic 1 Power" 2037 "int16" (Some (PyFloat "1.0")) (Some "W") (Some "measurement");
    reg "Photovoltaic 2 Power" 2038 "int16" (Some (PyFloat "1.0")) (Some "W") (Some "measurement");
    reg "Battery SOC" 2039 "uint16" (Some (PyFloat "1.0")) (Some "%") (Some "measurement")
  ].

End Table.

(** [ChisageInverter.__init__] *)
Definition init (name : string) (slave : Z) (host : string)
    (default_sensor_scan_interval : Z) : ModbusDevice.t :=
  ModbusDevice.init name slave host (Some default_sensor_scan_interval)
    (Some (inverter_sensors name slave)).

End ChisageInverter.

(** ** The world the program runs in *)

Inductive ValueError :=
| InvalidIPFormat (flag : string)   (* raised by the program's own check *)
| InvalidLiteral (text : string).   (* raised by [int] *)

(** The lines the program prints, one constructor per [print] site. *)
Inductive message :=
| MsgIpIncremental (ip : string)
| MsgIpFixed (ip : string)
| MsgPortIncremental (port : Z)
| MsgPortFixed (port : Z)
| MsgError (e : ValueError)
| MsgCountError
| MsgGenerating (count : Z)
| MsgSlave (slave : Z)
| MsgOverflow (ip_start : string) (i octet : Z)
| MsgOverflowHint
| MsgCreating (number : Z) (name host : string) (port slave : Z)
| MsgWarnUnexpected (file : string)
| MsgWarnParse (file : string) (error : string)
| MsgGeneratedCard (file : string)
| MsgSuccess
| MsgHubUpdated (file : string)
| MsgSensorsHint.

Record world := World {
  files : gmap string string;
  dirs : gset string;
  stdout : list message
}.

(** An exception no handler of the program catches. *)
Inductive exception :=
| NameError (variable : string).

(** How a computation ends: with a value, by [exit(code)], or by an
    uncaught exception. *)
Inductive outcome (A : Type) :=
| Return (a : A)
| Exit (code : Z)
| Raise (e : exception).
Arguments Return {A} a.
Arguments Exit {A} code.
Arguments Raise {A} e.

Definition Run (A : Type) : Type := world → outcome A * world.

Global Instance run_ret : MRet Run := λ A a w, (Return a, w).

Global Instance run_bind : MBind Run := λ A B k m w,
  match m w with
  | (Return a, w') => k a w'
  | (Exit c, w') => (Exit c, w')
  | (Raise e, w') => (Raise e, w')
  end.

Definition exit {A} (code : Z) : Run A := λ w, (Exit code, w).
Definition raise {A} (e : exception) : Run A := λ w, (Raise e, w).

(** [print(...)] *)
Definition print (m : message) : Run unit :=
  λ w, (Return (), World (files w) (dirs w) (stdout w ++ [m])).

(** [os.makedirs(path, exist_ok=True)] *)
Definition makedirs (path : string) : Run unit :=
  λ w, (Return (), World (files w) ({[path]} ∪ dirs w) (stdout w)).

(** [open(path, "w")] followed by writing [content]. *)
Definition write_file (path content : string) : Run unit :=
  λ w, (Return (), World (<[path := content]> (files w)) (dirs w) (stdout w)).

(** [open(path, "r")]: [None] stands for [FileNotFoundError]. *)
Definition read_file (path : string) : Run (option string) :=
  λ w, (Return (files w !! path), w).

(** Reading a local variable: one that was never assigned raises. *)
Definition read_var {A} (variable : string) (v : option A) : Run A :=
  match v with
  | Some a => mret a
  | None => raise (NameError variable)
  end.

(** [for x in l: body(x)] *)
Fixpoint for_each {A} (l : list A) (body : A → Run unit) : Run unit :=
  match l with
  | [] => mret ()
  | x :: r => body x;; for_each r body
  end.

(** ** The [!include] hooks *)

(** A scalar node as a PyYAML constructor receives it. *)
Record ScalarNode := { node_tag : string; node_value : string }.

Definition include_constructor (node : ScalarNode) : pyval :=
  PStr (node_tag node +:+ " " +:+ node_value node).

(** The constructors registered on [yaml.SafeLoader], by tag. *)
Definition constructors := list (string * (ScalarNode → pyval)).

Definition safe_loader_constructors : constructors :=
  [("!include", include_constructor)].

Inductive load_result :=
| Loaded (data : pyval)
| YAMLError (error : string).

(** [re.sub(r"'(!include [^']+\.yaml)'", r"\1", text)].

    A match starts at a quote followed by [!include ] and ends at the next
    quote, which the text up to it must reach with at least one character
    and then [.yaml]; the class [[^']] also takes line breaks.  Matches are
    taken leftmost and do not overlap. *)
Module Re.

Definition quote : ascii := "'"%char.

(** The characters before the first quote, and what follows that quote. *)
Fixpoint until_quote (s : string) : option (string * string) :=
  match s with
  | EmptyString => None
  | String c r =>
      if Ascii.eqb c quote then Some (EmptyString, r)
      else '(body, rest) ← until_quote r; Some (String c body, rest)
  end.

Fixpoint strip_prefix (p s : string) : option string :=
  match p, s with
  | EmptyString, _ => Some s
  | String a p', String b s' => if Ascii.eqb a b then strip_prefix p' s' else None
  | String _ _, EmptyString => None
  end.

(** [[^']+\.yaml] against a quote-free [body]: the class takes at least one
    character and [.yaml] is what remains. *)
Fixpoint path_matches (body : string) : bool :=
  match body with
  | EmptyString => false
  | String _ r => String.eqb r ".yaml" || path_matches r
  end.

(** The match at the start of [s], if any: group 1 and the text after the
    closing quote. *)
Definition match_here (s : string) : option (string * string) :=
  after ← strip_prefix "'!include " s;
  '(body, rest) ← until_quote after;
  if path_matches body then Some ("!include " +:+ body, rest) else None.

(** The scan: [skip] counts the characters of a match still to be passed. *)
Fixpoint sub_from (skip : nat) (s : string) : string :=
  match s with
  | EmptyString => EmptyString
  | String c r =>
      match skip with
      | S k => sub_from k r
      | O =>
          match match_here s with
          | Some (group, rest) =>
              group +:+ sub_from (String.length s - String.length rest - 1) r
          | None => String c (sub_from 0 r)
          end
      end
  end.

Definition sub_include (text : string) : string := sub_from 0 text.

End Re.

(** ** The program *)

(** The parsed command line.  [argparse] leaves an option that was not given
    at [None]; its two required, mutually exclusive groups give exactly one of
    [ip_start]/[ip_fixed] and one of [port_start]/[port_fixed]. *)
Record Args := {
  count : Z;
  slave_id : Z;
  ip_start : option string;
  ip_fixed : option string;
  port_start : option Z;
  port_fixed : option Z;
  generate_cards : bool
}.

(** The locals of the IP and port set-up; [None] is a name not yet bound. *)
Record ip_locals := {
  ip_mode_is_start : bool;
  base_ip_prefix : option string;
  last_octet_start : option Z;
  fixed_ip_str : option string
}.

Record port_locals := {
  port_mode_is_start : bool;
  port_to_process : option Z
}.

Definition modbus_hubs_filename : string := "modbus_devices.yaml".

(** [all(o.isdigit() and 0 <= int(o) <= 255 for o in ip_octets)]: the
    octets are tried in order, the first failing one ends the scan, and
    [int] may raise. *)
Fixpoint all_octets (ip_octets : list string) : ValueError + bool :=
  match ip_octets with
  | [] => inr true
  | o :: rest =>
      if Py.isdigit o then
        match Py.int o with
        | None => inl (InvalidLiteral o)
        | Some n => if (0 <=? n) && (n <=? 255) then all_octets rest else inr false
        end
      else inr false
  end.

(** The check at the head of both [try] blocks: the [ValueError] it ends
    in, if any. *)
Definition check_octets (flag : string) (ip_octets : list string) : option ValueError :=
  if bool_decide (length ip_octets ≠ 4%nat) then Some (InvalidIPFormat flag)
  else match all_octets ip_octets with
       | inl e => Some e
       | inr false => Some (InvalidIPFormat flag)
       | inr true => None
       end.

(** [entry] is a dict whose ["name"] equals [name]. *)
Definition names (name : string) (entry : pyval) : bool :=
  match entry with
  | PDict d =>
      match dict_get "name" d with
      | Some v => eq_str v name
      | None => false
      end
  | _ => false
  end.

(** The merge loop of [make_config]: the first entry of that name is
    overwritten where it stands, and without one the entry is appended. *)
Definition upsert (name : string) (hub_entry : pyval) (modbus_hubs_list : list pyval)
    : list pyval :=
  match list_find (λ entry, names name entry = true) modbus_hubs_list with
  | Some (i, _) => <[i := hub_entry]> modbus_hubs_list
  | None => modbus_hubs_list ++ [hub_entry]
  end.

Definition safe_device_name_part (name : string) : string :=
  Py.replace "-" "_" (Py.replace " " "_" (Py.lower name)).

Definition sensors_file_path (name : string) : string :=
  "chisage/" +:+ safe_device_name_part name +:+ "_sensors.yaml".

Definition hub_entry (name host : string) (port : Z) : pyval :=
  PDict
    [ (PStr "name", PStr name);
      (PStr "type", PStr "tcp");
      (PStr "host", PStr host);
      (PStr "port", PInt port);
      (PStr "sensors", PStr ("!include " +:+ sensors_file_path name)) ].

(** [[s.to_dict() for s in self.sensors]] *)
Definition sensor_config_list (self : ModbusDevice.t) : list pyval :=
  (λ s, PDict (ModbusRegister.to_dict s)) <$> ModbusDevice.sensors self.

Section Program.

(** [yaml.dump(data, sort_keys=False, indent=2)], and [yaml.safe_load]
    with the constructors registered on the safe loader. *)
Variable yaml_dump : pyval → string.
Variable yaml_safe_load : constructors → string → load_result.

(** The [try] block of [make_config]: what the registry file is taken to
    hold. *)
Definition load_hubs : Run (list pyval) :=
  f ← read_file modbus_hubs_filename;
  match f with
  | None => mret []
  | Some text =>
      match yaml_safe_load safe_loader_constructors text with
      | Loaded (PList l) => mret l
      | Loaded (PDict d) =>
          match dict_get "modbus" d with
          | Some (PList l) => mret l
          | _ => print (MsgWarnUnexpected modbus_hubs_filename);; mret []
          end
      | Loaded PNone => mret []
      | Loaded _ => print (MsgWarnUnexpected modbus_hubs_filename);; mret []
      | YAMLError e => print (MsgWarnParse modbus_hubs_filename e);; mret []
      end
  end.

(** [ModbusDevice.make_config] *)
Definition make_config (self : ModbusDevice.t) (device_port_for_hub : Z) : Run unit :=
  makedirs "chisage";;
  write_file (sensors_file_path (ModbusDevice.name self))
    (yaml_dump (PList (sensor_config_list self)));;
  modbus_hubs_list ← load_hubs;
  let entry :=
    hub_entry (ModbusDevice.name self) (ModbusDevice.host self) device_port_for_hub in
  let modbus_hubs_list := upsert (ModbusDevice.name self) entry modbus_hubs_list in
  write_file modbus_hubs_filename (Re.sub_include (yaml_dump (PList modbus_hubs_list))).

(** The IP set-up of [__main__]. *)
Definition ip_setup (args : Args) : Run ip_locals :=
  match ip_start args with
  | Some (String _ _ as ip_to_process) =>
      let ip_octets := Py.split "." ip_to_process in
      match check_octets "--ip-start" ip_octets with
      | Some e => print (MsgError e);; exit 1
      | None =>
          match ip_octets !! 3%nat ≫= Py.int with
          | None => print (MsgError (InvalidLiteral (default "" (ip_octets !! 3%nat))));; exit 1
          | Some last =>
              print (MsgIpIncremental ip_to_process);;
              mret {| ip_mode_is_start := true;
                      base_ip_prefix := Some (Py.join "." (take 3 ip_octets));
                      last_octet_start := Some last;
                      fixed_ip_str := None |}
          end
      end
  | _ =>
      match ip_fixed args with
      | Some (String _ _ as ip_to_process) =>
          let ip_octets := Py.split "." ip_to_process in
          match check_octets "--ip-fixed" ip_octets with
          | Some e => print (MsgError e);; exit 1
          | None =>
              print (MsgIpFixed ip_to_process);;
              mret {| ip_mode_is_start := false;
                      base_ip_prefix := None;
                      last_octet_start := None;
                      fixed_ip_str := Some ip_to_process |}
          end
      | _ =>
          mret {| ip_mode_is_start := false;
                  base_ip_prefix := None;
                  last_octet_start := None;
                  fixed_ip_str := None |}
      end
  end.

(** [if x:] on an optional integer: [None] and [0] are both false. *)
Definition truthy (x : option Z) : bool :=
  match x with
  | Some z => negb (z =? 0)
  | None => false
  end.

(** The port set-up of [__main__]. *)
Definition port_setup (args : Args) : Run port_locals :=
  if truthy (port_start args) then
    print (MsgPortIncremental (default 0 (port_start args)));;
    mret {| port_mode_is_start := true; port_to_process := port_start args |}
  else if truthy (port_fixed args) then
    print (MsgPortFixed (default 0 (port_fixed args)));;
    mret {| port_mode_is_start := false; port_to_process := port_fixed args |}
  else mret {| port_mode_is_start := false; port_to_process := None |}.

(** The card of one device, under [if args.generate_cards]. *)
Definition card_entity (device_name : string) (reg : ModbusRegister.t) : pyval :=
  let sensor_name_sanitized :=
    Py.replace " " "_" (Py.lower (ModbusRegister.name reg)) in
  let entity_id := "sensor." +:+ sensor_name_sanitized in
  let display_name_in_card :=
    if Py.startswith (device_name +:+ " ") (ModbusRegister.name reg)
    then Py.drop (String.length device_name + 1) (ModbusRegister.name reg)
    else ModbusRegister.name reg in
  PDict [ (PStr "entity", PStr entity_id); (PStr "name", PStr display_name_in_card) ].

Definition card_filename (device_instance_name : string) : string :=
  "chisage/" +:+ Py.replace " " "_" (Py.lower device_instance_name) +:+ "_card.yaml".

Definition generate_card (inverter_device : ModbusDevice.t) : Run unit :=
  let device_name := ModbusDevice.name inverter_device in
  let card_entities := card_entity device_name <$> ModbusDevice.sensors inverter_device in
  let card_config :=
    PDict [ (PStr "type", PStr "entities");
            (PStr "title", PStr device_name);
            (PStr "entities", PList card_entities) ] in
  makedirs "chisage";;
  write_file (card_filename device_name) (yaml_dump card_config);;
  print (MsgGeneratedCard (card_filename device_name)).

Definition device_instance_name (i : Z) : string := "Chisage " +:+ Py.str (i + 1).

(** [# Determine current_host_ip] *)
Definition current_host_ip (args : Args) (ipl : ip_locals) (i : Z) : Run string :=
  if ip_mode_is_start ipl then
    last ← read_var "last_octet_start" (last_octet_start ipl);
    let current_last_octet := last + i in
    if 255 <? current_last_octet then
      print (MsgOverflow (default "" (ip_start args)) i current_last_octet);;
      print MsgOverflowHint;;
      exit 1
    else
      base ← read_var "base_ip_prefix" (base_ip_prefix ipl);
      mret (base +:+ "." +:+ Py.str current_last_octet)
  else read_var "fixed_ip_str" (fixed_ip_str ipl).

(** [# Determine current_port_val] *)
Definition current_port_val (pl : port_locals) (i : Z) : Run Z :=
  if port_mode_is_start pl then
    port ← read_var "port_to_process" (port_to_process pl);
    mret (port + i)
  else read_var "port_to_process" (port_to_process pl).

(** The body of the generation loop at index [i]. *)
Definition generate (args : Args) (ipl : ip_locals) (pl : port_locals) (i : Z) : Run unit :=
  host ← current_host_ip args ipl i;
  port ← current_port_val pl i;
  print (MsgCreating (i + 1) (device_instance_name i) host port (slave_id args));;
  let inverter_device :=
    ChisageInverter.init (device_instance_name i) (slave_id args) host 20 in
  make_config inverter_device port;;
  if generate_cards args then generate_card inverter_device else mret ().

(** [__main__], after [parser.parse_args()]. *)
Definition main (args : Args) : Run unit :=
  ipl ← ip_setup args;
  pl ← port_setup args;
  (if count args <=? 0 then print MsgCountError;; exit 1 else mret ());;
  print (MsgGenerating (count args));;
  print (MsgSlave (slave_id args));;
  for_each (seqZ 0 (count args)) (generate args ipl pl);;
  print MsgSuccess;;
  print (MsgHubUpdated modbus_hubs_filename);;
  print MsgSensorsHint.

End Program.

(** ** A model of the PyYAML calls

    [dump] follows PyYAML's representer and emitter for
    [yaml.dump(data, sort_keys=False, indent=2)]: block style throughout,
    an indentation of two columns, sequences under a mapping key not
    indented, and for each string the style the emitter's scalar analysis
    selects.  It is exact for data made of [None], booleans, integers,
    floats, strings, lists and dicts in which no string holds a line break
    and no scalar is long enough to be folded (a scalar is folded only at a
    space beyond column 80); strings that look like numbers are covered as
    far as [resolve] covers them.

    [load] follows [yaml.safe_load] on the documents of that shape which are a
    list of flat mappings: it gives an answer only for those, and each
    answer is the one the loader gives. *)
Module PyYAML.

Definition dquote : ascii := ascii_of_N 34.
Definition backslash : ascii := ascii_of_N 92.
Definition line_feed : ascii := ascii_of_N 10.
Definition next_line : ascii := ascii_of_N 133.

Fixpoint in_set (c : ascii) (set : string) : bool :=
  match set with
  | EmptyString => false
  | String a r => Ascii.eqb c a || in_set c r
  end.

Fixpoint any_char (p : ascii → bool) (s : string) : bool :=
  match s with
  | EmptyString => false
  | String c r => p c || any_char p r
  end.

Fixpoint last_char (s : string) : option ascii :=
  match s with
  | EmptyString => None
  | String c EmptyString => Some c
  | String _ r => last_char r
  end.

(** *** The emitter's scalar analysis *)

(** [' ' <= ch <= '~'] *)
Definition printable (c : ascii) : bool :=
  ((32 <=? Py.ord c) && (Py.ord c <=? 126))%N.

Definition is_break (c : ascii) : bool :=
  Ascii.eqb c line_feed || Ascii.eqb c next_line.

(** The characters the analysis counts as white space around an indicator:
    NUL, space, tab, carriage return and the line breaks. *)
Definition is_blank (c : ascii) : bool :=
  (Py.ord c =? 0)%N || (Py.ord c =? 32)%N || (Py.ord c =? 9)%N
  || (Py.ord c =? 13)%N || is_break c.

Definition followed_by_whitespace (rest : string) : bool :=
  match rest with
  | EmptyString => true
  | String c _ => is_blank c
  end.

Definition first_block_indicator (c : ascii) (rest : string) : bool :=
  in_set c "#,[]{}&*!|>'%@`" || Ascii.eqb c dquote
  || (in_set c "?:" && followed_by_whitespace rest)
  || (Ascii.eqb c "-" && followed_by_whitespace rest).

Fixpoint later_block_indicator (preceded_by_whitespace : bool) (s : string) : bool :=
  match s with
  | EmptyString => false
  | String c rest =>
      (Ascii.eqb c ":" && followed_by_whitespace rest)
      || (Ascii.eqb c "#" && preceded_by_whitespace)
      || later_block_indicator (is_blank c) rest
  end.

Definition block_indicators (s : string) : bool :=
  Py.startswith "---" s || Py.startswith "..." s
  || match s with
     | EmptyString => false
     | String c rest => first_block_indicator c rest || later_block_indicator (is_blank c) rest
     end.

(** Without [allow_unicode], every character that is neither a line feed
    nor printable ASCII is special. *)
Definition special_characters (s : string) : bool :=
  any_char (λ c, negb (Ascii.eqb c line_feed || printable c)) s.

Definition line_breaks (s : string) : bool := any_char is_break s.

Definition leading_space (s : string) : bool :=
  match s with
  | String " " _ => true
  | _ => false
  end.

Definition trailing_space (s : string) : bool :=
  match last_char s with
  | Some " "%char => true
  | _ => false
  end.

(** A space right before a break, and a break right before a space. *)
Fixpoint space_break (s : string) : bool :=
  match s with
  | String " " (String c _ as rest) => is_break c || space_break rest
  | String _ rest => space_break rest
  | EmptyString => false
  end.

Fixpoint break_space (s : string) : bool :=
  match s with
  | String c (String " " _ as rest) => is_break c || break_space rest
  | String _ rest => break_space rest
  | EmptyString => false
  end.

(** [allow_block_plain]; the leading and trailing breaks of the analysis
    are line breaks and need no flag of their own. *)
Definition allow_block_plain (s : string) : bool :=
  negb (leading_space s || trailing_space s || break_space s || space_break s
        || special_characters s || line_breaks s || block_indicators s).

Definition allow_single_quoted (s : string) : bool :=
  negb (break_space s || space_break s || special_characters s).

(** *** The implicit resolver *)

Definition true_words : list string :=
  ["yes"; "Yes"; "YES"; "true"; "True"; "TRUE"; "on"; "On"; "ON"].
Definition false_words : list string :=
  ["no"; "No"; "NO"; "false"; "False"; "FALSE"; "off"; "Off"; "OFF"].
Definition null_words : list string := ["~"; "null"; "Null"; "NULL"; ""].

Definition nonzero_digit (c : ascii) : bool :=
  ((49 <=? Py.ord c) && (Py.ord c <=? 57))%N.

(** A decimal number without a sign and without a leading zero. *)
Definition is_natural (s : string) : bool :=
  match s with
  | String "0" EmptyString => true
  | String c r => nonzero_digit c && Py.all_chars Py.is_ascii_digit r
  | EmptyString => false
  end.

(** An optional minus sign before such a number: the integers in the form
    [str] writes them. *)
Definition is_decimal (s : string) : bool :=
  match s with
  | String "-" r => is_natural r
  | _ => is_natural s
  end.

Definition decimal_value (s : string) : option Z :=
  match s with
  | String "-" r => Z.opp <$> Py.int r
  | _ => Py.int s
  end.

Fixpoint count_char (a : ascii) (s : string) : nat :=
  match s with
  | EmptyString => O
  | String c r => (if Ascii.eqb c a then 1 else 0) + count_char a r
  end.

(** Digits and at least two dots: no number and no timestamp has two. *)
Definition is_dotted (s : string) : bool :=
  Py.all_chars (λ c, Py.is_ascii_digit c || Ascii.eqb c ".") s
  && (2 <=? count_char "." s)%nat.

Fixpoint strip_zeros (s : string) : string :=
  match s with
  | String "0" r => strip_zeros r
  | _ => s
  end.

(** Such an integer, a point and a fraction, with at most fifteen digits, no
    zero at the end of the fraction unless it is its single digit, and not
    below 0.0001: the positional [repr] of a float, which reads back as the
    same float. *)
Definition is_positional_float (s : string) : bool :=
  let u := match s with String "-" r => r | _ => s end in
  match Py.split "." u with
  | [i; f] =>
      is_natural i && Py.all_chars Py.is_ascii_digit f
      && (String.eqb f "0"
          || (negb (String.eqb f "")
              && negb (bool_decide (last_char f = Some "0"%char))))
      && (String.length i + String.length f <=? 15)%nat
      && (negb (String.eqb i "0") || String.eqb f "0"
          || (String.length f - String.length (strip_zeros f) <=? 3)%nat)
  | _ => false
  end.

Definition numeric_start (c : ascii) : bool :=
  Py.is_ascii_digit c || in_set c "-+.".

(** The value a plain scalar stands for, following the resolver's implicit
    tags.  There is no answer ([None]) for the forms that are not covered:
    a scalar that starts like a number and is none of the three forms
    above, the merge key and the default-value key. *)
Definition resolve (s : string) : option pyval :=
  if bool_decide (s ∈ true_words) then Some (PBool true)
  else if bool_decide (s ∈ false_words) then Some (PBool false)
  else if bool_decide (s ∈ null_words) then Some PNone
  else match s with
       | EmptyString => Some PNone
       | String c _ =>
           if numeric_start c then
             if is_decimal s then PInt <$> decimal_value s
             else if is_dotted s then Some (PStr s)
             else if is_positional_float s then Some (PFloat (PyFloat s))
             else None
           else if String.eqb s "<<" || String.eqb s "=" then None
           else Some (PStr s)
       end.

(** *** Writing scalars *)

Inductive style := Plain | SingleQuoted | DoubleQuoted.

(** [choose_scalar_style] in block context; a string that [resolve] does not
    cover is quoted. *)
Definition implicit_str (s : string) : bool :=
  match resolve s with
  | Some (PStr t) => String.eqb t s
  | _ => false
  end.

Definition choose_scalar_style (s : string) : style :=
  if implicit_str s && allow_block_plain s then Plain
  else if allow_single_quoted s then SingleQuoted
  else DoubleQuoted.

Fixpoint write_single_quoted_body (s : string) : string :=
  match s with
  | EmptyString => EmptyString
  | String c r =>
      if Ascii.eqb c Re.quote then String c (String c (write_single_quoted_body r))
      else String c (write_single_quoted_body r)
  end.

Definition hex_digit (n : N) : ascii :=
  if (n <? 10)%N then ascii_of_N (48 + n) else ascii_of_N (55 + n).

(** The escape of one character in a double-quoted scalar. *)
Definition escape (c : ascii) : string :=
  let bs x := String backslash x in
  match Py.ord c with
  | 0%N => bs "0" | 7%N => bs "a" | 8%N => bs "b" | 9%N => bs "t"
  | 10%N => bs "n" | 11%N => bs "v" | 12%N => bs "f" | 13%N => bs "r"
  | 27%N => bs "e" | 34%N => bs (String dquote "") | 92%N => bs (String backslash "")
  | 133%N => bs "N" | 160%N => bs "_"
  | n =>
      if printable c then String c EmptyString
      else bs (String "x" (String (hex_digit (n / 16)) (String (hex_digit (n mod 16)) "")))
  end.

Fixpoint write_double_quoted_body (s : string) : string :=
  match s with
  | EmptyString => EmptyString
  | String c r => escape c +:+ write_double_quoted_body r
  end.

Definition write_str (s : string) : string :=
  match choose_scalar_style s with
  | Plain => s
  | SingleQuoted => String Re.quote (write_single_quoted_body s) +:+ "'"
  | DoubleQuoted => String dquote (write_double_quoted_body s) +:+ String dquote ""
  end.

(** [represent_float]: [repr] in lower case, with [.0] put before the
    exponent of a mantissa that has no point. *)
Fixpoint point_before_exponent (s : string) : string :=
  match s with
  | EmptyString => EmptyString
  | String "e" r => String "." (String "0" (String "e" r))
  | String c r => String c (point_before_exponent r)
  end.

Definition write_float (r : pyfloat) : string :=
  let value := Py.lower (float_repr r) in
  if String.eqb value "nan" then ".nan"
  else if String.eqb value "inf" then ".inf"
  else if String.eqb value "-inf" then "-.inf"
  else if negb (any_char (Ascii.eqb ".") value) && any_char (Ascii.eqb "e") value
       then point_before_exponent value
       else value.

Definition is_collection (v : pyval) : bool :=
  match v with
  | PList (_ :: _) | PDict (_ :: _) => true
  | _ => false
  end.

(** The text of a scalar, and of an empty collection, which is written in
    flow style. *)
Definition write_scalar (v : pyval) : string :=
  match v with
  | PNone => "null"
  | PBool true => "true"
  | PBool false => "false"
  | PInt z => Py.str z
  | PFloat r => write_float r
  | PStr s => write_str s
  | PList _ => "[]"
  | PDict _ => "{}"
  | PObject _ repr => repr
  end.

(** *** The block emitter *)

(** A sequence item: the dash on the first line, two columns of
    indentation on the following ones. *)
Definition item_lines (node : list string) : list string :=
  match node with
  | [] => []
  | first :: more => ("- " +:+ first) :: (String.append "  " <$> more)
  end.

(** A mapping entry whose value has the lines [node]: a scalar stays on the
    line of the key, a sequence starts below it in the same column, a mapping
    below it two columns further in. *)
Definition pair_lines (key : string) (value : pyval) (node : list string) : list string :=
  match value with
  | PList (_ :: _) => (key +:+ ":") :: node
  | PDict (_ :: _) => (key +:+ ":") :: (String.append "  " <$> node)
  | _ => [key +:+ ": " +:+ write_scalar value]
  end.

(** The lines of a node, relative to the column it starts in. *)
Fixpoint block_lines (v : pyval) : list string :=
  match v with
  | PList ((_ :: _) as items) =>
      (fix each (l : list pyval) : list string :=
         match l with
         | [] => []
         | item :: r => item_lines (block_lines item) ++ each r
         end) items
  | PDict ((_ :: _) as pairs) =>
      (fix each (l : list (pyval * pyval)) : list string :=
         match l with
         | [] => []
         | (k, x) :: r => pair_lines (write_scalar k) x (block_lines x) ++ each r
         end) pairs
  | _ => [write_scalar v]
  end.

Fixpoint unlines (lines : list string) : string :=
  match lines with
  | [] => EmptyString
  | l :: r => l +:+ String line_feed (unlines r)
  end.

(** [yaml.dump(data, sort_keys=False, indent=2)] for a list or a dict. *)
Definition dump (data : pyval) : string := unlines (block_lines data).

(** *** The loader *)

(** The lines of a text in which every line is ended by a line feed. *)
Fixpoint split_lines (s : string) : option (list string) :=
  match s with
  | EmptyString => Some []
  | String c r =>
      if Ascii.eqb c line_feed then cons EmptyString <$> split_lines r
      else match split_lines r with
           | Some (l :: ls) => Some (String c l :: ls)
           | _ => None
           end
  end.

(** The content of a single-quoted scalar that ends its line, read after
    the opening quote: a doubled quote stands for one. *)
Fixpoint read_single_quoted (s : string) : option string :=
  match s with
  | EmptyString => None
  | String c r =>
      if Ascii.eqb c Re.quote then
        match r with
        | EmptyString => Some EmptyString
        | String c' r' =>
            if Ascii.eqb c' Re.quote then String c <$> read_single_quoted r' else None
        end
      else if printable c then String c <$> read_single_quoted r
      else None
  end.

Definition hex_value (c : ascii) : option N :=
  if Py.is_ascii_digit c then Some (Py.ord c - 48)%N
  else if ((65 <=? Py.ord c) && (Py.ord c <=? 70))%N then Some (Py.ord c - 55)%N
  else if ((97 <=? Py.ord c) && (Py.ord c <=? 102))%N then Some (Py.ord c - 87)%N
  else None.

(** The character a one-letter escape stands for. *)
Definition unescape (c : ascii) : option ascii :=
  if Ascii.eqb c "0" then Some (ascii_of_N 0)
  else if Ascii.eqb c "a" then Some (ascii_of_N 7)
  else if Ascii.eqb c "b" then Some (ascii_of_N 8)
  else if Ascii.eqb c "t" then Some (ascii_of_N 9)
  else if Ascii.eqb c "n" then Some (ascii_of_N 10)
  else if Ascii.eqb c "v" then Some (ascii_of_N 11)
  else if Ascii.eqb c "f" then Some (ascii_of_N 12)
  else if Ascii.eqb c "r" then Some (ascii_of_N 13)
  else if Ascii.eqb c "e" then Some (ascii_of_N 27)
  else if Ascii.eqb c dquote then Some dquote
  else if Ascii.eqb c backslash then Some backslash
  else if Ascii.eqb c "N" then Some next_line
  else if Ascii.eqb c "_" then Some (ascii_of_N 160)
  else None.

(** The content of a double-quoted scalar that ends its line, read after
    the opening quote. *)
Fixpoint read_double_quoted (s : string) : option string :=
  match s with
  | EmptyString => None
  | String c r =>
      if Ascii.eqb c dquote then
        match r with
        | EmptyString => Some EmptyString
        | _ => None
        end
      else if Ascii.eqb c backslash then
        match r with
        | String "x" (String h (String l r')) =>
            hi ← hex_value h; lo ← hex_value l;
            String (ascii_of_N (16 * hi + lo)) <$> read_double_quoted r'
        | String e r' =>
            if Ascii.eqb e "x" then None
            else a ← unescape e; String a <$> read_double_quoted r'
        | EmptyString => None
        end
      else if printable c then String c <$> read_double_quoted r
      else None
  end.

(** A plain scalar that reaches the end of its line: the texts the
    analysis admits in plain style. *)
Definition read_plain (s : string) : option string :=
  if allow_block_plain s && negb (String.eqb s "") then Some s else None.

Definition tag_char (c : ascii) : bool :=
  Py.is_ascii_digit c || in_set c "-_"
  || ((65 <=? Py.ord c) && (Py.ord c <=? 90))%N
  || ((97 <=? Py.ord c) && (Py.ord c <=? 122))%N.

(** The characters up to the first space, and what follows the spaces. *)
Fixpoint skip_spaces (s : string) : string :=
  match s with
  | String " " r => skip_spaces r
  | _ => s
  end.

Fixpoint split_tag (s : string) : option (string * string) :=
  match s with
  | EmptyString => None
  | String " " r => Some (EmptyString, skip_spaces r)
  | String c r =>
      if tag_char c then '(tag, rest) ← split_tag r; Some (String c tag, rest)
      else None
  end.

Fixpoint constructor_for (ctors : constructors) (tag : string)
    : option (ScalarNode → pyval) :=
  match ctors with
  | [] => None
  | (t, f) :: r => if String.eqb t tag then Some f else constructor_for r tag
  end.

(** The value after [key: ]: a quoted scalar, a plain scalar under a
    local tag that has a constructor, or a plain scalar. *)
Definition read_value (ctors : constructors) (s : string) : option pyval :=
  match s with
  | EmptyString => None
  | String c r =>
      if Ascii.eqb c Re.quote then PStr <$> read_single_quoted r
      else if Ascii.eqb c dquote then PStr <$> read_double_quoted r
      else if Ascii.eqb c "!" then
        '(name, rest) ← split_tag r;
        value ← read_plain rest;
        f ← constructor_for ctors (String "!" name);
        if String.eqb name "" then None
        else Some (f {| node_tag := String "!" name; node_value := value |})
      else read_plain s ≫= resolve
  end.

(** The text before the first colon that a space follows, and the text
    after that space. *)
Fixpoint split_key (s : string) : option (string * string) :=
  match s with
  | EmptyString => None
  | String c r =>
      match r with
      | String " " v => if Ascii.eqb c ":" then Some (EmptyString, v)
                        else '(k, v') ← split_key r; Some (String c k, v')
      | _ => '(k, v') ← split_key r; Some (String c k, v')
      end
  end.

(** [key: value] with a plain string key. *)
Definition read_pair (ctors : constructors) (s : string) : option (pyval * pyval) :=
  '(k, v) ← split_key s;
  key ← read_plain k ≫= resolve;
  value ← read_value ctors v;
  match key with
  | PStr _ => Some (key, value)
  | _ => None
  end.

(** The lines of a list of flat mappings, read from the last line up: the
    entries that are complete, and the pairs met since the last line that
    began one. *)
Fixpoint read_block (ctors : constructors) (lines : list string)
    : option (pydict * list pyval) :=
  match lines with
  | [] => Some ([], [])
  | line :: rest =>
      '(pending, entries) ← read_block ctors rest;
      match line with
      | String "-" (String " " s) =>
          p ← read_pair ctors s; Some ([], PDict (p :: pending) :: entries)
      | String " " (String " " s) =>
          p ← read_pair ctors s; Some (p :: pending, entries)
      | _ => None
      end
  end.

Fixpoint distinct_keys (d : pydict) : bool :=
  match d with
  | [] => true
  | (PStr k, _) :: r => negb (bool_decide (is_Some (dict_get k r))) && distinct_keys r
  | _ => false
  end.

Definition well_keyed (entry : pyval) : bool :=
  match entry with
  | PDict d => distinct_keys d
  | _ => false
  end.

(** [yaml.safe_load(text)] with the given constructors, where the model
    has an answer. *)
Definition load (ctors : constructors) (text : string) : option load_result :=
  if String.eqb text "" then Some (Loaded PNone)
  else
    lines ← split_lines text;
    if bool_decide (lines = ["[]"]) then Some (Loaded (PList []))
    else
      '(pending, entries) ← read_block ctors lines;
      match pending with
      | [] => if forallb well_keyed entries then Some (Loaded (PList entries)) else None
      | _ => None
      end.

(** The loader as the program calls it; a text the model has no answer for
    counts as unreadable. *)
Definition safe_load (ctors : constructors) (text : string) : load_result :=
  default (YAMLError "document outside the model") (load ctors text).

End PyYAML.

(** The program over the model of PyYAML. *)
Definition run_main (args : Args) : Run unit := main PyYAML.dump PyYAML.safe_load args.

Definition empty_world : world := World ∅ ∅ [].

(** ** Vocabulary of the statements *)

(** The name an entry goes by in the merge: the string under ["name"] of a
    dict.  Any other entry has none, and the merge never matches it. *)
Definition entry_name (entry : pyval) : option string :=
  match entry with
  | PDict d =>
      match dict_get "name" d with
      | Some (PStr s) => Some s
      | _ => None
      end
  | _ => None
  end.

Definition entry_names (registry : list pyval) : list string := omap entry_name registry.


(** A device tuple as the loop derives it. *)
Record derived_device := {
  derived_name : string;
  derived_host : string;
  derived_port : Z;
  derived_slave : Z
}.

(** The tuples a run derived, read off its [Creating Inverter] lines. *)
Definition derived (out : list message) : list derived_device :=
  omap (λ m, match m with
             | MsgCreating _ name host port slave => Some (Build_derived_device name host port slave)
             | _ => None
             end) out.

(** The world with some more lines printed. *)
Definition say (w : world) (lines : list message) : world :=
  World (files w) (dirs w) (stdout w ++ lines).

(** Two worlds with the same files and directories. *)
Definition same_disk (w1 w2 : world) : Prop :=
  files w1 = files w2 ∧ dirs w1 = dirs w2.


(** The check both IP branches apply, on the argument itself. *)
Definition ip_ok (ip : string) : bool :=
  bool_decide (check_octets "" (Py.split "." ip) = None).

(** An octet as the specification has it: decimal digits, at least one,
    with a value of at most 255. *)
Definition octet (o : string) : Prop :=
  o ≠ "" ∧ Py.all_chars Py.is_ascii_digit o = true
  ∧ ∃ n, Py.int o = Some n ∧ 0 ≤ n ≤ 255.

(** Exactly four octets with dots between them. *)
Definition well_formed_ip (ip : string) : Prop :=
  ∃ a b c d, octet a ∧ octet b ∧ octet c ∧ octet d
    ∧ ip = a +:+ "." +:+ b +:+ "." +:+ c +:+ "." +:+ d.

(** The last octet of an address the check accepts. *)
Definition last_octet (ip : string) : Z :=
  default 0 (Py.split "." ip !! 3%nat ≫= Py.int).

(** A computation whose outcome and files do not depend on what was
    printed before. *)
Definition disk_only {A} (m : Run A) : Prop :=
  ∀ w1 w2, same_disk w1 w2 →
    fst (m w1) = fst (m w2) ∧ same_disk (snd (m w1)) (snd (m w2)).

(** The tuple of index [i] for the given arguments. *)
Definition expected_device (args : Args) (i : Z) : derived_device :=
  {| derived_name := "Chisage " +:+ Py.str (i + 1);
     derived_host :=
       match ip_start args with
       | Some ip =>
           Py.join "." (take 3 (Py.split "." ip)) +:+ "." +:+ Py.str (last_octet ip + i)
       | None => default "" (ip_fixed args)
       end;
     derived_port :=
       match port_start args with
       | Some p => p + i
       | None => default 0 (port_fixed args)
       end;
     derived_slave := slave_id args |}.

(** The address option in use and its value, as [argparse] guarantees
    them: exactly one of the two options was given. *)
Definition ip_argument (args : Args) (ip : string) : Prop :=
  (ip_start args = Some ip ∧ ip_fixed args = None)
  ∨ (ip_start args = None ∧ ip_fixed args = Some ip).

Definition port_argument (args : Args) (port : Z) : Prop :=
  (port_start args = Some port ∧ port_fixed args = None)
  ∨ (port_start args = None ∧ port_fixed args = Some port).

(** A loaded value that is not null, not a list, and not a dict with a
    list under ["modbus"]. *)
Definition other_shape (v : pyval) : Prop :=
  v ≠ PNone ∧ (∀ l, v ≠ PList l)
  ∧ (∀ d l, v = PDict d → dict_get "modbus" d ≠ Some (PList l)).

(** ** Sample invocations *)


(** [--count 3 --ip-start 192.168.1.10 --port-start 5001] *)
Definition three_args : Args :=
  {| count := 3; slave_id := 1; ip_start := Some "192.168.1.10"; ip_fixed := None;
     port_start := Some 5001; port_fixed := None; generate_cards := false |}.

(** [--count 1 --ip-fixed 192.168.1.100 --port-fixed 0] *)
Definition port_zero_args : Args :=
  {| count := 1; slave_id := 1; ip_start := None; ip_fixed := Some "192.168.1.100";
     port_start := None; port_fixed := Some 0; generate_cards := false |}.

(** [--count 1 --ip-start "" --port-fixed 5000] *)
Definition empty_ip_args : Args :=
  {| count := 1; slave_id := 1; ip_start := Some ""; ip_fixed := None;
     port_start := None; port_fixed := Some 5000; generate_cards := false |}.

(** A loader that knows one document, a mapping without a [modbus] key. *)
Definition one_mapping_loader (_ : constructors) (text : string) : load_result :=
  if String.eqb text "hubs: none" then Loaded (PDict [(PStr "hubs", PStr "none")])
  else YAMLError "unreadable".

Definition one_mapping_world : world :=
  World {[ modbus_hubs_filename := "hubs: none" ]} ∅ [].

(** ** The documents of the statements *)

Definition quote_free (s : string) : bool :=
  negb (PyYAML.any_char (λ c, Ascii.eqb c Re.quote) s).

Definition single_line (s : string) : bool :=
  negb (PyYAML.any_char (λ c, Ascii.eqb c PyYAML.line_feed) s).

(** No space of [s] lies beyond column 80 when [s] starts in column [col];
    the emitter folds a scalar at a space beyond that column and nowhere
    else. *)
Fixpoint unfolded (col : nat) (s : string) : bool :=
  match s with
  | EmptyString => true
  | String c r => (negb (Ascii.eqb c " ") || (col <=? 80)%nat) && unfolded (S col) r
  end.

(** A string the emitter writes in plain style. *)
Definition plain (s : string) : bool :=
  match PyYAML.choose_scalar_style s with
  | PyYAML.Plain => true
  | _ => false
  end.

(** A key of a flat mapping: a plain string without quote or colon, short
    enough for a simple key. *)
Definition simple_key (k : string) : bool :=
  plain k && quote_free k && negb (PyYAML.any_char (λ c, Ascii.eqb c ":") k)
  && (String.length k <? 128)%nat.

(** A string value written plain, with no quote in it, starting in column
    [col]. *)
Definition plain_value (col : nat) (s : string) : bool :=
  plain s && quote_free s && unfolded col s.

(** [!include <path>] with a path that the pattern of [make_config] takes
    and that is a plain scalar by itself, written after a quote in column
    [col]. *)
Definition include_value (col : nat) (s : string) : bool :=
  match Re.strip_prefix "!include " s with
  | Some path =>
      Re.path_matches path && quote_free path && PyYAML.allow_block_plain path
      && unfolded (S col) s
  | None => false
  end.

(** The column a value starts in: two columns of indentation, the key, a
    colon and a space. *)
Definition value_column (k : string) : nat := 4 + String.length k.

Definition registry_pair (p : pyval * pyval) : bool :=
  match p with
  | (PStr k, PInt _) => simple_key k
  | (PStr k, PStr s) =>
      simple_key k && (plain_value (value_column k) s || include_value (value_column k) s)
  | _ => false
  end.

(** An entry of the registry fragment: a dict with at least one key, its
    keys distinct, of integers, plain strings and include markers. *)
Definition registry_entry (entry : pyval) : bool :=
  match entry with
  | PDict ((_ :: _) as d) => forallb registry_pair d && PyYAML.distinct_keys d
  | _ => false
  end.

Definition registry_fragment (l : list pyval) : bool := forallb registry_entry l.

(** The line of one pair, with the value written by [txt]. *)
Definition row (txt : pyval → string) (p : pyval * pyval) : string :=
  PyYAML.write_scalar p.1 +:+ ": " +:+ txt p.2.

(** The lines of a list of flat mappings. *)
Definition rows (txt : pyval → string) (entry : pyval) : list string :=
  match entry with
  | PDict d => PyYAML.item_lines (row txt <$> d)
  | _ => []
  end.

Definition render (txt : pyval → string) (l : list pyval) : list string :=
  l ≫= rows txt.

(** A value as the registry file shows it after the substitution: a string
    stands as it is, plain or as a tagged scalar. *)
Definition unquoted (v : pyval) : string :=
  match v with
  | PStr s => s
  | _ => PyYAML.write_scalar v
  end.

(** The registry file as [make_config] writes it for the list [l]. *)
Definition written_registry (l : list pyval) : string :=
  Re.sub_include (PyYAML.dump (PList l)).



(** A printable character that is none of space, colon and hash. *)
Definition bland (c : ascii) : bool :=
  PyYAML.printable c && negb (PyYAML.in_set c " :#").

(** A pair whose line is read back: a simple key, and a value whose text
    [txt] stays on the line and reads as the value. *)
Definition readable (ctors : constructors) (txt : pyval → string) (p : pyval * pyval) : Prop :=
  match p with
  | (PStr k, v) =>
      simple_key k = true ∧ single_line (txt v) = true
      ∧ PyYAML.read_value ctors (txt v) = Some v
  | _ => False
  end.

(** An entry all of whose pairs are read back. *)
Definition readable_entry (ctors : constructors) (txt : pyval → string) (entry : pyval) : Prop :=
  match entry with
  | PDict ((_ :: _) as d) => Forall (readable ctors txt) d ∧ PyYAML.distinct_keys d = true
  | _ => False
  end.

(** An entry with at least one key and no list or dict among its values. *)
Definition flat_entry (entry : pyval) : bool :=
  match entry with
  | PDict ((_ :: _) as d) => forallb (λ p, negb (PyYAML.is_collection p.2)) d
  | _ => false
  end.

(** ** Sample registries *)





(** ** The sensor files of the statements *)

(** The line of key [k] with the text [text] ends before column 80, so that
    the emitter folds nothing in it. *)
Definition fits (k text : string) : bool :=
  (value_column k + String.length text <=? 80)%nat.

(** A string value the model covers: no line feed in it, and its line is
    not folded. *)
Definition sensor_text (k s : string) : bool :=
  single_line s && fits k (PyYAML.write_str s).

(** A register the model covers: its strings are such values, and its
    scale, if any, is a float with a positional [repr]. *)
Definition register_in_model (r : ModbusRegister.t) : bool :=
  sensor_text "name" (ModbusRegister.name r)
  && sensor_text "data_type" (ModbusRegister.data_type r)
  && from_option (λ f, PyYAML.is_positional_float (float_repr f)) true (ModbusRegister.scale r)
  && from_option (sensor_text "unit_of_measurement") true (ModbusRegister.unit_of_measurement r)
  && from_option (sensor_text "state_class") true (ModbusRegister.state_class r).

(** The first inverter of a run. *)
Definition first_inverter : ModbusDevice.t :=
  ChisageInverter.init "Chisage 1" 1 "192.168.1.10" 20.

(** The characters of a positional float. *)
Definition float_char (c : ascii) : bool :=
  Py.is_ascii_digit c || Ascii.eqb c "." || Ascii.eqb c "-".

(** ** Vocabulary of the further statements *)

(** A character a slug is made of: no space, no hyphen, no capital
    letter. *)
Definition slug_char (c : ascii) : bool :=
  negb (Ascii.eqb c " ") && negb (Ascii.eqb c "-") && negb (Py.is_upper c).

(** The text without its single quotes. *)
Fixpoint strip_quotes (s : string) : string :=
  match s with
  | EmptyString => EmptyString
  | String c r => if Ascii.eqb c Re.quote then strip_quotes r else String c (strip_quotes r)
  end.

(** The dict [card_config] of the card generation. *)
Definition card_config (inverter_device : ModbusDevice.t) : pyval :=
  PDict [ (PStr "type", PStr "entities");
          (PStr "title", PStr (ModbusDevice.name inverter_device));
          (PStr "entities",
           PList (card_entity (ModbusDevice.name inverter_device)
                    <$> ModbusDevice.sensors inverter_device)) ].

(** The device the loop builds at index [i] when host and port are
    determined. *)
Definition instance (args : Args) (i : Z) : ModbusDevice.t :=
  ChisageInverter.init (device_instance_name i) (slave_id args)
    (derived_host (expected_device args i)) 20.

(** The registry entry of that device. *)
Definition instance_entry (args : Args) (i : Z) : pyval :=
  hub_entry (device_instance_name i) (derived_host (expected_device args i))
    (derived_port (expected_device args i)).

(** The registry after the merges of the first [n] instances, in order. *)
Definition merged (args : Args) (l : list pyval) (n : Z) : list pyval :=
  foldl (λ l i, upsert (device_instance_name i) (instance_entry args i) l) l (seqZ 0 n).

(** The paths a run with these arguments may write to. *)
Definition run_path (args : Args) (p : string) : Prop :=
  p = modbus_hubs_filename
  ∨ ∃ i, 0 ≤ i < count args
      ∧ (p = sensors_file_path (device_instance_name i)
         ∨ (generate_cards args = true ∧ p = card_filename (device_instance_name i))).

(** A computation that leaves every file outside [P] as it is, removes no
    file, and at most adds the directory [chisage]. *)
Definition writes_within {A} (P : string → Prop) (m : Run A) : Prop :=
  ∀ w,
    (∀ p, ¬ P p → files (snd (m w)) !! p = files w !! p)
    ∧ dom (files w) ⊆ dom (files (snd (m w)))
    ∧ dirs w ⊆ dirs (snd (m w))
    ∧ dirs (snd (m w)) ⊆ {["chisage"]} ∪ dirs w.

(** The registry file is absent, or it is the file the program writes for
    a list of the registry fragment. *)
Definition registry_holds (w : world) (l : list pyval) : Prop :=
  registry_fragment l = true
  ∧ (files w !! modbus_hubs_filename = Some (written_registry l)
     ∨ (l = [] ∧ files w !! modbus_hubs_filename = None)).

(** [--count 2 --ip-fixed 192.168.1.300 --port-fixed 5000] and
    [--count 0 --ip-fixed 192.168.1.100 --port-fixed 5000] *)
Definition bad_octet_args : Args :=
  {| count := 2; slave_id := 1; ip_start := None; ip_fixed := Some "192.168.1.300";
     port_start := None; port_fixed := Some 5000; generate_cards := false |}.

Definition zero_count_args : Args :=
  {| count := 0; slave_id := 1; ip_start := None; ip_fixed := Some "192.168.1.100";
     port_start := None; port_fixed := Some 5000; generate_cards := false |}.


(** ** The registry documents of the statements *)

(** The pattern of [make_config] has no match that starts in [t], whatever
    follows [t] on later lines: where [t] goes on with a quote and
    [!include ], the text up to the next quote, which [t] holds, does not
    end in [.yaml] behind a character. *)
Fixpoint unmatched (t : string) : bool :=
  match t with
  | EmptyString => true
  | String _ r =>
      match Re.strip_prefix "'!include " t with
      | Some after =>
          match Re.until_quote after with
          | Some (body, _) => negb (Re.path_matches body)
          | None => false
          end
      | None => true
      end && unmatched r
  end.

(** [!include <path>] with a path that the pattern takes and that is a plain
    scalar by itself. *)
Definition marker (s : string) : bool :=
  match Re.strip_prefix "!include " s with
  | Some path => Re.path_matches path && quote_free path && PyYAML.allow_block_plain path
  | None => false
  end.

(** The emitter folds nothing in the string [s] written from column [col]:
    in plain and single-quoted style it folds at a space beyond column 80
    only, in double-quoted style only in a line that goes beyond it. *)
Definition not_folded (col : nat) (s : string) : bool :=
  match PyYAML.choose_scalar_style s with
  | PyYAML.DoubleQuoted => (col + String.length (PyYAML.write_str s) <=? 80)%nat
  | _ => unfolded col (PyYAML.write_str s)
  end.

(** A value of a registry document: null, a boolean, an integer, a float
    with a positional [repr], or a string of one line that is not folded and
    is either a marker or has no match of the pattern in its text. *)
Definition document_value (col : nat) (v : pyval) : bool :=
  match v with
  | PNone | PBool _ | PInt _ => true
  | PFloat r => PyYAML.is_positional_float (float_repr r)
  | PStr s =>
      single_line s && not_folded col s && (marker s || unmatched (PyYAML.write_str s))
  | _ => false
  end.

Definition document_pair (p : pyval * pyval) : bool :=
  match p with
  | (PStr k, v) => simple_key k && document_value (value_column k) v
  | _ => false
  end.

(** An entry of a registry document: a dict with at least one key, its
    keys simple and distinct. *)
Definition document_entry (entry : pyval) : bool :=
  match entry with
  | PDict ((_ :: _) as d) => forallb document_pair d && PyYAML.distinct_keys d
  | _ => false
  end.

Definition registry_document (l : list pyval) : bool := forallb document_entry l.




(** ** Sample registries for the merge *)




(** * Properties *)

(** ** The registry merge *)

Lemma names_entry_name n e : names n e = true ↔ entry_name e = Some n.
Proof.
  unfold names, entry_name, eq_str.
  destruct e as [| | | | |?|d|]; try (split; discriminate).
  destruct (dict_get "name" d) as [[]|]; try (split; discriminate).
  rewrite String.eqb_eq. split; congruence.
Qed.


Lemma upsert_found n e l i old :
  list_find (λ entry, names n entry = true) l = Some (i, old) →
  upsert n e l = <[i := e]> l.
Proof. unfold upsert. by intros ->. Qed.

Lemma upsert_not_found n e l :
  list_find (λ entry, names n entry = true) l = None →
  upsert n e l = l ++ [e].
Proof. unfold upsert. by intros ->. Qed.

Lemma entry_names_insert n e l i old :
  l !! i = Some old → entry_name old = Some n → entry_name e = Some n →
  entry_names (<[i := e]> l) = entry_names l.
Proof.
  intros Hi Hold He. unfold entry_names.
  rewrite insert_take_drop by (by eapply lookup_lt_Some).
  rewrite <- (take_drop_middle l i old Hi) at 3.
  rewrite !omap_app. simpl. by rewrite Hold, He.
Qed.

Lemma entry_names_lookup l i x n :
  l !! i = Some x → entry_name x = Some n → n ∈ entry_names l.
Proof.
  intros Hi Hx. unfold entry_names. apply list_elem_of_omap.
  exists x. split; [by eapply list_elem_of_lookup_2 | done].
Qed.

(** In a registry with unique names, an entry of a given name is the first
    and only one the scan can stop at. *)
Lemma unique_name_found n l i old :
  NoDup (entry_names l) → l !! i = Some old → entry_name old = Some n →
  list_find (λ entry, names n entry = true) l = Some (i, old).
Proof.
  intros Hnd Hi Hold. apply list_find_Some. split; [done|].
  split; [by apply names_entry_name|].
  intros j y Hj Hlt Hy%names_entry_name.
  rewrite <- (take_drop_middle l i old Hi) in Hnd.
  unfold entry_names in Hnd. rewrite omap_app in Hnd. simpl in Hnd.
  rewrite Hold in Hnd. apply NoDup_app in Hnd as (_ & Hnot & _).
  apply (Hnot n); [|left].
  apply list_elem_of_omap. exists y. split; [|done].
  apply list_elem_of_lookup. exists j. rewrite lookup_take_lt by lia. done.
Qed.

Lemma no_name_not_found n l :
  (∀ old, old ∈ l → entry_name old ≠ Some n) →
  list_find (λ entry, names n entry = true) l = None.
Proof.
  intros H. apply list_find_None, Forall_forall.
  intros x Hx Hn%names_entry_name. by apply (H x).
Qed.


Lemma entry_names_upsert n e l :
  entry_name e = Some n →
  entry_names (upsert n e l)
  = if bool_decide (n ∈ entry_names l) then entry_names l else entry_names l ++ [n].
Proof.
  intros He.
  destruct (list_find (λ entry, names n entry = true) l) as [[i old]|] eqn:Hf.
  - rewrite (upsert_found _ _ _ _ _ Hf).
    apply list_find_Some in Hf as (Hi & Hold%names_entry_name & _).
    rewrite (entry_names_insert n e l i old) by done.
    rewrite bool_decide_eq_true_2; [done|]. by eapply entry_names_lookup.
  - rewrite (upsert_not_found _ _ _ Hf).
    apply list_find_None in Hf. rewrite Forall_forall in Hf.
    rewrite bool_decide_eq_false_2.
    + unfold entry_names. rewrite omap_app. simpl. by rewrite He.
    + intros (x & Hx & Hn)%list_elem_of_omap. apply (Hf x Hx). by apply names_entry_name.
Qed.

Lemma upsert_NoDup n e l :
  entry_name e = Some n → NoDup (entry_names l) → NoDup (entry_names (upsert n e l)).
Proof.
  intros He Hnd. rewrite entry_names_upsert by done.
  case_bool_decide; [done|].
  apply NoDup_app. split; [done|]. split; [|apply NoDup_singleton].
  intros x Hx ->%list_elem_of_singleton. done.
Qed.



(** C4: in a registry whose entry names are unique, an upsert keeps them
    unique; an entry of the same name is overwritten at its position, with
    the length and every other position unchanged, and without such an
    entry the new one is appended at the end. *)
Theorem upsert_unique_names (l : list pyval) (n : string) (e : pyval) :
  entry_name e = Some n →
  NoDup (entry_names l) →
  NoDup (entry_names (upsert n e l))
  ∧ (∀ i old, l !! i = Some old → entry_name old = Some n →
       upsert n e l = <[i := e]> l
       ∧ length (upsert n e l) = length l
       ∧ upsert n e l !! i = Some e
       ∧ ∀ j, j ≠ i → upsert n e l !! j = l !! j)
  ∧ ((∀ old, old ∈ l → entry_name old ≠ Some n) → upsert n e l = l ++ [e]).
Proof.
  intros He Hnd. split; [by apply upsert_NoDup|]. split.
  - intros i old Hi Hold.
    rewrite (upsert_found n e l i old) by (by apply unique_name_found).
    split; [done|]. split; [apply length_insert|].
    split; [apply list_lookup_insert_eq; by eapply lookup_lt_Some|].
    intros j Hj. by apply list_lookup_insert_ne.
  - intros Hnone. by apply upsert_not_found, no_name_not_found.
Qed.

Lemma upsert_unique_names_witness :
  let l := [hub_entry "Chisage 1" "10.0.0.1" 5001; hub_entry "Chisage 2" "10.0.0.2" 5002] in
  let e := hub_entry "Chisage 2" "10.0.0.9" 6000 in
  NoDup (entry_names l)
  ∧ upsert "Chisage 2" e l = [hub_entry "Chisage 1" "10.0.0.1" 5001; e].
Proof.
  intros l e.
  assert (NoDup (entry_names l)) as Hnd by compute_done.
  split; [exact Hnd|].
  destruct (upsert_unique_names l "Chisage 2" e eq_refl Hnd) as (_ & Hin & _).
  destruct (Hin 1%nat (hub_entry "Chisage 2" "10.0.0.2" 5002) eq_refl eq_refl) as (-> & _).
  reflexivity.
Defined.

(** ** Running the program *)

Ltac run_unfold :=
  unfold mbind, mret, run_bind, run_ret, print, exit, raise, makedirs,
    write_file, read_file, read_var, say in *.


Lemma same_disk_refl w : same_disk w w.
Proof. by split. Qed.




Lemma disk_only_ret {A} (a : A) : disk_only (mret a).
Proof. intros w1 w2 H. by split. Qed.


Lemma disk_only_print m : disk_only (print m).
Proof. intros [] [] [??]. by split. Qed.

Lemma disk_only_exit {A} c : disk_only (@exit A c).
Proof. intros w1 w2 H. by split. Qed.

Lemma disk_only_raise {A} e : disk_only (@raise A e).
Proof. intros w1 w2 H. by split. Qed.

Lemma disk_only_makedirs p : disk_only (makedirs p).
Proof. intros [] [] [??]; simplify_eq/=. by split. Qed.

Lemma disk_only_write_file p c : disk_only (write_file p c).
Proof. intros [] [] [??]; simplify_eq/=. by split. Qed.

Lemma disk_only_read_file p : disk_only (read_file p).
Proof. intros [] [] [??]; simplify_eq/=. by split. Qed.

Lemma disk_only_read_var {A} x (v : option A) : disk_only (read_var x v).
Proof. destruct v; [apply disk_only_ret | apply disk_only_raise]. Qed.


Create HintDb disk.
#[local] Hint Resolve disk_only_ret disk_only_print disk_only_exit disk_only_raise
  disk_only_makedirs disk_only_write_file disk_only_read_file disk_only_read_var : disk.


Section ProgramFacts.

Variable yaml_dump : pyval → string.
Variable yaml_safe_load : constructors → string → load_result.





(** What the registry load comes to: a list, and at most a warning. *)
Lemma load_hubs_total w :
  ∃ l warn,
    load_hubs yaml_safe_load w = (Return l, World (files w) (dirs w) (stdout w ++ warn))
    ∧ derived warn = [].
Proof.
  destruct w as [f d o]. unfold load_hubs. run_unfold. simpl.
  destruct (f !! modbus_hubs_filename) as [text|]; simpl.
  - destruct (yaml_safe_load safe_loader_constructors text) as [v|e]; simpl.
    + destruct v as [| | | | |l|dict|]; simpl;
        try (by eexists [], [_]);
        try (by eexists _, []; rewrite app_nil_r).
      destruct (dict_get "modbus" dict) as [[| | | | |l|?|]|]; simpl;
        try (by eexists [], [_]);
        try (by eexists _, []; rewrite app_nil_r).
    + by eexists [], [_].
  - eexists [], []. by rewrite app_nil_r.
Qed.

(** [make_config] always returns: both files are written, the registry
    with the device's entry merged into whatever list the load came to. *)
Lemma make_config_total self port w :
  ∃ l warn,
    make_config yaml_dump yaml_safe_load self port w
    = (Return (),
       World
         (<[modbus_hubs_filename :=
              Re.sub_include
                (yaml_dump
                   (PList (upsert (ModbusDevice.name self)
                             (hub_entry (ModbusDevice.name self) (ModbusDevice.host self) port)
                             l)))]>
            (<[sensors_file_path (ModbusDevice.name self) := yaml_dump (PList (sensor_config_list self))]>
               (files w)))
         ({["chisage"]} ∪ dirs w)
         (stdout w ++ warn))
    ∧ derived warn = [].
Proof.
  unfold make_config.
  set (w1 := World (<[sensors_file_path (ModbusDevice.name self) := yaml_dump (PList (sensor_config_list self))]> (files w))
               ({["chisage"]} ∪ dirs w) (stdout w)).
  destruct (load_hubs_total w1) as (l & warn & Hl & Hw).
  exists l, warn. split; [|done].
  unfold mbind, run_bind, makedirs, write_file. cbn [fst snd files dirs stdout].
  fold w1. rewrite Hl. reflexivity.
Qed.

Lemma generate_card_total dev w :
  generate_card yaml_dump dev w
  = (Return (),
     World (<[card_filename (ModbusDevice.name dev) :=
                yaml_dump
                  (PDict [ (PStr "type", PStr "entities");
                           (PStr "title", PStr (ModbusDevice.name dev));
                           (PStr "entities",
                            PList (card_entity (ModbusDevice.name dev)
                                     <$> ModbusDevice.sensors dev)) ])]> (files w))
           ({["chisage"]} ∪ dirs w)
           (stdout w ++ [MsgGeneratedCard (card_filename (ModbusDevice.name dev))])).
Proof. reflexivity. Qed.



(** *** The set-up of address and port *)

Lemma all_octets_true l :
  all_octets l = inr true →
  Forall (λ o, Py.isdigit o = true ∧ ∃ n, Py.int o = Some n ∧ 0 ≤ n ≤ 255) l.
Proof.
  induction l as [|o l IH]; simpl; [by constructor|].
  destruct (Py.isdigit o) eqn:Hd; [|discriminate].
  destruct (Py.int o) as [n|] eqn:Hn; [|discriminate].
  destruct ((0 <=? n) && (n <=? 255)) eqn:Hr; [|discriminate].
  intros H. constructor; [|by apply IH].
  split; [done|]. exists n. split; [done|]. lia.
Qed.

Lemma ip_ok_check flag ip : ip_ok ip = true → check_octets flag (Py.split "." ip) = None.
Proof.
  unfold ip_ok, check_octets. intros H%bool_decide_eq_true.
  case_bool_decide; [done|].
  by destruct (all_octets (Py.split "." ip)) as [?|[]].
Qed.

Lemma not_ip_ok_check flag ip :
  ip_ok ip = false → ∃ e, check_octets flag (Py.split "." ip) = Some e.
Proof.
  unfold ip_ok, check_octets. intros H%bool_decide_eq_false.
  case_bool_decide; [by eexists|].
  destruct (all_octets (Py.split "." ip)) as [?|[]]; by eauto.
Qed.

Lemma ip_ok_octets ip :
  ip_ok ip = true →
  ∃ a b c d, Py.split "." ip = [a; b; c; d]
    ∧ Forall (λ o, Py.isdigit o = true ∧ ∃ n, Py.int o = Some n ∧ 0 ≤ n ≤ 255) [a; b; c; d].
Proof.
  unfold ip_ok, check_octets. intros H%bool_decide_eq_true.
  case_bool_decide as Hlen; [done|].
  destruct (all_octets (Py.split "." ip)) as [?|[]] eqn:Hall; try done.
  apply all_octets_true in Hall.
  destruct (Py.split "." ip) as [|a [|b [|c [|d [|]]]]]; try discriminate Hlen.
  by exists a, b, c, d.
Qed.

Lemma ip_ok_last ip :
  ip_ok ip = true →
  Py.split "." ip !! 3%nat ≫= Py.int = Some (last_octet ip) ∧ 0 ≤ last_octet ip ≤ 255.
Proof.
  intros (a & b & c & d & Hs & Hall)%ip_ok_octets.
  unfold last_octet. rewrite Hs. simpl.
  apply Forall_cons in Hall as [_ Hall]. apply Forall_cons in Hall as [_ Hall].
  apply Forall_cons in Hall as [_ Hall]. apply Forall_cons in Hall as [(_ & n & -> & ?) _].
  done.
Qed.

Lemma ip_ok_nonempty ip : ip_ok ip = true → ∃ c r, ip = String c r.
Proof. destruct ip; [discriminate|eauto]. Qed.

End ProgramFacts.

Lemma ip_setup_start args ip w :
  ip_start args = Some ip → ip_ok ip = true →
  ip_setup args w
  = (Return {| ip_mode_is_start := true;
               base_ip_prefix := Some (Py.join "." (take 3 (Py.split "." ip)));
               last_octet_start := Some (last_octet ip);
               fixed_ip_str := None |},
     say w [MsgIpIncremental ip]).
Proof.
  intros Hs Hok. unfold ip_setup. rewrite Hs.
  destruct (ip_ok_nonempty ip Hok) as (c & r & ->).
  rewrite (ip_ok_check "--ip-start" _ Hok).
  destruct (ip_ok_last _ Hok) as [-> _]. reflexivity.
Qed.

Lemma ip_setup_fixed args ip w :
  ip_start args = None → ip_fixed args = Some ip → ip_ok ip = true →
  ip_setup args w
  = (Return {| ip_mode_is_start := false;
               base_ip_prefix := None;
               last_octet_start := None;
               fixed_ip_str := Some ip |},
     say w [MsgIpFixed ip]).
Proof.
  intros Hs Hf Hok. unfold ip_setup. rewrite Hs, Hf.
  destruct (ip_ok_nonempty ip Hok) as (c & r & ->).
  rewrite (ip_ok_check "--ip-fixed" _ Hok). reflexivity.
Qed.

Lemma ip_setup_malformed args ip w :
  ip_argument args ip → ip ≠ "" → ip_ok ip = false →
  ∃ e, ip_setup args w = (Exit 1, say w [MsgError e]).
Proof.
  unfold ip_setup. intros Harg Hne Hbad.
  destruct ip as [|c r]; [done|].
  destruct Harg as [[-> _]|[-> ->]].
  - destruct (not_ip_ok_check "--ip-start" _ Hbad) as (e & ->). by exists e.
  - destruct (not_ip_ok_check "--ip-fixed" _ Hbad) as (e & ->). by exists e.
Qed.

Lemma ip_setup_empty args w :
  ip_argument args "" →
  ip_setup args w
  = (Return {| ip_mode_is_start := false; base_ip_prefix := None;
               last_octet_start := None; fixed_ip_str := None |}, w).
Proof. unfold ip_setup. intros [[-> ->]|[-> ->]]; reflexivity. Qed.

Lemma port_setup_start args port w :
  port_start args = Some port → port ≠ 0 →
  port_setup args w
  = (Return {| port_mode_is_start := true; port_to_process := Some port |},
     say w [MsgPortIncremental port]).
Proof.
  intros Hs Hne. unfold port_setup, truthy. rewrite Hs.
  destruct (Z.eqb_spec port 0); [done|]. reflexivity.
Qed.

Lemma port_setup_fixed args port w :
  port_start args = None → port_fixed args = Some port → port ≠ 0 →
  port_setup args w
  = (Return {| port_mode_is_start := false; port_to_process := Some port |},
     say w [MsgPortFixed port]).
Proof.
  intros Hs Hf Hne. unfold port_setup, truthy. rewrite Hs, Hf.
  destruct (Z.eqb_spec port 0); [done|]. reflexivity.
Qed.

Lemma port_setup_zero args w :
  port_argument args 0 →
  port_setup args w
  = (Return {| port_mode_is_start := false; port_to_process := None |}, w).
Proof. unfold port_setup. intros [[-> ->]|[-> ->]]; reflexivity. Qed.

(** *** Host and port of one instance *)

Lemma current_host_ip_start args b L i w :
  L + i ≤ 255 →
  current_host_ip args
    {| ip_mode_is_start := true; base_ip_prefix := Some b;
       last_octet_start := Some L; fixed_ip_str := None |} i w
  = (Return (b +:+ "." +:+ Py.str (L + i)), w).
Proof.
  intros Hle. unfold current_host_ip. run_unfold. simpl.
  destruct (Z.ltb_spec 255 (L + i)); [lia|done].
Qed.

Lemma current_host_ip_overflow args b L i w :
  255 < L + i →
  current_host_ip args
    {| ip_mode_is_start := true; base_ip_prefix := Some b;
       last_octet_start := Some L; fixed_ip_str := None |} i w
  = (Exit 1, say w [MsgOverflow (default "" (ip_start args)) i (L + i); MsgOverflowHint]).
Proof.
  intros Hlt. unfold current_host_ip. run_unfold. simpl.
  destruct (Z.ltb_spec 255 (L + i)); [|lia]. by rewrite <- app_assoc.
Qed.

Lemma current_host_ip_fixed args ip i w :
  current_host_ip args
    {| ip_mode_is_start := false; base_ip_prefix := None;
       last_octet_start := None; fixed_ip_str := Some ip |} i w
  = (Return ip, w).
Proof. reflexivity. Qed.

Lemma current_host_ip_unbound args i w :
  current_host_ip args
    {| ip_mode_is_start := false; base_ip_prefix := None;
       last_octet_start := None; fixed_ip_str := None |} i w
  = (Raise (NameError "fixed_ip_str"), w).
Proof. reflexivity. Qed.

Lemma current_port_val_start p i w :
  current_port_val {| port_mode_is_start := true; port_to_process := Some p |} i w
  = (Return (p + i), w).
Proof. reflexivity. Qed.

Lemma current_port_val_fixed p i w :
  current_port_val {| port_mode_is_start := false; port_to_process := Some p |} i w
  = (Return p, w).
Proof. reflexivity. Qed.

Lemma current_port_val_unbound i w :
  current_port_val {| port_mode_is_start := false; port_to_process := None |} i w
  = (Raise (NameError "port_to_process"), w).
Proof. reflexivity. Qed.


Lemma say_say w l1 l2 : say (say w l1) l2 = say w (l1 ++ l2).
Proof. unfold say. simpl. by rewrite app_assoc. Qed.

Section MainFacts.

Variable yaml_dump : pyval → string.
Variable yaml_safe_load : constructors → string → load_result.

(** [__main__] past the two set-ups and the count check. *)
Lemma main_loop args w ipl pl w1 w2 :
  ip_setup args w = (Return ipl, w1) →
  port_setup args w1 = (Return pl, w2) →
  0 < count args →
  main yaml_dump yaml_safe_load args w
  = (for_each (seqZ 0 (count args)) (generate yaml_dump yaml_safe_load args ipl pl);;
     print MsgSuccess;; print (MsgHubUpdated modbus_hubs_filename);;
     print MsgSensorsHint)
      (say w2 [MsgGenerating (count args); MsgSlave (slave_id args)]).
Proof.
  intros Hip Hport Hcount. unfold main.
  unfold mbind at 1, run_bind at 1. rewrite Hip.
  unfold mbind at 1, run_bind at 1. rewrite Hport.
  destruct (Z.leb_spec (count args) 0); [lia|].
  unfold mbind at 1, run_bind at 1, mret at 1, run_ret at 1.
  unfold mbind at 1, run_bind at 1, print at 1.
  unfold mbind at 1, run_bind at 1, print at 1.
  cbn [files dirs stdout]. unfold say. by rewrite <- app_assoc.
Qed.

(** With a count that is not positive the program stops at the count
    check. *)
Lemma main_count args w ipl pl w1 w2 :
  ip_setup args w = (Return ipl, w1) →
  port_setup args w1 = (Return pl, w2) →
  count args ≤ 0 →
  main yaml_dump yaml_safe_load args w = (Exit 1, say w2 [MsgCountError]).
Proof.
  intros Hip Hport Hcount. unfold main.
  unfold mbind at 1, run_bind at 1. rewrite Hip.
  unfold mbind at 1, run_bind at 1. rewrite Hport.
  destruct (Z.leb_spec (count args) 0); [|lia]. reflexivity.
Qed.

(** The locals after a set-up that went through. *)
Lemma port_setup_ok args port w :
  port_argument args port → port ≠ 0 →
  ∃ pl m,
    port_setup args w = (Return pl, say w [m])
    ∧ derived [m] = []
    ∧ (∀ i w', current_port_val pl i w'
               = (Return (derived_port (expected_device args i)), w')).
Proof.
  intros [[Hps Hpf]|[Hps Hpf]] Hne; eexists _, _.
  - split; [by apply port_setup_start|]. split; [done|].
    intros i w'. unfold expected_device. rewrite Hps. apply current_port_val_start.
  - split; [by apply port_setup_fixed|]. split; [done|].
    intros i w'. unfold expected_device. rewrite Hps, Hpf. apply current_port_val_fixed.
Qed.

Lemma ip_setup_ok args ip w :
  ip_argument args ip → ip_ok ip = true →
  ∃ ipl m,
    ip_setup args w = (Return ipl, say w [m])
    ∧ derived [m] = []
    ∧ (∀ i w', (is_Some (ip_start args) → last_octet ip + i ≤ 255) →
         current_host_ip args ipl i w' = (Return (derived_host (expected_device args i)), w'))
    ∧ (∀ i w', is_Some (ip_start args) → 255 < last_octet ip + i →
         current_host_ip args ipl i w'
         = (Exit 1, say w' [MsgOverflow ip i (last_octet ip + i); MsgOverflowHint])).
Proof.
  intros [[Hs Hf]|[Hs Hf]] Hok; eexists _, _.
  - split; [by apply ip_setup_start|]. split; [done|]. split.
    + intros i w' Hi. unfold expected_device. rewrite Hs.
      apply current_host_ip_start. apply Hi. by eexists.
    + intros i w' _ Hlt. rewrite current_host_ip_overflow by done. by rewrite Hs.
  - split; [by apply ip_setup_fixed|]. split; [done|]. split.
    + intros i w' _. unfold expected_device. rewrite Hs, Hf. apply current_host_ip_fixed.
    + intros i w' [x Hx]. congruence.
Qed.


Lemma expected_device_eq args i :
  Build_derived_device (device_instance_name i) (derived_host (expected_device args i))
    (derived_port (expected_device args i)) (slave_id args)
  = expected_device args i.
Proof. reflexivity. Qed.





(** C9: a port of 0, under either option, passes the set-up without a
    message and without a port mode: [port_to_process] stays unbound, and
    for every count of at least 1 (and a well-formed address) the run ends in
    an uncaught [NameError] at the first use, before any file is touched. *)
Theorem port_zero_NameError args ip w :
  ip_argument args ip → ip_ok ip = true →
  port_argument args 0 →
  1 ≤ count args →
  (∀ w', port_setup args w'
         = (Return {| port_mode_is_start := false; port_to_process := None |}, w'))
  ∧ ∃ m,
      main yaml_dump yaml_safe_load args w
      = (Raise (NameError "port_to_process"),
         say w [m; MsgGenerating (count args); MsgSlave (slave_id args)])
      ∧ (m = MsgIpIncremental ip ∨ m = MsgIpFixed ip).
Proof.
  intros Hip Hok Hport Hcount.
  split; [intros w'; by apply port_setup_zero|].
  destruct (ip_setup_ok args ip w Hip Hok) as (ipl & m & Hipl & _ & Hhost & _).
  exists m. split.
  - rewrite (main_loop args w ipl _ (say w [m]) (say w [m]) Hipl (port_setup_zero _ _ Hport))
      by lia.
    rewrite seqZ_cons by lia. cbn [for_each].
    unfold mbind at 1, run_bind at 1. unfold mbind at 1, run_bind at 1.
    unfold generate at 1. unfold mbind at 1, run_bind at 1.
    rewrite Hhost.
    + unfold mbind at 1, run_bind at 1. rewrite current_port_val_unbound.
      by rewrite say_say.
    + intros _. destruct (ip_ok_last ip Hok) as [_ ?]. lia.
  - destruct Hip as [[Hs Hf]|[Hs Hf]].
    + left. rewrite (ip_setup_start args ip w Hs Hok) in Hipl.
      unfold say in Hipl. injection Hipl as _ Hm.
      by apply app_inv_head in Hm as [= ->].
    + right. rewrite (ip_setup_fixed args ip w Hs Hf Hok) in Hipl.
      unfold say in Hipl. injection Hipl as _ Hm.
      by apply app_inv_head in Hm as [= ->].
Qed.

(** X4: an empty address argument skips both branches of the address set-up:
    with a positive count and a port other than 0 the run ends in an
    uncaught [NameError], not in the error message and [exit(1)] of the
    address check. *)
Theorem empty_ip_NameError args port w :
  ip_argument args "" →
  port_argument args port → port ≠ 0 →
  1 ≤ count args →
  ∃ m, main yaml_dump yaml_safe_load args w
       = (Raise (NameError "fixed_ip_str"),
          say w [m; MsgGenerating (count args); MsgSlave (slave_id args)]).
Proof.
  intros Hip Hport Hne Hcount.
  destruct (port_setup_ok args port w Hport Hne) as (pl & m & Hpl & _ & _).
  exists m.
  rewrite (main_loop args w _ pl w (say w [m]) (ip_setup_empty _ _ Hip) Hpl) by lia.
  rewrite seqZ_cons by lia. cbn [for_each].
  unfold mbind at 1, run_bind at 1. unfold mbind at 1, run_bind at 1.
  unfold generate at 1. unfold mbind at 1, run_bind at 1.
  rewrite current_host_ip_unbound. by rewrite say_say.
Qed.

(** What the address and count checks do achieve: a malformed address that
    is not empty ends the run in the printed error and [exit(1)], and so does
    a count that is not positive behind an address that passed or was empty;
    no file or directory is touched. *)
Lemma malformed_ip_exits args ip w :
  ip_argument args ip → ip ≠ "" → ip_ok ip = false →
  ∃ e, main yaml_dump yaml_safe_load args w = (Exit 1, say w [MsgError e]).
Proof.
  intros Hip Hne Hbad.
  destruct (ip_setup_malformed args ip w Hip Hne Hbad) as (e & He).
  exists e. unfold main. unfold mbind at 1, run_bind at 1. by rewrite He.
Qed.

Lemma port_setup_total args w :
  ∃ pl ms, port_setup args w = (Return pl, say w ms).
Proof.
  unfold port_setup.
  destruct (truthy (port_start args)); [by eexists _, [_]|].
  destruct (truthy (port_fixed args)); [by eexists _, [_]|].
  eexists _, []. unfold say. rewrite app_nil_r. by destruct w.
Qed.

Lemma nonpositive_count_exits args ip w :
  ip_argument args ip → ip = "" ∨ ip_ok ip = true →
  count args ≤ 0 →
  ∃ ms, main yaml_dump yaml_safe_load args w = (Exit 1, say w (ms ++ [MsgCountError])).
Proof.
  intros Hip Hok Hcount.
  assert (∃ ipl ms, ip_setup args w = (Return ipl, say w ms)) as (ipl & ms1 & Hipl).
  { destruct Hok as [->|Hok].
    - eexists _, []. rewrite (ip_setup_empty _ _ Hip). unfold say.
      rewrite app_nil_r. by destruct w.
    - destruct (ip_setup_ok args ip w Hip Hok) as (ipl & m & ? & _). by eexists _, [_]. }
  destruct (port_setup_total args (say w ms1)) as (pl & ms2 & Hpl).
  exists (ms1 ++ ms2).
  rewrite (main_count args w ipl pl _ _ Hipl Hpl Hcount). by rewrite !say_say, app_assoc.
Qed.

Lemma sensors_file_path_not_registry name : sensors_file_path name ≠ modbus_hubs_filename.
Proof. unfold sensors_file_path, modbus_hubs_filename. by destruct (safe_device_name_part name). Qed.

(** C5: what the registry load comes to.  A missing file gives the empty
    list and no warning; a list is taken as it is; a dict with a list under
    [modbus] gives that list; any other value that is not null is warned
    about and gives the empty list, so that the registry [make_config] then
    writes holds the device's entry and nothing else. *)
Theorem registry_load_shapes w :
  let file := files w !! modbus_hubs_filename in
  let loaded text := yaml_safe_load safe_loader_constructors text in
  (file = None → load_hubs yaml_safe_load w = (Return [], w))
  ∧ (∀ text l, file = Some text → loaded text = Loaded (PList l) →
       load_hubs yaml_safe_load w = (Return l, w))
  ∧ (∀ text d l, file = Some text → loaded text = Loaded (PDict d) →
       dict_get "modbus" d = Some (PList l) →
       load_hubs yaml_safe_load w = (Return l, w))
  ∧ (∀ text v, file = Some text → loaded text = Loaded v → other_shape v →
       load_hubs yaml_safe_load w
       = (Return [], say w [MsgWarnUnexpected modbus_hubs_filename])
       ∧ ∀ self port, ∃ w',
           make_config yaml_dump yaml_safe_load self port w = (Return (), w')
           ∧ files w' !! modbus_hubs_filename
             = Some (Re.sub_include
                       (yaml_dump
                          (PList [hub_entry (ModbusDevice.name self)
                                    (ModbusDevice.host self) port])))).
Proof.
  intros file loaded. subst file loaded.
  assert (∀ w0 text v, files w0 !! modbus_hubs_filename = Some text →
            yaml_safe_load safe_loader_constructors text = Loaded v → other_shape v →
            load_hubs yaml_safe_load w0
            = (Return [], say w0 [MsgWarnUnexpected modbus_hubs_filename])) as Hother.
  { intros w0 text v Hfile Hload (Hnull & Hlist & Hdict).
    unfold load_hubs. run_unfold. rewrite Hfile, Hload.
    destruct v as [| | | | |l|d|]; try done.
    - by destruct (Hlist l).
    - destruct (dict_get "modbus" d) as [[| | | | |l|?|]|] eqn:Hd; try done.
      by destruct (Hdict d l). }
  split; [|split; [|split]].
  - intros Hfile. unfold load_hubs. run_unfold. by rewrite Hfile.
  - intros text l Hfile Hload. unfold load_hubs. run_unfold.
    by rewrite Hfile, Hload.
  - intros text dict l Hfile Hload Hd. unfold load_hubs. run_unfold.
    by rewrite Hfile, Hload, Hd.
  - intros text v Hfile Hload Hshape. split; [by apply (Hother w text v)|].
    intros self port. eexists. split.
    + unfold make_config, mbind, run_bind, makedirs, write_file.
      cbn [fst snd files dirs stdout].
      rewrite (Hother _ text v); [reflexivity| |done..].
      cbn [files]. rewrite lookup_insert_ne; [done|apply sensors_file_path_not_registry].
    + cbn [files say]. by rewrite lookup_insert_eq.
Qed.

End MainFacts.

(** ** The program over the model of PyYAML *)





Lemma port_zero_NameError_witness :
  run_main port_zero_args empty_world
  = (Raise (NameError "port_to_process"),
     World ∅ ∅ [MsgIpFixed "192.168.1.100"; MsgGenerating 1; MsgSlave 1]).
Proof.
  destruct (port_zero_NameError PyYAML.dump PyYAML.safe_load port_zero_args
              "192.168.1.100" empty_world)
    as (_ & m & Hrun & [->| ->]).
  - right. split; reflexivity.
  - reflexivity.
  - right. split; reflexivity.
  - reflexivity.
  - exfalso. revert Hrun. by vm_compute.
  - exact Hrun.
Defined.

(** C6 fails on an empty address: the run is not stopped by the address check
    but ends in an uncaught [NameError] from the loop. *)
Theorem empty_ip_start_crashes :
  ip_ok "" = false
  ∧ run_main empty_ip_args empty_world
    = (Raise (NameError "fixed_ip_str"),
       World ∅ ∅ [MsgPortFixed 5000; MsgGenerating 1; MsgSlave 1]).
Proof. split; reflexivity. Qed.

Lemma registry_load_shapes_witness :
  load_hubs one_mapping_loader one_mapping_world
  = (Return [], say one_mapping_world [MsgWarnUnexpected modbus_hubs_filename])
  ∧ load_hubs one_mapping_loader empty_world = (Return [], empty_world).
Proof.
  destruct (registry_load_shapes PyYAML.dump one_mapping_loader one_mapping_world)
    as (_ & _ & _ & Hother).
  destruct (registry_load_shapes PyYAML.dump one_mapping_loader empty_world)
    as (Hnone & _).
  split.
  - apply (Hother "hubs: none" (PDict [(PStr "hubs", PStr "none")])); [reflexivity..|].
    split; [discriminate|]. split; [discriminate|].
    intros d l [= <-]. discriminate.
  - apply Hnone. reflexivity.
Defined.

(** * The text of the YAML files *)


(** ** Strings *)

Lemma string_app_cons (x : ascii) (a b : string) : String x a +:+ b = String x (a +:+ b).
Proof. reflexivity. Qed.

Lemma string_app_assoc (a b c : string) : (a +:+ b) +:+ c = a +:+ (b +:+ c).
Proof. induction a as [|x a IH]; [done|]. rewrite !string_app_cons. by rewrite IH. Qed.

Lemma string_app_nil_l (a : string) : "" +:+ a = a.
Proof. reflexivity. Qed.

Lemma string_length_app (a b : string) :
  String.length (a +:+ b) = (String.length a + String.length b)%nat.
Proof.
  induction a as [|x a IH]; [done|]. rewrite string_app_cons. cbn [String.length].
  by rewrite IH.
Qed.

Lemma any_char_app p (a b : string) :
  PyYAML.any_char p (a +:+ b) = PyYAML.any_char p a || PyYAML.any_char p b.
Proof.
  induction a as [|x a IH]; [done|]. rewrite string_app_cons. simpl.
  by rewrite IH, orb_assoc.
Qed.

(** ** The substitution *)

Lemma until_quote_app path t :
  quote_free path = true →
  Re.until_quote (path +:+ String Re.quote t) = Some (path, t).
Proof.
  unfold quote_free. induction path as [|c path IH]; [done|].
  rewrite string_app_cons. cbn [Re.until_quote PyYAML.any_char]. intros H.
  apply negb_true_iff, orb_false_iff in H as [Hc Hp].
  rewrite Hc, IH; [done|]. by rewrite Hp.
Qed.

Lemma match_here_other c r : Ascii.eqb c Re.quote = false → Re.match_here (String c r) = None.
Proof.
  intros H. unfold Re.match_here. cbn [Re.strip_prefix].
  rewrite Ascii.eqb_sym in H. unfold Re.quote in H. by rewrite H.
Qed.

Lemma sub_from_skip u t : Re.sub_from (String.length u) (u +:+ t) = Re.sub_from 0 t.
Proof. induction u as [|c u IH]; [done|]. rewrite string_app_cons. by simpl. Qed.

Lemma sub_include_quote_free s t :
  quote_free s = true → Re.sub_from 0 (s +:+ t) = s +:+ Re.sub_from 0 t.
Proof.
  unfold quote_free. induction s as [|c s IH]; [done|].
  rewrite !string_app_cons. cbn [PyYAML.any_char]. intros H.
  apply negb_true_iff, orb_false_iff in H as [Hc Hp].
  cbn [Re.sub_from]. rewrite match_here_other by done.
  rewrite IH; [done|]. by rewrite Hp.
Qed.

Lemma sub_include_match path t :
  Re.path_matches path = true → quote_free path = true →
  Re.sub_from 0 ("'!include " +:+ path +:+ String Re.quote t)
  = "!include " +:+ path +:+ Re.sub_from 0 t.
Proof.
  intros Hm Hq.
  change ("'!include " +:+ path +:+ String Re.quote t)
    with (String Re.quote ("!include " +:+ path +:+ String Re.quote t)).
  cbn [Re.sub_from].
  assert (Re.match_here (String Re.quote ("!include " +:+ path +:+ String Re.quote t))
          = Some ("!include " +:+ path, t)) as ->.
  { unfold Re.match_here.
    change (Re.strip_prefix "'!include " (String Re.quote ("!include " +:+ path +:+ String Re.quote t)))
      with (Some (path +:+ String Re.quote t)).
    cbn [mbind option_bind]. rewrite until_quote_app by done. cbn. by rewrite Hm. }
  rewrite string_app_assoc. f_equal. f_equal.
  replace ("!include " +:+ path +:+ String Re.quote t)
    with (("!include " +:+ path +:+ String Re.quote "") +:+ t)
    by (by rewrite !string_app_assoc).
  replace (String.length (String Re.quote (("!include " +:+ path +:+ String Re.quote "") +:+ t))
           - String.length t - 1)%nat
    with (String.length ("!include " +:+ path +:+ String Re.quote "")).
  - apply sub_from_skip.
  - cbn [String.length]. rewrite !string_length_app. cbn [String.length]. lia.
Qed.

(** ** Scalars in the emitter *)

Lemma all_chars_app p (a b : string) :
  Py.all_chars p (a +:+ b) = Py.all_chars p a && Py.all_chars p b.
Proof.
  induction a as [|x a IH]; [done|]. rewrite string_app_cons. cbn [Py.all_chars].
  by rewrite IH, andb_assoc.
Qed.

Lemma all_chars_impl (p q : ascii → bool) s :
  (∀ c, p c = true → q c = true) → Py.all_chars p s = true → Py.all_chars q s = true.
Proof.
  intros Hpq. induction s as [|c s IH]; [done|]. cbn [Py.all_chars].
  intros [Hc Hs]%andb_true_iff. by rewrite (Hpq c Hc), IH.
Qed.

Lemma all_chars_none p q s :
  (∀ c, p c = true → q c = false) → Py.all_chars p s = true → PyYAML.any_char q s = false.
Proof.
  intros Hpq. induction s as [|c s IH]; [done|]. cbn [Py.all_chars PyYAML.any_char].
  intros [Hc Hs]%andb_true_iff. by rewrite (Hpq c Hc), IH.
Qed.

Lemma bland_printable c : bland c = true → PyYAML.printable c = true.
Proof. unfold bland. by intros [? _]%andb_true_iff. Qed.

Lemma printable_not_break c : PyYAML.printable c = true → PyYAML.is_break c = false.
Proof. destruct c as [[][][][][][][][]]; try discriminate; reflexivity. Qed.

Lemma printable_not_line_feed c :
  PyYAML.printable c = true → Ascii.eqb c PyYAML.line_feed = false.
Proof. destruct c as [[][][][][][][][]]; try discriminate; reflexivity. Qed.

Lemma bland_not_space c : bland c = true → Ascii.eqb c " " = false.
Proof. destruct c as [[][][][][][][][]]; try discriminate; reflexivity. Qed.

Lemma bland_not_colon c : bland c = true → Ascii.eqb c ":" = false.
Proof. destruct c as [[][][][][][][][]]; try discriminate; reflexivity. Qed.

Lemma bland_not_hash c : bland c = true → Ascii.eqb c "#" = false.
Proof. destruct c as [[][][][][][][][]]; try discriminate; reflexivity. Qed.

Lemma bland_special s : Py.all_chars bland s = true → PyYAML.special_characters s = false.
Proof.
  apply all_chars_none. intros c Hc%bland_printable. by rewrite Hc, orb_true_r.
Qed.

Lemma bland_line_breaks s : Py.all_chars bland s = true → PyYAML.line_breaks s = false.
Proof. apply all_chars_none. intros c Hc%bland_printable. by apply printable_not_break. Qed.

Lemma bland_space_break s : Py.all_chars bland s = true → PyYAML.space_break s = false.
Proof.
  induction s as [|c s IH]; [done|]. cbn [Py.all_chars].
  intros [Hc Hs]%andb_true_iff. specialize (IH Hs).
  apply bland_not_space in Hc.
  destruct c as [[][][][][][][][]]; try discriminate Hc; by destruct s.
Qed.

Lemma bland_break_space s : Py.all_chars bland s = true → PyYAML.break_space s = false.
Proof.
  induction s as [|c s IH]; [done|]. cbn [Py.all_chars].
  intros [Hc Hs]%andb_true_iff. specialize (IH Hs).
  destruct s as [|c' s']; [done|].
  cbn [Py.all_chars] in Hs. apply andb_true_iff in Hs as [Hc' _].
  apply bland_not_space in Hc'.
  destruct c' as [[][][][][][][][]]; try discriminate Hc'; exact IH.
Qed.

Lemma bland_leading_space s : Py.all_chars bland s = true → PyYAML.leading_space s = false.
Proof.
  destruct s as [|c s]; [done|]. cbn [Py.all_chars].
  intros [Hc%bland_not_space _]%andb_true_iff.
  destruct c as [[][][][][][][][]]; try discriminate Hc; reflexivity.
Qed.

Lemma bland_last_char s c :
  Py.all_chars bland s = true → PyYAML.last_char s = Some c → bland c = true.
Proof.
  induction s as [|x s IH]; [done|]. cbn [Py.all_chars].
  intros [Hx Hs]%andb_true_iff. destruct s as [|y s']; [by intros [= <-]|].
  apply (IH Hs).
Qed.

Lemma bland_trailing_space s : Py.all_chars bland s = true → PyYAML.trailing_space s = false.
Proof.
  intros Hs. unfold PyYAML.trailing_space.
  destruct (PyYAML.last_char s) as [c|] eqn:Hl; [|done].
  apply (bland_last_char s c Hs), bland_not_space in Hl.
  destruct c as [[][][][][][][][]]; try discriminate Hl; reflexivity.
Qed.

Lemma bland_later_indicator s pw :
  Py.all_chars bland s = true → PyYAML.later_block_indicator pw s = false.
Proof.
  revert pw. induction s as [|c s IH]; [done|]. intros pw. cbn [Py.all_chars].
  intros [Hc Hs]%andb_true_iff. cbn [PyYAML.later_block_indicator].
  by rewrite (bland_not_colon c Hc), (bland_not_hash c Hc), IH.
Qed.

(** A string of bland characters is written plain as soon as its first
    character is no indicator, it is no document marker, and it resolves to a
    string. *)
Lemma bland_allow_block_plain c r :
  Py.all_chars bland (String c r) = true →
  PyYAML.first_block_indicator c r = false →
  Py.startswith "---" (String c r) = false →
  Py.startswith "..." (String c r) = false →
  PyYAML.allow_block_plain (String c r) = true.
Proof.
  intros Hb Hf Hd1 Hd2. unfold PyYAML.allow_block_plain, PyYAML.block_indicators.
  rewrite bland_leading_space, bland_trailing_space, bland_break_space,
    bland_space_break, bland_special, bland_line_breaks by done.
  rewrite Hd1, Hd2, Hf. cbn [orb negb].
  cbn [Py.all_chars] in Hb. apply andb_true_iff in Hb as [_ Hr].
  by rewrite bland_later_indicator.
Qed.

(** ** Integers in decimal *)

Lemma string_of_uint_digits d :
  Py.all_chars Py.is_ascii_digit (NilEmpty.string_of_uint d) = true.
Proof. induction d; simpl; by rewrite ?IHd. Qed.

Lemma to_uint_normal p : unorm (Pos.to_uint p) = Pos.to_uint p.
Proof.
  rewrite <- (DecimalPos.Unsigned.to_of (Pos.to_uint p)).
  by rewrite DecimalPos.Unsigned.of_to.
Qed.

(** The digits of a positive number: a first one that is not 0, then
    digits. *)
Lemma to_uint_head p :
  ∃ c r, NilEmpty.string_of_uint (Pos.to_uint p) = String c r
    ∧ PyYAML.nonzero_digit c = true
    ∧ Py.all_chars Py.is_ascii_digit r = true.
Proof.
  pose proof (to_uint_normal p) as Hn.
  pose proof (DecimalPos.Unsigned.to_uint_nonzero p) as Hz.
  pose proof (string_of_uint_digits (Pos.to_uint p)) as Hd.
  unfold unorm in Hn.
  pose proof (nzhead_nonzero (Pos.to_uint p)) as Hh.
  destruct (nzhead (Pos.to_uint p)) eqn:Hnz; [by rewrite <- Hn in Hz|..];
    try (by destruct (Hh _ eq_refl));
    rewrite <- Hn in Hd |- *; simpl in Hd |- *; eexists _, _; (split; [reflexivity|]);
    by split.
Qed.

Lemma int_string_of_uint p :
  Py.int (NilEmpty.string_of_uint (Pos.to_uint p)) = Some (Z.pos p).
Proof.
  destruct (to_uint_head p) as (c & r & Hs & _). unfold Py.int. rewrite Hs, <- Hs.
  rewrite NilEmpty.usu. simpl. unfold Z.of_uint.
  by rewrite DecimalPos.Unsigned.of_to.
Qed.

Lemma str_pos p : Py.str (Z.pos p) = NilEmpty.string_of_uint (Pos.to_uint p).
Proof.
  unfold Py.str. simpl. unfold NilZero.string_of_uint.
  pose proof (DecimalPos.Unsigned.to_uint_nonnil p). by destruct (Pos.to_uint p).
Qed.

Lemma str_neg p : Py.str (Z.neg p) = String "-" (Py.str (Z.pos p)).
Proof. rewrite str_pos. unfold Py.str. simpl. unfold NilZero.string_of_uint.
  pose proof (DecimalPos.Unsigned.to_uint_nonnil p). by destruct (Pos.to_uint p).
Qed.

(** [str] of a number that is not negative: digits, in the form the
    resolver reads as an integer, and [int] reads it back. *)
Lemma str_natural z :
  0 ≤ z →
  ∃ c r, Py.str z = String c r
    ∧ Py.is_ascii_digit c = true
    ∧ Py.all_chars Py.is_ascii_digit r = true
    ∧ PyYAML.is_natural (Py.str z) = true
    ∧ Py.int (Py.str z) = Some z.
Proof.
  destruct z as [|p|p]; [|intros _|lia].
  - intros _. by exists "0"%char, "".
  - rewrite str_pos. destruct (to_uint_head p) as (c & r & Hs & Hc & Hr).
    exists c, r. split; [done|].
    split; [by destruct c as [[][][][][][][][]]|].
    split; [done|]. split; [|apply int_string_of_uint].
    rewrite Hs. unfold PyYAML.is_natural. rewrite Hc, Hr.
    by destruct c as [[][][][][][][][]]; try discriminate Hc; destruct r.
Qed.

(** ** Reading scalars back *)

Lemma digit_bland c : Py.is_ascii_digit c = true → bland c = true.
Proof. destruct c as [[][][][][][][][]]; try discriminate; reflexivity. Qed.

Lemma digit_not_indicator c r :
  Py.is_ascii_digit c = true → PyYAML.first_block_indicator c r = false.
Proof. destruct c as [[][][][][][][][]]; try discriminate; reflexivity. Qed.

Lemma digit_not_blank c : Py.is_ascii_digit c = true → PyYAML.is_blank c = false.
Proof. destruct c as [[][][][][][][][]]; try discriminate; reflexivity. Qed.

Lemma digits_bland s :
  Py.all_chars Py.is_ascii_digit s = true → Py.all_chars bland s = true.
Proof. apply all_chars_impl, digit_bland. Qed.

Lemma numeric_word c r (words : list string) :
  PyYAML.numeric_start c = true →
  Forall (λ w, match w with String a _ => PyYAML.numeric_start a = false | _ => True end) words →
  String c r ∉ words.
Proof.
  intros Hc Hw Hin. rewrite Forall_forall in Hw. specialize (Hw _ Hin).
  simpl in Hw. congruence.
Qed.

Lemma resolve_natural c r z :
  Py.is_ascii_digit c = true →
  PyYAML.is_natural (String c r) = true → Py.int (String c r) = Some z →
  PyYAML.resolve (String c r) = Some (PInt z).
Proof.
  intros Hc Hn Hz. unfold PyYAML.resolve.
  assert (PyYAML.numeric_start c = true) as Hs by (unfold PyYAML.numeric_start; by rewrite Hc).
  rewrite !bool_decide_eq_false_2
    by (apply numeric_word; [done|repeat constructor]).
  rewrite Hs.
  assert (PyYAML.is_decimal (String c r) = PyYAML.is_natural (String c r)) as ->.
  { by destruct c as [[][][][][][][][]]. }
  assert (PyYAML.decimal_value (String c r) = Py.int (String c r)) as ->.
  { by destruct c as [[][][][][][][][]]. }
  by rewrite Hn, Hz.
Qed.

Lemma resolve_negative c r z :
  Py.is_ascii_digit c = true →
  PyYAML.is_natural (String c r) = true → Py.int (String c r) = Some z →
  PyYAML.resolve (String "-" (String c r)) = Some (PInt (- z)).
Proof.
  intros Hc Hn Hz. unfold PyYAML.resolve.
  rewrite !bool_decide_eq_false_2
    by (apply (numeric_word "-"); [done|repeat constructor]).
  change (PyYAML.numeric_start "-") with true. cbv iota.
  change (PyYAML.is_decimal (String "-" (String c r))) with (PyYAML.is_natural (String c r)).
  change (PyYAML.decimal_value (String "-" (String c r))) with (Z.opp <$> Py.int (String c r)).
  by rewrite Hn, Hz.
Qed.

Lemma read_plain_ok s :
  PyYAML.allow_block_plain s = true → s ≠ "" → PyYAML.read_plain s = Some s.
Proof.
  intros Ha Hne. unfold PyYAML.read_plain. rewrite Ha.
  by destruct (String.eqb_spec s "").
Qed.

Lemma allow_block_plain_first c r :
  PyYAML.allow_block_plain (String c r) = true →
  Ascii.eqb c Re.quote = false ∧ Ascii.eqb c PyYAML.dquote = false
  ∧ Ascii.eqb c "!" = false ∧ Ascii.eqb c " " = false.
Proof.
  unfold PyYAML.allow_block_plain.
  intros H%negb_true_iff. apply orb_false_iff in H as [H Hbi].
  repeat (apply orb_false_iff in H as [H _]).
  unfold PyYAML.block_indicators in Hbi.
  apply orb_false_iff in Hbi as [_ Hbi]. apply orb_false_iff in Hbi as [Hf _].
  revert H Hf. clear. destruct c as [[][][][][][][][]]; try discriminate; done.
Qed.

Lemma read_value_unquoted ctors c r :
  Ascii.eqb c Re.quote = false → Ascii.eqb c PyYAML.dquote = false →
  Ascii.eqb c "!" = false →
  PyYAML.read_value ctors (String c r) = PyYAML.read_plain (String c r) ≫= PyYAML.resolve.
Proof. intros H1 H2 H3. unfold PyYAML.read_value. by rewrite H1, H2, H3. Qed.

(** An integer is read back from what [str] writes for it; that text has
    no quote and no line feed. *)
Lemma read_value_int ctors z :
  PyYAML.read_value ctors (Py.str z) = Some (PInt z)
  ∧ Py.all_chars bland (Py.str z) = true.
Proof.
  destruct (Z.le_gt_cases 0 z) as [Hz|Hz].
  - destruct (str_natural z Hz) as (c & r & Hs & Hc & Hr & Hn & Hi).
    rewrite Hs in *.
    assert (Py.all_chars bland (String c r) = true) as Hb.
    { cbn [Py.all_chars]. by rewrite digit_bland, digits_bland. }
    split; [|done].
    assert (PyYAML.allow_block_plain (String c r) = true) as Ha.
    { apply bland_allow_block_plain; [done|by apply digit_not_indicator|..];
        by destruct c as [[][][][][][][][]]. }
    destruct (allow_block_plain_first c r Ha) as (H1 & H2 & H3 & _).
    rewrite read_value_unquoted, read_plain_ok by done.
    by apply resolve_natural.
  - destruct z as [|p|p]; try lia.
    destruct (str_natural (Z.pos p)) as (c & r & Hs & Hc & Hr & Hn & Hi); [lia|].
    rewrite str_neg, Hs in *.
    assert (Py.all_chars bland (String "-" (String c r)) = true) as Hb.
    { cbn [Py.all_chars]. rewrite (digit_bland c), digits_bland by done. reflexivity. }
    split; [|done].
    assert (PyYAML.allow_block_plain (String "-" (String c r)) = true) as Ha.
    { apply bland_allow_block_plain; [done|..].
      - unfold PyYAML.first_block_indicator, PyYAML.followed_by_whitespace.
        by rewrite digit_not_blank.
      - by destruct c as [[][][][][][][][]].
      - done. }
    rewrite read_value_unquoted, read_plain_ok by done.
    by apply (resolve_negative c r (Z.pos p)).
Qed.

Lemma plain_spec s :
  plain s = true ↔ PyYAML.implicit_str s = true ∧ PyYAML.allow_block_plain s = true.
Proof.
  unfold plain, PyYAML.choose_scalar_style.
  destruct (PyYAML.implicit_str s), (PyYAML.allow_block_plain s); simpl;
    try destruct (PyYAML.allow_single_quoted s); naive_solver.
Qed.

Lemma plain_write s : plain s = true → PyYAML.write_str s = s.
Proof.
  unfold plain, PyYAML.write_str. by destruct (PyYAML.choose_scalar_style s).
Qed.

Lemma implicit_str_resolve s : PyYAML.implicit_str s = true → PyYAML.resolve s = Some (PStr s).
Proof.
  unfold PyYAML.implicit_str.
  destruct (PyYAML.resolve s) as [[| | | |t| | |]|]; try discriminate.
  by intros ->%String.eqb_eq.
Qed.

Lemma plain_nonempty s : plain s = true → s ≠ "".
Proof. by intros H ->. Qed.

(** A plain string is read back as itself. *)
Lemma read_value_plain ctors s :
  plain s = true → PyYAML.read_value ctors s = Some (PStr s).
Proof.
  intros Hp. pose proof (plain_nonempty s Hp) as Hne.
  apply plain_spec in Hp as [Hi Ha].
  destruct s as [|c r]; [done|].
  destruct (allow_block_plain_first c r Ha) as (H1 & H2 & H3 & _).
  rewrite read_value_unquoted, read_plain_ok by done.
  by apply implicit_str_resolve.
Qed.

(** ** Include markers *)

Lemma strip_prefix_spec p s r : Re.strip_prefix p s = Some r → s = p +:+ r.
Proof.
  revert s. induction p as [|a p IH]; intros [|b s]; simpl; try discriminate.
  - by intros [= <-].
  - by intros [= <-].
  - destruct (Ascii.eqb_spec a b) as [->|]; [|discriminate].
    intros H. rewrite string_app_cons. f_equal. by apply IH.
Qed.

Lemma path_matches_nonempty path : Re.path_matches path = true → path ≠ "".
Proof. by destruct path. Qed.

Lemma include_value_spec col s :
  include_value col s = true →
  ∃ path, s = "!include " +:+ path
    ∧ Re.path_matches path = true ∧ quote_free path = true
    ∧ PyYAML.allow_block_plain path = true ∧ path ≠ "".
Proof.
  unfold include_value.
  destruct (Re.strip_prefix "!include " s) as [path|] eqn:Hp; [|discriminate].
  apply strip_prefix_spec in Hp.
  intros [[[Hm Hq]%andb_true_iff Ha]%andb_true_iff _]%andb_true_iff.
  exists path. repeat split; try done. by apply path_matches_nonempty.
Qed.

Lemma allow_block_plain_flags s :
  PyYAML.allow_block_plain s = true →
  PyYAML.leading_space s = false ∧ PyYAML.break_space s = false
  ∧ PyYAML.space_break s = false ∧ PyYAML.special_characters s = false
  ∧ PyYAML.line_breaks s = false.
Proof.
  unfold PyYAML.allow_block_plain. intros H%negb_true_iff.
  repeat (apply orb_false_iff in H as [H ?]). done.
Qed.

Lemma break_space_cons a s :
  PyYAML.leading_space s = false → PyYAML.break_space (String a s) = PyYAML.break_space s.
Proof.
  destruct s as [|c r]; [done|].
  destruct c as [[][][][][][][][]]; try discriminate; reflexivity.
Qed.

Lemma space_break_space s :
  PyYAML.line_breaks s = false →
  PyYAML.space_break (String " " s) = PyYAML.space_break s.
Proof.
  destruct s as [|c r]; [done|]. cbn [PyYAML.line_breaks PyYAML.any_char].
  intros [Hc _]%orb_false_iff. cbn [PyYAML.space_break]. by rewrite Hc.
Qed.

Lemma include_single_quoted path :
  PyYAML.allow_block_plain path = true →
  PyYAML.choose_scalar_style ("!include " +:+ path) = PyYAML.SingleQuoted.
Proof.
  intros (Hl & Hbs & Hsb & Hsp & Hlb)%allow_block_plain_flags.
  unfold PyYAML.choose_scalar_style.
  assert (PyYAML.allow_block_plain ("!include " +:+ path) = false) as ->.
  { unfold PyYAML.allow_block_plain, PyYAML.block_indicators.
    change ("!include " +:+ path) with (String "!" ("include " +:+ path)).
    change (PyYAML.first_block_indicator "!" ("include " +:+ path)) with true.
    by rewrite !orb_true_r. }
  rewrite andb_false_r.
  assert (PyYAML.allow_single_quoted ("!include " +:+ path) = true) as ->; [|done].
  unfold PyYAML.allow_single_quoted.
  unfold PyYAML.special_characters in *. rewrite any_char_app, Hsp.
  change ("!include " +:+ path)
    with (String "!" (String "i" (String "n" (String "c" (String "l" (String "u"
            (String "d" (String "e" (String " " path))))))))).
  assert (PyYAML.break_space
            (String "!" (String "i" (String "n" (String "c" (String "l" (String "u"
               (String "d" (String "e" (String " " path)))))))))
          = PyYAML.break_space (String " " path)) as -> by reflexivity.
  rewrite break_space_cons, Hbs by done.
  assert (PyYAML.space_break
            (String "!" (String "i" (String "n" (String "c" (String "l" (String "u"
               (String "d" (String "e" (String " " path)))))))))
          = PyYAML.space_break (String " " path)) as -> by reflexivity.
  by rewrite space_break_space, Hsb.
Qed.

Lemma write_single_quoted_body_id s :
  quote_free s = true → PyYAML.write_single_quoted_body s = s.
Proof.
  unfold quote_free. induction s as [|c s IH]; [done|].
  cbn [PyYAML.any_char PyYAML.write_single_quoted_body].
  intros [Hc Hs]%negb_true_iff%orb_false_iff. rewrite Hc, IH; [done|]. by rewrite Hs.
Qed.

Lemma quote_free_app a b : quote_free (a +:+ b) = quote_free a && quote_free b.
Proof. unfold quote_free. by rewrite any_char_app, negb_orb. Qed.

(** An include marker is written between quotes. *)
Lemma include_write path :
  PyYAML.allow_block_plain path = true → quote_free path = true →
  PyYAML.write_str ("!include " +:+ path)
  = "'!include " +:+ path +:+ String Re.quote "".
Proof.
  intros Ha Hq. unfold PyYAML.write_str. rewrite include_single_quoted by done.
  rewrite write_single_quoted_body_id by (by rewrite quote_free_app, Hq).
  change (String Re.quote ("!include " +:+ path)) with ("'!include " +:+ path).
  by rewrite string_app_assoc.
Qed.

Lemma skip_spaces_id s : PyYAML.leading_space s = false → PyYAML.skip_spaces s = s.
Proof.
  destruct s as [|c r]; [done|].
  destruct c as [[][][][][][][][]]; try discriminate; reflexivity.
Qed.

(** Without its quotes, the marker is read as a scalar under the tag
    [!include], which the registered constructor turns back into the
    marker. *)
Lemma read_value_include path :
  PyYAML.allow_block_plain path = true → path ≠ "" →
  PyYAML.read_value safe_loader_constructors ("!include " +:+ path)
  = Some (PStr ("!include " +:+ path)).
Proof.
  intros Ha Hne.
  destruct (allow_block_plain_flags path Ha) as (Hl & _).
  change ("!include " +:+ path) with (String "!" ("include " +:+ path)) at 1.
  unfold PyYAML.read_value.
  change (Ascii.eqb "!" Re.quote) with false. change (Ascii.eqb "!" PyYAML.dquote) with false.
  change (Ascii.eqb "!" "!") with true. cbv iota.
  assert (PyYAML.split_tag ("include " +:+ path) = Some ("include", PyYAML.skip_spaces path))
    as -> by reflexivity.
  rewrite skip_spaces_id by done. cbn [mbind option_bind].
  rewrite read_plain_ok by done. reflexivity.
Qed.

(** ** Lines *)

Lemma split_lines_line l t ls :
  single_line l = true → PyYAML.split_lines t = Some ls →
  PyYAML.split_lines (l +:+ String PyYAML.line_feed t) = Some (l :: ls).
Proof.
  unfold single_line. intros Hl Ht. induction l as [|c l IH].
  - rewrite string_app_nil_l. cbn [PyYAML.split_lines].
    rewrite Ascii.eqb_refl, Ht. reflexivity.
  - cbn [PyYAML.any_char] in Hl. apply negb_true_iff, orb_false_iff in Hl as [Hc Hl].
    rewrite string_app_cons. cbn [PyYAML.split_lines]. rewrite Hc, IH; [done|].
    by rewrite Hl.
Qed.

Lemma split_lines_unlines ls :
  Forall (λ l, single_line l = true) ls →
  PyYAML.split_lines (PyYAML.unlines ls) = Some ls.
Proof.
  induction 1 as [|l ls Hl _ IH]; [done|].
  cbn [PyYAML.unlines]. by apply split_lines_line.
Qed.

Lemma unlines_app a b : PyYAML.unlines (a ++ b) = PyYAML.unlines a +:+ PyYAML.unlines b.
Proof.
  induction a as [|l a IH]; [done|]. cbn [app PyYAML.unlines].
  by rewrite IH, string_app_assoc.
Qed.

Lemma single_line_app a b : single_line (a +:+ b) = single_line a && single_line b.
Proof. unfold single_line. by rewrite any_char_app, negb_orb. Qed.

Lemma plain_single_line s : PyYAML.allow_block_plain s = true → single_line s = true.
Proof.
  intros (_ & _ & _ & _ & Hlb)%allow_block_plain_flags. unfold single_line.
  apply negb_true_iff.
  unfold PyYAML.line_breaks in Hlb. induction s as [|c s IH]; [done|].
  cbn [PyYAML.any_char] in *. apply orb_false_iff in Hlb as [Hc Hs].
  rewrite IH by done. unfold PyYAML.is_break in Hc.
  apply orb_false_iff in Hc as [-> _]. done.
Qed.

(** ** Pairs *)

Lemma split_key_app k t :
  PyYAML.any_char (λ c, Ascii.eqb c ":") k = false →
  PyYAML.split_key (k +:+ ": " +:+ t) = Some (k, t).
Proof.
  induction k as [|c k IH]; [done|]. cbn [PyYAML.any_char].
  intros [Hc Hk]%orb_false_iff. specialize (IH Hk).
  rewrite string_app_cons. cbn [PyYAML.split_key]. rewrite IH, Hc.
  by destruct (k +:+ ": " +:+ t) as [|[[][][][][][][][]] ?].
Qed.

Lemma simple_key_spec k :
  simple_key k = true →
  plain k = true ∧ quote_free k = true
  ∧ PyYAML.any_char (λ c, Ascii.eqb c ":") k = false.
Proof.
  unfold simple_key.
  intros [[[Hp Hq]%andb_true_iff Hc%negb_true_iff]%andb_true_iff _]%andb_true_iff.
  done.
Qed.

Lemma row_key txt k v : simple_key k = true → row txt (PStr k, v) = k +:+ ": " +:+ txt v.
Proof.
  intros (Hp & _)%simple_key_spec. unfold row. cbn [fst snd PyYAML.write_scalar].
  by rewrite plain_write.
Qed.

Lemma read_pair_row ctors txt p :
  readable ctors txt p → PyYAML.read_pair ctors (row txt p) = Some p.
Proof.
  destruct p as [[| | | |k| | |] v]; try done. intros (Hk & _ & Hv).
  rewrite row_key by done.
  destruct (simple_key_spec k Hk) as (Hp & _ & Hc).
  unfold PyYAML.read_pair. rewrite split_key_app by done. cbn [mbind option_bind].
  pose proof (plain_nonempty k Hp) as Hne.
  apply plain_spec in Hp as [Hi Ha].
  rewrite read_plain_ok by done. cbn [mbind option_bind].
  rewrite implicit_str_resolve by done. cbn [mbind option_bind].
  by rewrite Hv.
Qed.

(** ** Blocks *)

Lemma read_block_more ctors txt d rest pend entries :
  Forall (readable ctors txt) d →
  PyYAML.read_block ctors rest = Some (pend, entries) →
  PyYAML.read_block ctors ((String.append "  " <$> (row txt <$> d)) ++ rest)
  = Some (d ++ pend, entries).
Proof.
  intros Hd Hrest. induction Hd as [|p d Hp _ IH]; [done|].
  rewrite !fmap_cons. cbn [app PyYAML.read_block]. rewrite IH. cbn [mbind option_bind].
  change ("  " +:+ row txt p) with (String " " (String " " (row txt p))).
  cbv iota. by rewrite read_pair_row.
Qed.

Lemma read_block_entry ctors txt e rest entries :
  readable_entry ctors txt e →
  PyYAML.read_block ctors rest = Some ([], entries) →
  PyYAML.read_block ctors (rows txt e ++ rest) = Some ([], e :: entries).
Proof.
  destruct e as [| | | | | |[|p d]|]; try done. intros [Hd _] Hrest.
  apply Forall_cons in Hd as [Hp Hd].
  unfold rows. rewrite fmap_cons. cbn [PyYAML.item_lines app PyYAML.read_block].
  rewrite (read_block_more ctors txt d rest [] entries) by done. cbn [mbind option_bind].
  change ("- " +:+ row txt p) with (String "-" (String " " (row txt p))).
  cbv iota. rewrite read_pair_row by done. by rewrite app_nil_r.
Qed.

Lemma read_block_render ctors txt l :
  Forall (readable_entry ctors txt) l →
  PyYAML.read_block ctors (render txt l) = Some ([], l).
Proof.
  induction 1 as [|e l He _ IH]; [done|].
  unfold render. rewrite bind_cons. by apply read_block_entry.
Qed.

Lemma readable_single_line ctors txt p prefix :
  readable ctors txt p → single_line prefix = true →
  single_line (prefix +:+ row txt p) = true.
Proof.
  destruct p as [[| | | |k| | |] v]; try done. intros (Hk & Hl & _) Hp.
  rewrite row_key by done. rewrite !single_line_app, Hp, Hl.
  destruct (simple_key_spec k Hk) as ([_ Ha]%plain_spec & _).
  by rewrite plain_single_line.
Qed.

Lemma rows_single_line ctors txt e :
  readable_entry ctors txt e → Forall (λ l, single_line l = true) (rows txt e).
Proof.
  destruct e as [| | | | | |[|p d]|]; try done. intros [Hd _].
  apply Forall_cons in Hd as [Hp Hd]. unfold rows. rewrite fmap_cons.
  cbn [PyYAML.item_lines]. constructor.
  - by apply (readable_single_line ctors).
  - apply Forall_fmap. rewrite Forall_fmap. eapply Forall_impl; [exact Hd|].
    intros q Hq. by apply (readable_single_line ctors).
Qed.

Lemma render_single_line ctors txt l :
  Forall (readable_entry ctors txt) l → Forall (λ l, single_line l = true) (render txt l).
Proof.
  induction 1 as [|e l He _ IH]; [constructor|].
  unfold render. rewrite bind_cons. apply Forall_app. split; [|done].
  by apply (rows_single_line ctors).
Qed.

Lemma readable_entry_keyed ctors txt e : readable_entry ctors txt e → PyYAML.well_keyed e = true.
Proof. destruct e as [| | | | | |[|p d]|]; try done. by intros [_ ?]. Qed.

(** The lines of a list of readable entries load as that list. *)
Lemma load_render ctors txt l :
  l ≠ [] →
  Forall (readable_entry ctors txt) l →
  PyYAML.load ctors (PyYAML.unlines (render txt l)) = Some (Loaded (PList l)).
Proof.
  intros Hne Hl. unfold PyYAML.load.
  destruct l as [|e l]; [done|].
  assert (∃ s ls, render txt (e :: l) = String "-" s :: ls) as (s & ls & Hr).
  { apply Forall_cons in Hl as [He _].
    destruct e as [| | | | | |[|p d]|]; try done.
    unfold render. rewrite bind_cons. unfold rows. rewrite fmap_cons.
    cbn [PyYAML.item_lines app]. by eexists _, _. }
  assert (String.eqb (PyYAML.unlines (render txt (e :: l))) "" = false) as ->.
  { rewrite Hr. cbn [PyYAML.unlines]. by rewrite string_app_cons. }
  rewrite split_lines_unlines by (by apply (render_single_line ctors)).
  cbn [mbind option_bind].
  rewrite bool_decide_eq_false_2 by (rewrite Hr; discriminate).
  rewrite read_block_render by done. cbn [mbind option_bind].
  assert (forallb PyYAML.well_keyed (e :: l) = true) as ->; [|done].
  apply forallb_forall. intros x Hx%list_elem_of_In.
  rewrite Forall_forall in Hl. apply (readable_entry_keyed ctors txt), Hl, Hx.
Qed.

(** ** What the emitter writes for a list of flat mappings *)

Lemma pair_lines_scalar key x node :
  PyYAML.is_collection x = false →
  PyYAML.pair_lines key x node = [key +:+ ": " +:+ PyYAML.write_scalar x].
Proof. by destruct x as [| | | | |[|]|[|]|]. Qed.

Lemma block_lines_flat_dict d :
  d ≠ [] → forallb (λ p, negb (PyYAML.is_collection p.2)) d = true →
  PyYAML.block_lines (PDict d) = row PyYAML.write_scalar <$> d.
Proof.
  assert (∀ d, forallb (λ p, negb (PyYAML.is_collection p.2)) d = true →
    (fix each (l : list (pyval * pyval)) : list string :=
       match l with
       | [] => []
       | (k, x) :: r =>
           PyYAML.pair_lines (PyYAML.write_scalar k) x (PyYAML.block_lines x) ++ each r
       end) d = row PyYAML.write_scalar <$> d) as Heach.
  { clear. intros d. induction d as [|[k x] d IH]; [done|].
    cbn [forallb snd]. intros [Hx Hd]%andb_true_iff. apply negb_true_iff in Hx.
    rewrite pair_lines_scalar, IH by done. reflexivity. }
  destruct d as [|[k x] d]; [done|]. intros _ H.
  rewrite <- (Heach _ H). reflexivity.
Qed.

Lemma block_lines_flat_list l :
  l ≠ [] → forallb flat_entry l = true →
  PyYAML.block_lines (PList l) = render PyYAML.write_scalar l.
Proof.
  assert (∀ l, forallb flat_entry l = true →
    (fix each (l : list pyval) : list string :=
       match l with
       | [] => []
       | item :: r => PyYAML.item_lines (PyYAML.block_lines item) ++ each r
       end) l = render PyYAML.write_scalar l) as Heach.
  { clear. intros l. induction l as [|e l IH]; [done|].
    cbn [forallb]. intros [He Hl]%andb_true_iff.
    unfold render. rewrite bind_cons. fold (render PyYAML.write_scalar l).
    rewrite IH by done. f_equal.
    destruct e as [| | | | | |[|p d]|]; try done.
    unfold rows. by rewrite block_lines_flat_dict. }
  destruct l as [|e l]; [done|]. intros _ H.
  rewrite <- (Heach _ H). reflexivity.
Qed.

(** ** The registry fragment *)

Lemma str_chars z :
  Py.all_chars (λ c, Py.is_ascii_digit c || Ascii.eqb c "-") (Py.str z) = true.
Proof.
  assert (∀ s, Py.all_chars Py.is_ascii_digit s = true →
               Py.all_chars (λ c, Py.is_ascii_digit c || Ascii.eqb c "-") s = true) as Hd.
  { intros s. apply all_chars_impl. by intros c ->. }
  destruct z as [|p|p].
  - reflexivity.
  - destruct (str_natural (Z.pos p)) as (c & r & -> & Hc & Hr & _); [lia|].
    cbn [Py.all_chars]. by rewrite Hc, Hd.
  - rewrite str_neg.
    destruct (str_natural (Z.pos p)) as (c & r & -> & Hc & Hr & _); [lia|].
    cbn [Py.all_chars]. by rewrite Hc, Hd.
Qed.

Lemma str_quote_free z : quote_free (Py.str z) = true.
Proof.
  unfold quote_free. apply negb_true_iff.
  apply (all_chars_none (λ c, Py.is_ascii_digit c || Ascii.eqb c "-"));
    [|apply str_chars].
  intros c H. destruct c as [[][][][][][][][]]; try discriminate H; reflexivity.
Qed.

Lemma str_single_line z : single_line (Py.str z) = true.
Proof.
  unfold single_line. apply negb_true_iff.
  apply (all_chars_none (λ c, Py.is_ascii_digit c || Ascii.eqb c "-"));
    [|apply str_chars].
  intros c H. destruct c as [[][][][][][][][]]; try discriminate H; reflexivity.
Qed.

Lemma registry_pair_readable p :
  registry_pair p = true → readable safe_loader_constructors unquoted p.
Proof.
  destruct p as [[| | | |k| | |] [| |z| |s| | |]]; try done; cbn [registry_pair readable unquoted].
  - intros Hk. split; [done|]. cbn [PyYAML.write_scalar].
    split; [apply str_single_line|apply read_value_int].
  - intros [Hk Hv]%andb_true_iff. split; [done|].
    apply orb_true_iff in Hv as [Hv|Hv].
    + unfold plain_value in Hv.
      apply andb_true_iff in Hv as [[Hp _]%andb_true_iff _].
      split; [|by apply read_value_plain].
      apply plain_spec in Hp as [_ Ha]. by apply plain_single_line.
    + apply include_value_spec in Hv as (path & -> & _ & _ & Ha & Hne).
      split; [|by apply read_value_include].
      rewrite single_line_app. by rewrite (plain_single_line path).
Qed.

Lemma registry_entry_readable e :
  registry_entry e = true → readable_entry safe_loader_constructors unquoted e.
Proof.
  destruct e as [| | | | | |[|p d]|]; try done. cbn [registry_entry readable_entry].
  intros [Hd Hk]%andb_true_iff. split; [|done].
  apply Forall_forall. intros q Hq%list_elem_of_In.
  apply registry_pair_readable. by apply (proj1 (forallb_forall _ _) Hd).
Qed.

Lemma registry_entry_flat e : registry_entry e = true → flat_entry e = true.
Proof.
  destruct e as [| | | | | |[|p d]|]; try done. cbn [registry_entry flat_entry].
  intros [Hd _]%andb_true_iff. apply forallb_forall. intros q Hq.
  apply (proj1 (forallb_forall _ _) Hd) in Hq.
  by destruct q as [[| | | |k| | |] [| |z| |s| | |]].
Qed.

(** The substitution on the line of one pair: the quotes around an include
    marker go, and nothing else changes. *)
Lemma sub_row prefix p t :
  registry_pair p = true → quote_free prefix = true →
  Re.sub_from 0 (prefix +:+ row PyYAML.write_scalar p +:+ String PyYAML.line_feed t)
  = prefix +:+ row unquoted p +:+ String PyYAML.line_feed (Re.sub_from 0 t).
Proof.
  assert (∀ body, quote_free body = true →
            Re.sub_from 0 (prefix +:+ body +:+ String PyYAML.line_feed t)
            = prefix +:+ body +:+ String PyYAML.line_feed (Re.sub_from 0 t)
              ∨ quote_free prefix = false) as Hfree.
  { intros body Hb. destruct (quote_free prefix) eqn:Hp; [left|by right].
    rewrite <- !string_app_assoc.
    rewrite sub_include_quote_free by (by rewrite !quote_free_app, Hp, Hb).
    change (String PyYAML.line_feed t) with (String PyYAML.line_feed "" +:+ t).
    rewrite sub_include_quote_free by done. by rewrite !string_app_assoc. }
  destruct p as [[| | | |k| | |] [| |z| |s| | |]]; try done; cbn [registry_pair].
  - intros Hk Hp. destruct (simple_key_spec k Hk) as (_ & Hq & _).
    rewrite !row_key by done. cbn [unquoted].
    destruct (Hfree (k +:+ ": " +:+ PyYAML.write_scalar (PInt z))) as [H|H]; [|done|congruence].
    rewrite !quote_free_app, Hq. cbn [PyYAML.write_scalar]. by rewrite str_quote_free.
  - intros [Hk Hv]%andb_true_iff Hp. destruct (simple_key_spec k Hk) as (_ & Hq & _).
    rewrite !row_key by done. cbn [unquoted PyYAML.write_scalar].
    apply orb_true_iff in Hv as [Hv|Hv].
    + unfold plain_value in Hv.
      apply andb_true_iff in Hv as [[Hpl Hqs]%andb_true_iff _].
      rewrite plain_write by done.
      destruct (Hfree (k +:+ ": " +:+ s)) as [H|H]; [|done|congruence].
      by rewrite !quote_free_app, Hq, Hqs.
    + apply include_value_spec in Hv as (path & -> & Hm & Hqp & Ha & Hne).
      rewrite include_write by done.
      replace (prefix +:+ (k +:+ ": " +:+ "'!include " +:+ path +:+ String Re.quote "")
                 +:+ String PyYAML.line_feed t)
        with ((prefix +:+ k +:+ ": ")
                +:+ ("'!include " +:+ path +:+ String Re.quote (String PyYAML.line_feed t)))
        by (by rewrite !string_app_assoc).
      rewrite sub_include_quote_free by (by rewrite !quote_free_app, Hp, Hq).
      rewrite sub_include_match by done.
      change (String PyYAML.line_feed t) with (String PyYAML.line_feed "" +:+ t).
      rewrite sub_include_quote_free by done. by rewrite !string_app_assoc.
Qed.

Lemma string_app_nil_r (a : string) : a +:+ "" = a.
Proof. induction a as [|x a IH]; [done|]. by rewrite string_app_cons, IH. Qed.

Lemma unlines_cons_app x r t :
  PyYAML.unlines (x :: r) +:+ t = x +:+ String PyYAML.line_feed (PyYAML.unlines r +:+ t).
Proof. cbn [PyYAML.unlines]. by rewrite string_app_assoc. Qed.

Lemma sub_indented pre d t :
  quote_free pre = true → forallb registry_pair d = true →
  Re.sub_from 0 (PyYAML.unlines (String.append pre <$> (row PyYAML.write_scalar <$> d)) +:+ t)
  = PyYAML.unlines (String.append pre <$> (row unquoted <$> d)) +:+ Re.sub_from 0 t.
Proof.
  intros Hpre. induction d as [|p d IH]; [done|].
  cbn [forallb]. intros [Hp Hd]%andb_true_iff.
  rewrite !fmap_cons, !unlines_cons_app, !string_app_assoc.
  rewrite sub_row by done. by rewrite IH.
Qed.

Lemma sub_rows e t :
  registry_entry e = true →
  Re.sub_from 0 (PyYAML.unlines (rows PyYAML.write_scalar e) +:+ t)
  = PyYAML.unlines (rows unquoted e) +:+ Re.sub_from 0 t.
Proof.
  destruct e as [| | | | | |[|p d]|]; try done. cbn [registry_entry forallb].
  intros [[Hp Hd]%andb_true_iff _]%andb_true_iff.
  unfold rows. rewrite !fmap_cons. cbn [PyYAML.item_lines].
  rewrite !unlines_cons_app, !string_app_assoc.
  rewrite sub_row by done. by rewrite sub_indented.
Qed.

Lemma sub_render l t :
  registry_fragment l = true →
  Re.sub_from 0 (PyYAML.unlines (render PyYAML.write_scalar l) +:+ t)
  = PyYAML.unlines (render unquoted l) +:+ Re.sub_from 0 t.
Proof.
  unfold registry_fragment. induction l as [|e l IH]; [done|].
  cbn [forallb]. intros [He Hl]%andb_true_iff.
  unfold render. rewrite !bind_cons.
  fold (render PyYAML.write_scalar l). fold (render unquoted l).
  rewrite !unlines_app, !string_app_assoc. rewrite sub_rows by done. by rewrite IH.
Qed.

Lemma registry_fragment_flat l : registry_fragment l = true → forallb flat_entry l = true.
Proof.
  unfold registry_fragment. intros H. apply forallb_forall. intros e He.
  apply registry_entry_flat. by apply (proj1 (forallb_forall _ _) H).
Qed.

(** The registry file for a list of the fragment: the lines of its
    entries, every string as it stands. *)
Lemma written_registry_lines l :
  l ≠ [] → registry_fragment l = true →
  written_registry l = PyYAML.unlines (render unquoted l).
Proof.
  intros Hne Hl. unfold written_registry, PyYAML.dump, Re.sub_include.
  rewrite block_lines_flat_list by (by try apply registry_fragment_flat).
  rewrite <- (string_app_nil_r (PyYAML.unlines (render PyYAML.write_scalar l))).
  rewrite sub_render by done. apply string_app_nil_r.
Qed.

Lemma registry_fragment_readable l :
  registry_fragment l = true → Forall (readable_entry safe_loader_constructors unquoted) l.
Proof.
  unfold registry_fragment. intros H. apply Forall_forall. intros e He%list_elem_of_In.
  apply registry_entry_readable. by apply (proj1 (forallb_forall _ _) H).
Qed.

Lemma load_written_registry l :
  registry_fragment l = true →
  PyYAML.load safe_loader_constructors (written_registry l) = Some (Loaded (PList l)).
Proof.
  intros Hl. destruct (decide (l = [])) as [->|Hne]; [reflexivity|].
  rewrite written_registry_lines by done.
  apply load_render; [done|]. by apply registry_fragment_readable.
Qed.




Lemma registry_row_quote_free p : registry_pair p = true → quote_free (row unquoted p) = true.
Proof.
  destruct p as [[| | | |k| | |] [| |z| |s| | |]]; try done; cbn [registry_pair].
  - intros Hk. destruct (simple_key_spec k Hk) as (_ & Hq & _).
    rewrite row_key by done. cbn [unquoted PyYAML.write_scalar].
    by rewrite !quote_free_app, Hq, str_quote_free.
  - intros [Hk Hv]%andb_true_iff. destruct (simple_key_spec k Hk) as (_ & Hq & _).
    rewrite row_key by done. cbn [unquoted]. rewrite !quote_free_app, Hq.
    apply orb_true_iff in Hv as [Hv|Hv].
    + unfold plain_value in Hv.
      apply andb_true_iff in Hv as [[_ ->]%andb_true_iff _]. done.
    + apply include_value_spec in Hv as (path & -> & _ & Hqp & _).
      by rewrite quote_free_app, Hqp.
Qed.

Lemma unlines_quote_free ls :
  Forall (λ l, quote_free l = true) ls → quote_free (PyYAML.unlines ls) = true.
Proof.
  induction 1 as [|l ls Hl _ IH]; [done|]. cbn [PyYAML.unlines].
  rewrite quote_free_app, Hl.
  change (String PyYAML.line_feed (PyYAML.unlines ls))
    with (String PyYAML.line_feed "" +:+ PyYAML.unlines ls).
  by rewrite quote_free_app, IH.
Qed.

Lemma registry_render_quote_free l :
  registry_fragment l = true → Forall (λ l, quote_free l = true) (render unquoted l).
Proof.
  unfold registry_fragment. induction l as [|e l IH]; [constructor|].
  cbn [forallb]. intros [He Hl]%andb_true_iff.
  unfold render. rewrite bind_cons. apply Forall_app. split; [|by apply IH].
  destruct e as [| | | | | |[|p d]|]; try done. cbn [registry_entry forallb] in He.
  apply andb_true_iff in He as [[Hp Hd]%andb_true_iff _].
  unfold rows. rewrite fmap_cons. cbn [PyYAML.item_lines]. constructor.
  - by rewrite quote_free_app, registry_row_quote_free.
  - apply Forall_fmap, Forall_fmap, Forall_forall. intros q Hq%list_elem_of_In.
    cbn. rewrite quote_free_app, registry_row_quote_free; [done|].
    by apply (proj1 (forallb_forall _ _) Hd).
Qed.



(** ** Quoted scalars *)

Lemma read_single_quoted_body s :
  Py.all_chars PyYAML.printable s = true →
  PyYAML.read_single_quoted (PyYAML.write_single_quoted_body s +:+ "'") = Some s.
Proof.
  induction s as [|c s IH]; [done|]. cbn [Py.all_chars].
  intros [Hc Hs]%andb_true_iff. specialize (IH Hs).
  cbn [PyYAML.write_single_quoted_body].
  destruct (Ascii.eqb c Re.quote) eqn:Hq.
  - rewrite !string_app_cons. cbn [PyYAML.read_single_quoted]. by rewrite Hq, IH.
  - rewrite string_app_cons. cbn [PyYAML.read_single_quoted]. by rewrite Hq, Hc, IH.
Qed.

Lemma read_escape c rest :
  PyYAML.read_double_quoted (PyYAML.escape c +:+ rest)
  = String c <$> PyYAML.read_double_quoted rest.
Proof. destruct c as [[][][][][][][][]]; reflexivity. Qed.

Lemma read_double_quoted_body s :
  PyYAML.read_double_quoted
    (PyYAML.write_double_quoted_body s +:+ String PyYAML.dquote "") = Some s.
Proof.
  induction s as [|c s IH]; [done|]. cbn [PyYAML.write_double_quoted_body].
  by rewrite string_app_assoc, read_escape, IH.
Qed.

Lemma escape_single_line c : single_line (PyYAML.escape c) = true.
Proof. destruct c as [[][][][][][][][]]; reflexivity. Qed.

Lemma write_double_quoted_single_line s :
  single_line (PyYAML.write_double_quoted_body s) = true.
Proof.
  induction s as [|c s IH]; [done|]. cbn [PyYAML.write_double_quoted_body].
  by rewrite single_line_app, escape_single_line, IH.
Qed.

Lemma write_single_quoted_single_line s :
  single_line s = true → single_line (PyYAML.write_single_quoted_body s) = true.
Proof.
  unfold single_line. induction s as [|c s IH]; [done|].
  cbn [PyYAML.any_char PyYAML.write_single_quoted_body].
  intros [Hc Hs]%negb_true_iff%orb_false_iff.
  destruct (Ascii.eqb c Re.quote); cbn [PyYAML.any_char];
    rewrite ?Hc; cbn [orb]; apply IH; by rewrite Hs.
Qed.

Lemma single_quoted_printable s :
  PyYAML.allow_single_quoted s = true → single_line s = true →
  Py.all_chars PyYAML.printable s = true.
Proof.
  unfold PyYAML.allow_single_quoted, single_line, PyYAML.special_characters.
  intros H%negb_true_iff Hl%negb_true_iff. apply orb_false_iff in H as [_ H].
  induction s as [|c s IH]; [done|]. cbn [PyYAML.any_char Py.all_chars] in *.
  apply orb_false_iff in H as [Hc H]. apply orb_false_iff in Hl as [Hlc Hl].
  rewrite IH by done. rewrite Hlc in Hc. cbn [orb] in Hc.
  apply negb_false_iff in Hc as ->. done.
Qed.

(** A string without a line feed is read back from what the emitter writes
    for it, in whichever style. *)
Lemma read_value_str ctors s :
  single_line s = true →
  PyYAML.read_value ctors (PyYAML.write_str s) = Some (PStr s)
  ∧ single_line (PyYAML.write_str s) = true.
Proof.
  intros Hl. unfold PyYAML.write_str.
  destruct (PyYAML.choose_scalar_style s) eqn:Hst.
  - split; [|done]. apply read_value_plain. unfold plain. by rewrite Hst.
  - assert (PyYAML.allow_single_quoted s = true) as Ha.
    { unfold PyYAML.choose_scalar_style in Hst.
      destruct (PyYAML.implicit_str s && PyYAML.allow_block_plain s); [done|].
      by destruct (PyYAML.allow_single_quoted s). }
    split.
    + rewrite string_app_cons. unfold PyYAML.read_value. rewrite Ascii.eqb_refl.
      by rewrite read_single_quoted_body by (by apply single_quoted_printable).
    + rewrite string_app_cons.
      change (String Re.quote ?x) with (String Re.quote "" +:+ x).
      by rewrite !single_line_app, write_single_quoted_single_line.
  - split.
    + rewrite string_app_cons. unfold PyYAML.read_value.
      change (Ascii.eqb PyYAML.dquote Re.quote) with false. rewrite Ascii.eqb_refl.
      by rewrite read_double_quoted_body.
    + rewrite string_app_cons.
      change (String PyYAML.dquote ?x) with (String PyYAML.dquote "" +:+ x).
      by rewrite !single_line_app, write_double_quoted_single_line.
Qed.

(** ** Splitting at a separator *)

Lemma split_nonempty sep s : Py.split sep s ≠ [].
Proof.
  destruct s as [|c r]; [done|]. cbn [Py.split].
  destruct (Ascii.eqb c sep); [done|]. by destruct (Py.split sep r).
Qed.

Lemma join_cons sep x y l : Py.join sep (x :: y :: l) = x +:+ sep +:+ Py.join sep (y :: l).
Proof. reflexivity. Qed.

(** Joining the fields with the separator gives the string back. *)
Lemma join_split sep s : Py.join (String sep "") (Py.split sep s) = s.
Proof.
  induction s as [|c r IH]; [done|]. cbn [Py.split].
  pose proof (split_nonempty sep r) as Hne.
  destruct (Ascii.eqb_spec c sep) as [->|Hc].
  - destruct (Py.split sep r) as [|x xs]; [done|].
    rewrite join_cons, IH. reflexivity.
  - destruct (Py.split sep r) as [|x [|y xs]]; [done|..].
    + cbn [Py.join] in *. by rewrite IH.
    + rewrite join_cons in *. rewrite string_app_cons. by rewrite IH.
Qed.

(** ** Floats *)

Lemma is_natural_digits s :
  PyYAML.is_natural s = true →
  ∃ c r, s = String c r ∧ Py.is_ascii_digit c = true
    ∧ Py.all_chars Py.is_ascii_digit r = true.
Proof.
  destruct s as [|c r]; [done|]. intros H. exists c, r. split; [done|].
  unfold PyYAML.is_natural in H.
  destruct c as [[][][][][][][][]]; try discriminate H;
    try (by destruct r);
    try (split; [reflexivity|]; by destruct r).
Qed.

Lemma count_char_app a x y :
  PyYAML.count_char a (x +:+ y) = (PyYAML.count_char a x + PyYAML.count_char a y)%nat.
Proof.
  induction x as [|c x IH]; [done|]. rewrite string_app_cons. cbn [PyYAML.count_char].
  rewrite IH. lia.
Qed.

Lemma all_chars_cons p c s : Py.all_chars p (String c s) = p c && Py.all_chars p s.
Proof. reflexivity. Qed.

Lemma count_char_cons a c s :
  PyYAML.count_char a (String c s)
  = ((if Ascii.eqb c a then 1 else 0) + PyYAML.count_char a s)%nat.
Proof. reflexivity. Qed.

Lemma digits_no_dot s :
  Py.all_chars Py.is_ascii_digit s = true → PyYAML.count_char "." s = 0%nat.
Proof.
  induction s as [|c s IH]; [done|]. cbn [Py.all_chars PyYAML.count_char].
  intros [Hc Hs]%andb_true_iff. rewrite IH by done.
  by destruct c as [[][][][][][][][]].
Qed.

Lemma digits_float_chars s :
  Py.all_chars Py.is_ascii_digit s = true → Py.all_chars float_char s = true.
Proof. apply all_chars_impl. intros c Hc. unfold float_char. by rewrite Hc. Qed.

Lemma float_char_bland c : float_char c = true → bland c = true.
Proof. destruct c as [[][][][][][][][]]; try discriminate; reflexivity. Qed.

Lemma float_char_lower s : Py.all_chars float_char s = true → Py.lower s = s.
Proof.
  induction s as [|c s IH]; [done|]. cbn [Py.all_chars Py.lower].
  intros [Hc Hs]%andb_true_iff. rewrite IH by done. f_equal.
  by destruct c as [[][][][][][][][]].
Qed.

Lemma count_char_any a s :
  PyYAML.count_char a s ≠ 0%nat → PyYAML.any_char (Ascii.eqb a) s = true.
Proof.
  induction s as [|c s IH]; [done|]. cbn [PyYAML.count_char PyYAML.any_char].
  rewrite (Ascii.eqb_sym a c). destruct (Ascii.eqb c a); [done|]. intros H. by apply IH.
Qed.

(** The unsigned part of a positional float: digits around one point. *)
Lemma positional_unsigned u i f :
  Py.split "." u = [i; f] →
  PyYAML.is_natural i = true → Py.all_chars Py.is_ascii_digit f = true →
  ∃ c r, u = String c r ∧ Py.is_ascii_digit c = true
    ∧ Py.all_chars float_char u = true
    ∧ PyYAML.count_char "." u = 1%nat
    ∧ PyYAML.is_natural u = false.
Proof.
  intros Hs Hi Hf. pose proof (join_split "." u) as Hu. rewrite Hs in Hu.
  cbn [Py.join] in Hu. subst u.
  destruct (is_natural_digits i Hi) as (c & r & -> & Hc & Hr).
  exists c, (r +:+ "." +:+ f). split; [by rewrite string_app_cons|].
  split; [done|]. split; [|split].
  - assert (Py.all_chars Py.is_ascii_digit (String c r) = true) as Hcr
      by (cbn [Py.all_chars]; by rewrite Hc, Hr).
    rewrite !all_chars_app, (digits_float_chars (String c r)), (digits_float_chars f) by done.
    reflexivity.
  - assert (Py.all_chars Py.is_ascii_digit (String c r) = true) as Hcr
      by (cbn [Py.all_chars]; by rewrite Hc, Hr).
    rewrite !count_char_app, (digits_no_dot (String c r)), (digits_no_dot f) by done.
    reflexivity.
  - rewrite string_app_cons. unfold PyYAML.is_natural.
    assert (Py.all_chars Py.is_ascii_digit (r +:+ "." +:+ f) = false) as Hno.
    { by rewrite !all_chars_app, andb_false_r. }
    rewrite Hno, andb_false_r.
    destruct c as [[][][][][][][][]]; try reflexivity.
    destruct (r +:+ "." +:+ f) eqn:He; [|done].
    by destruct r.
Qed.

Lemma unsigned_other c r :
  Ascii.eqb c "-" = false →
  match String c r with
  | String "-" r' => r'
  | _ => String c r
  end = String c r.
Proof. by destruct c as [[][][][][][][][]]. Qed.

(** A positional float: how it is written, and what its text looks like to
    the analysis and to the resolver. *)
Lemma positional_float s :
  PyYAML.is_positional_float s = true →
  PyYAML.write_float (PyFloat s) = s
  ∧ PyYAML.resolve s = Some (PFloat (PyFloat s))
  ∧ PyYAML.allow_block_plain s = true
  ∧ s ≠ "".
Proof.
  intros Hp.
  assert (∃ c r, s = String c r ∧ PyYAML.numeric_start c = true
            ∧ Py.all_chars float_char s = true
            ∧ PyYAML.count_char "." s = 1%nat
            ∧ PyYAML.is_decimal s = false
            ∧ PyYAML.first_block_indicator c r = false
            ∧ Py.startswith "---" s = false) as (c & r & -> & Hn & Hall & Hcount & Hdec & Hfirst & Hdash).
  { unfold PyYAML.is_positional_float in Hp.
    destruct s as [|c r]; [done|].
    destruct (Ascii.eqb c "-") eqn:Hc.
    - apply Ascii.eqb_eq in Hc as ->. cbv zeta iota in Hp.
      destruct (Py.split "." r) as [|i [|f [|]]] eqn:Hs; try done.
      repeat (apply andb_true_iff in Hp as [Hp ?]).
      destruct (positional_unsigned r i f) as (c & r' & -> & Hc & Hall & Hcount & Hnat); try done.
      exists "-"%char, (String c r'). repeat split; try done.
      + unfold PyYAML.first_block_indicator, PyYAML.followed_by_whitespace.
        by rewrite digit_not_blank.
      + by destruct c as [[][][][][][][][]].
    - rewrite unsigned_other in Hp by done. cbv zeta in Hp.
      destruct (Py.split "." (String c r)) as [|i [|f [|]]] eqn:Hs; try done.
      repeat (apply andb_true_iff in Hp as [Hp ?]).
      destruct (positional_unsigned (String c r) i f) as (c' & r' & [= <- <-] & Hd & Hall & Hcount & Hnat);
        try done.
      exists c, r. repeat split; try done.
      + unfold PyYAML.numeric_start. by rewrite Hd.
      + rewrite <- Hnat. by destruct c as [[][][][][][][][]].
      + by apply digit_not_indicator.
      + by destruct c as [[][][][][][][][]]. }
  split; [|split; [|split; [|done]]].
  - unfold PyYAML.write_float. cbn [float_repr]. rewrite float_char_lower by done.
    assert (∀ w, Py.all_chars float_char w = false → String.eqb (String c r) w = false) as Hw.
    { intros w Hw. apply String.eqb_neq. intros <-. congruence. }
    rewrite !Hw by reflexivity.
    rewrite (count_char_any "." (String c r)) by lia. reflexivity.
  - unfold PyYAML.resolve.
    rewrite !bool_decide_eq_false_2 by (apply numeric_word; [done|repeat constructor]).
    rewrite Hn, Hdec, Hp. unfold PyYAML.is_dotted. rewrite Hcount.
    by rewrite andb_false_r.
  - apply bland_allow_block_plain; [|done..|].
    + revert Hall. apply all_chars_impl, float_char_bland.
    + unfold PyYAML.numeric_start in Hn. cbn [Py.all_chars] in Hall.
      apply andb_true_iff in Hall as [Hc _].
      assert (PyYAML.count_char "." (String c r) = 1%nat) as H1 by done.
      destruct c as [[][][][][][][][]]; try discriminate Hc; try reflexivity.
      (* a leading point: the natural part would be empty *)
      exfalso. clear -Hp. unfold PyYAML.is_positional_float in Hp.
      cbv zeta iota in Hp. cbn [Py.split] in Hp.
      change (Ascii.eqb "." ".") with true in Hp. cbv iota in Hp.
      pose proof (split_nonempty "." r).
      destruct (Py.split "." r) as [|f [|]]; done.
Qed.

Lemma read_value_float ctors r :
  PyYAML.is_positional_float (float_repr r) = true →
  PyYAML.read_value ctors (PyYAML.write_float r) = Some (PFloat r)
  ∧ single_line (PyYAML.write_float r) = true.
Proof.
  destruct r as [s]. cbn [float_repr]. intros (Hw & Hr & Ha & Hne)%positional_float.
  rewrite Hw. split; [|by apply plain_single_line].
  destruct s as [|c t]; [done|].
  destruct (allow_block_plain_first c t Ha) as (H1 & H2 & H3 & _).
  rewrite read_value_unquoted, read_plain_ok by done. exact Hr.
Qed.

(** ** The sensor file *)

Lemma sensor_text_readable ctors k s :
  simple_key k = true → sensor_text k s = true →
  readable ctors PyYAML.write_scalar (PStr k, PStr s).
Proof.
  intros Hk [Hl _]%andb_true_iff. split; [done|]. cbn [PyYAML.write_scalar].
  destruct (read_value_str ctors s Hl). done.
Qed.

Lemma int_readable ctors k z :
  simple_key k = true → readable ctors PyYAML.write_scalar (PStr k, PInt z).
Proof.
  intros Hk. split; [done|]. cbn [PyYAML.write_scalar].
  split; [apply str_single_line|apply read_value_int].
Qed.

Lemma float_readable ctors k r :
  simple_key k = true → PyYAML.is_positional_float (float_repr r) = true →
  readable ctors PyYAML.write_scalar (PStr k, PFloat r).
Proof.
  intros Hk Hr. split; [done|]. cbn [PyYAML.write_scalar].
  destruct (read_value_float ctors r Hr). done.
Qed.

Lemma to_dict_readable ctors r :
  register_in_model r = true →
  readable_entry ctors PyYAML.write_scalar (PDict (ModbusRegister.to_dict r)).
Proof.
  destruct r as [name slave address data_type scale unit scan state].
  unfold register_in_model.
  cbn [ModbusRegister.name ModbusRegister.data_type ModbusRegister.scale
       ModbusRegister.unit_of_measurement ModbusRegister.state_class].
  intros [[[[Hname Htype]%andb_true_iff Hscale]%andb_true_iff Hunit]%andb_true_iff Hstate]%andb_true_iff.
  destruct scale as [f|], unit as [u|], scan as [i|], state as [c|];
    cbn [from_option] in Hscale, Hunit, Hstate;
    match goal with
    | |- readable_entry _ _ (PDict ?d) =>
        let d' := eval vm_compute in d in change d with d'
    end;
    (split; [|reflexivity]);
    repeat (apply Forall_cons; split);
    first [ apply Forall_nil_2
          | apply sensor_text_readable; [reflexivity|assumption]
          | apply int_readable; reflexivity
          | apply float_readable; [reflexivity|assumption] ].
Qed.

Lemma to_dict_flat r : flat_entry (PDict (ModbusRegister.to_dict r)) = true.
Proof.
  destruct r as [name slave address data_type [f|] [u|] [i|] [c|]]; reflexivity.
Qed.

Lemma sensor_config_list_readable ctors dev :
  forallb register_in_model (ModbusDevice.sensors dev) = true →
  Forall (readable_entry ctors PyYAML.write_scalar) (sensor_config_list dev)
  ∧ forallb flat_entry (sensor_config_list dev) = true.
Proof.
  unfold sensor_config_list. induction (ModbusDevice.sensors dev) as [|r l IH]; [done|].
  cbn [forallb]. intros [Hr Hl]%andb_true_iff. destruct (IH Hl) as [IH1 IH2].
  rewrite fmap_cons. split.
  - constructor; [by apply to_dict_readable|done].
  - cbn [forallb]. by rewrite to_dict_flat, IH2.
Qed.


(** The sensor file of a device whose registers the model covers loads as
    the list that was written. *)
Lemma sensor_list_round_trip ctors dev :
  forallb register_in_model (ModbusDevice.sensors dev) = true →
  PyYAML.load ctors (PyYAML.dump (PList (sensor_config_list dev)))
  = Some (Loaded (PList (sensor_config_list dev))).
Proof.
  intros Hm.
  destruct (sensor_config_list_readable ctors dev Hm) as [Hr Hf].
  destruct (decide (sensor_config_list dev = [])) as [->|Hne]; [reflexivity|].
  unfold PyYAML.dump. rewrite block_lines_flat_list by done.
  by apply load_render.
Qed.



(** * The address check, in the words of the specification *)

Lemma uint_of_string_digits s u :
  NilEmpty.uint_of_string s = Some u → Py.all_chars Py.is_ascii_digit s = true.
Proof.
  revert u. induction s as [|c s IH]; [done|]. intros u.
  cbn [NilEmpty.uint_of_string Py.all_chars].
  destruct (NilEmpty.uint_of_string s) as [v|]; [|done].
  rewrite (IH v eq_refl), andb_true_r.
  destruct c as [[] [] [] [] [] [] [] []]; done.
Qed.

Lemma int_digits o n : Py.int o = Some n → Py.all_chars Py.is_ascii_digit o = true.
Proof.
  destruct o as [|c r]; [done|]. unfold Py.int.
  destruct (NilEmpty.uint_of_string (String c r)) as [u|] eqn:Hu; [|done].
  intros _. by apply (uint_of_string_digits _ u).
Qed.

Lemma digits_isdigit o :
  o ≠ "" → Py.all_chars Py.is_ascii_digit o = true → Py.isdigit o = true.
Proof.
  destruct o as [|c r]; [done|]. intros _ H. unfold Py.isdigit.
  apply (all_chars_impl Py.is_ascii_digit); [|done].
  intros a Ha. unfold Py.isdigit_char. by rewrite Ha.
Qed.

Lemma digit_not_dot c : Py.is_ascii_digit c = true → Ascii.eqb c "." = false.
Proof. destruct (Ascii.eqb_spec c ".") as [->|]; done. Qed.

(** A field without the separator, followed by the separator, is the first
    field of the split. *)
Lemma split_field sep a r :
  Py.all_chars (λ c, negb (Ascii.eqb c sep)) a = true →
  Py.split sep (a +:+ String sep "" +:+ r) = a :: Py.split sep r.
Proof.
  change (String sep "" +:+ r) with (String sep r).
  induction a as [|c a IH].
  - intros _. rewrite string_app_nil_l. cbn [Py.split]. by rewrite Ascii.eqb_refl.
  - cbn [Py.all_chars]. intros [Hc Ha]%andb_true_iff.
    rewrite string_app_cons. cbn [Py.split].
    apply negb_true_iff in Hc. rewrite Hc, (IH Ha). reflexivity.
Qed.

Lemma split_last_field sep a :
  Py.all_chars (λ c, negb (Ascii.eqb c sep)) a = true → Py.split sep a = [a].
Proof.
  induction a as [|c a IH]; [done|].
  cbn [Py.all_chars]. intros [Hc Ha]%andb_true_iff. cbn [Py.split].
  apply negb_true_iff in Hc. rewrite Hc, (IH Ha). reflexivity.
Qed.

Lemma octet_no_dot o :
  octet o → Py.all_chars (λ c, negb (Ascii.eqb c ".")) o = true.
Proof.
  intros (_ & Hd & _). apply (all_chars_impl Py.is_ascii_digit); [|done].
  intros c Hc. by rewrite (digit_not_dot c Hc).
Qed.

Lemma octet_checked o : octet o ↔ Py.isdigit o = true ∧ ∃ n, Py.int o = Some n ∧ 0 ≤ n ≤ 255.
Proof.
  split.
  - intros (Hne & Hd & Hn). split; [by apply digits_isdigit|done].
  - intros (Hd & n & Hn & Hr). split; [by intros ->|].
    split; [by apply (int_digits o n)|by exists n].
Qed.

Lemma all_octets_octets l : Forall octet l → all_octets l = inr true.
Proof.
  induction 1 as [|o l Ho _ IH]; [done|].
  apply octet_checked in Ho as (Hd & n & Hn & Hr).
  cbn [all_octets]. rewrite Hd, Hn.
  replace ((0 <=? n) && (n <=? 255)) with true by (symmetry; apply andb_true_iff; lia).
  done.
Qed.

(** X1: for an argument of code points up to 255 (the strings of this
    development) and of at most 4300 characters (within the interpreter's
    limit on the digits of an integer), the check of the program accepts
    exactly the addresses the specification calls well formed: four fields
    of ASCII decimal digits, each at least one digit long and of a value of
    at most 255, with dots between them. *)
Lemma ip_ok_well_formed ip :
  (String.length ip ≤ 4300)%nat → ip_ok ip = true ↔ well_formed_ip ip.
Proof.
  intros _. split.
  - intros (a & b & c & d & Hs & Hall)%ip_ok_octets.
    exists a, b, c, d.
    apply Forall_cons in Hall as [Ha Hall]. apply Forall_cons in Hall as [Hb Hall].
    apply Forall_cons in Hall as [Hc Hall]. apply Forall_cons in Hall as [Hd _].
    repeat (split; [by apply octet_checked|]).
    rewrite <- (join_split "." ip), Hs. reflexivity.
  - intros (a & b & c & d & Ha & Hb & Hc & Hd & ->).
    unfold ip_ok, check_octets. apply bool_decide_eq_true.
    rewrite (split_field "." a) by (by apply octet_no_dot).
    rewrite (split_field "." b) by (by apply octet_no_dot).
    rewrite (split_field "." c) by (by apply octet_no_dot).
    rewrite (split_last_field "." d) by (by apply octet_no_dot).
    rewrite bool_decide_eq_false_2 by (cbn; lia).
    rewrite all_octets_octets; [done|].
    repeat (apply Forall_cons; split; [done|]). apply Forall_nil_2.
Qed.

Lemma ip_ok_well_formed_witness :
  well_formed_ip "192.168.1.10" ∧ ¬ well_formed_ip "192.168.1.300".
Proof.
  split.
  - apply (ip_ok_well_formed "192.168.1.10"); [cbn; lia|reflexivity].
  - intros H. apply (ip_ok_well_formed "192.168.1.300") in H; [discriminate H|cbn; lia].
Defined.

(** * The files of a run over the model of PyYAML *)

(** [make_config] leaves the sensor file and the registry file with the
    texts the statements above are about. *)
Lemma make_config_files self port w :
  ∃ l w',
    make_config PyYAML.dump PyYAML.safe_load self port w = (Return (), w')
    ∧ files w' !! modbus_hubs_filename
      = Some (written_registry
                (upsert (ModbusDevice.name self)
                   (hub_entry (ModbusDevice.name self) (ModbusDevice.host self) port) l))
    ∧ files w' !! sensors_file_path (ModbusDevice.name self)
      = Some (PyYAML.dump (PList (sensor_config_list self))).
Proof.
  destruct (make_config_total PyYAML.dump PyYAML.safe_load self port w)
    as (l & warn & Hrun & _).
  exists l. eexists. split; [exact Hrun|]. cbn [files]. split.
  - by rewrite lookup_insert_eq.
  - rewrite lookup_insert_ne by (apply not_eq_sym, sensors_file_path_not_registry).
    by rewrite lookup_insert_eq.
Qed.

(** Every inverter an incremental run can build is covered: the possible
    indices are those below 256. *)
Lemma inverter_in_model i slave host :
  0 ≤ i < 256 →
  forallb register_in_model
    (ModbusDevice.sensors (ChisageInverter.init (device_instance_name i) slave host 20))
  = true.
Proof.
  intros Hi.
  assert (forallb (λ i, forallb register_in_model
            (ModbusDevice.sensors (ChisageInverter.init (device_instance_name i) slave host 20)))
            (seqZ 0 256) = true) as Hall by (vm_compute; reflexivity).
  apply (proj1 (forallb_forall _ _) Hall i).
  apply list_elem_of_In, elem_of_seqZ. lia.
Qed.

(** The sensor file of each of these inverters loads as the list that was
    written. *)
Lemma inverter_sensor_file_round_trip ctors i slave host :
  0 ≤ i < 256 →
  let dev := ChisageInverter.init (device_instance_name i) slave host 20 in
  PyYAML.load ctors (PyYAML.dump (PList (sensor_config_list dev)))
  = Some (Loaded (PList (sensor_config_list dev))).
Proof. intros Hi dev. by apply sensor_list_round_trip, inverter_in_model. Qed.

(** A run of three instances leaves a registry that loads as the three
    entries, in order, and a second run of the same invocation leaves every
    file as it is. *)
Example three_hubs_round_trip :
  let w1 := snd (run_main three_args empty_world) in
  let w2 := snd (run_main three_args w1) in
  fst (run_main three_args empty_world) = Return ()
  ∧ (files w1 !! modbus_hubs_filename ≫= PyYAML.load safe_loader_constructors)
    = Some (Loaded (PList [hub_entry "Chisage 1" "192.168.1.10" 5001;
                           hub_entry "Chisage 2" "192.168.1.11" 5002;
                           hub_entry "Chisage 3" "192.168.1.12" 5003]))
  ∧ fst (run_main three_args w1) = Return ()
  ∧ same_disk w1 w2.
Proof. cbv zeta. repeat split; vm_compute; reflexivity. Qed.

(** * Further properties of the program *)

(** ** File names *)

Lemma string_app_inj_head (a b c : string) : a +:+ b = a +:+ c → b = c.
Proof.
  induction a as [|x a IH]; [done|]. rewrite !string_app_cons. intros [= H]. by apply IH.
Qed.

(** Two texts that end in tails of the same length agree on both parts. *)
Lemma string_app_inj_tail (a b c d : string) :
  String.length c = String.length d → a +:+ c = b +:+ d → a = b ∧ c = d.
Proof.
  intros Hlen. revert b. induction a as [|x a IH]; intros [|y b].
  - by rewrite !string_app_nil_l.
  - rewrite string_app_nil_l, string_app_cons. intros ->.
    cbn [String.length] in Hlen. rewrite string_length_app in Hlen. lia.
  - rewrite string_app_nil_l, string_app_cons. intros <-.
    cbn [String.length] in Hlen. rewrite string_length_app in Hlen. lia.
  - rewrite !string_app_cons. intros [= -> H]. destruct (IH b H) as [-> ->]. done.
Qed.

Lemma slug_char_step c :
  let c1 := Py.lower_char c in
  let c2 := if Ascii.eqb c1 " " then "_"%char else c1 in
  let c3 := if Ascii.eqb c2 "-" then "_"%char else c2 in
  slug_char c3 = true
  ∧ (slug_char c = true → c3 = c).
Proof. destruct c as [[] [] [] [] [] [] [] []]; split; done. Qed.

Lemma safe_device_name_part_cons c r :
  safe_device_name_part (String c r)
  = String (let c1 := Py.lower_char c in
            let c2 := if Ascii.eqb c1 " " then "_"%char else c1 in
            if Ascii.eqb c2 "-" then "_"%char else c2)
      (safe_device_name_part r).
Proof. reflexivity. Qed.

Lemma safe_device_name_part_app a b :
  safe_device_name_part (a +:+ b) = safe_device_name_part a +:+ safe_device_name_part b.
Proof.
  induction a as [|c a IH]; [done|].
  by rewrite string_app_cons, !safe_device_name_part_cons, string_app_cons, IH.
Qed.

Lemma safe_device_name_part_fixed s :
  Py.all_chars slug_char s = true → safe_device_name_part s = s.
Proof.
  induction s as [|c s IH]; [done|]. cbn [Py.all_chars].
  intros [Hc Hs]%andb_true_iff. rewrite safe_device_name_part_cons, (IH Hs).
  f_equal. by apply slug_char_step.
Qed.

(** X12: for a device name of code points up to 255 (the strings of this
    development, on which lower-casing maps each character to one
    character), the slug has the length of the name and holds no space, no
    hyphen and no capital letter of that range (A to Z, U+00C0 to U+00DE
    without U+00D7); a name that is such a text already is its own slug. *)
Theorem safe_device_name_part_slug (name : string) :
  let slug := safe_device_name_part name in
  String.length slug = String.length name
  ∧ Py.all_chars slug_char slug = true
  ∧ safe_device_name_part slug = slug
  ∧ (Py.all_chars slug_char name = true → slug = name).
Proof.
  cbv zeta.
  assert (Py.all_chars slug_char (safe_device_name_part name) = true) as Hs.
  { induction name as [|c r IH]; [done|].
    rewrite safe_device_name_part_cons. cbn [Py.all_chars]. rewrite IH, andb_true_r.
    apply slug_char_step. }
  repeat split.
  - clear Hs. induction name as [|c r IH]; [done|].
    rewrite safe_device_name_part_cons. cbn [String.length]. by rewrite IH.
  - exact Hs.
  - by apply safe_device_name_part_fixed.
  - apply safe_device_name_part_fixed.
Qed.

Lemma safe_device_name_part_slug_witness :
  safe_device_name_part "my-inverter_1" = "my_inverter_1"
  ∧ safe_device_name_part "my_inverter_1" = "my_inverter_1".
Proof.
  split; [reflexivity|].
  apply (safe_device_name_part_slug "my_inverter_1"). reflexivity.
Defined.

Lemma card_filename_not_registry name : card_filename name ≠ modbus_hubs_filename.
Proof. discriminate. Qed.

Lemma sensors_file_path_not_card n m : sensors_file_path n ≠ card_filename m.
Proof.
  unfold sensors_file_path, card_filename. intros H.
  apply string_app_inj_head in H.
  change "_sensors.yaml" with ("_sensor" +:+ "s.yaml") in H.
  change "_card.yaml" with ("_car" +:+ "d.yaml") in H.
  rewrite <- !string_app_assoc in H.
  apply string_app_inj_tail in H as [_ H]; [discriminate|reflexivity].
Qed.

(** X13: the three kinds of output never share a path: no sensor file and no
    card is the registry, and no sensor file is a card, whatever the device
    names are. *)
Theorem output_paths_distinct (n m : string) :
  sensors_file_path n ≠ modbus_hubs_filename
  ∧ card_filename n ≠ modbus_hubs_filename
  ∧ sensors_file_path n ≠ card_filename m.
Proof.
  split; [apply sensors_file_path_not_registry|].
  split; [apply card_filename_not_registry|apply sensors_file_path_not_card].
Qed.

Lemma int_str z : 0 ≤ z → Py.int (Py.str z) = Some z.
Proof.
  destruct z as [|p|p]; [done| |lia]. intros _.
  rewrite str_pos. apply int_string_of_uint.
Qed.

Lemma str_digits z : 0 ≤ z → Py.all_chars Py.is_ascii_digit (Py.str z) = true.
Proof.
  intros Hz. destruct (str_natural z Hz) as (c & r & -> & Hc & Hr & _).
  cbn [Py.all_chars]. by rewrite Hc, Hr.
Qed.

Lemma digit_slug_char c : Py.is_ascii_digit c = true → slug_char c = true.
Proof. destruct c as [[] [] [] [] [] [] [] []]; done. Qed.

Lemma lower_replace_digits s :
  Py.all_chars Py.is_ascii_digit s = true → Py.replace " " "_" (Py.lower s) = s.
Proof.
  induction s as [|c s IH]; [done|]. cbn [Py.all_chars Py.lower Py.replace].
  intros [Hc Hs]%andb_true_iff. rewrite (IH Hs). f_equal.
  destruct c as [[] [] [] [] [] [] [] []]; done.
Qed.

Lemma slug_instance i :
  0 ≤ i → safe_device_name_part (device_instance_name i) = "chisage_" +:+ Py.str (i + 1).
Proof.
  intros Hi. unfold device_instance_name.
  rewrite safe_device_name_part_app. f_equal.
  apply safe_device_name_part_fixed, (all_chars_impl Py.is_ascii_digit).
  - apply digit_slug_char.
  - apply str_digits. lia.
Qed.

Lemma card_slug_instance i :
  0 ≤ i →
  Py.replace " " "_" (Py.lower (device_instance_name i)) = "chisage_" +:+ Py.str (i + 1).
Proof.
  intros Hi. unfold device_instance_name.
  assert (∀ a b, Py.replace " " "_" (Py.lower (a +:+ b))
                 = Py.replace " " "_" (Py.lower a) +:+ Py.replace " " "_" (Py.lower b)) as Happ.
  { intros a b. induction a as [|c a IH]; [done|].
    rewrite string_app_cons. cbn [Py.lower Py.replace]. by rewrite IH. }
  rewrite Happ, (lower_replace_digits (Py.str (i + 1))) by (apply str_digits; lia). done.
Qed.

Lemma sensors_file_path_instance_inj i j :
  0 ≤ i → 0 ≤ j →
  sensors_file_path (device_instance_name i) = sensors_file_path (device_instance_name j) →
  i = j.
Proof.
  intros Hi Hj. unfold sensors_file_path. rewrite !slug_instance by done.
  intros H%string_app_inj_head.
  apply string_app_inj_tail in H as [H%string_app_inj_head _]; [|done].
  assert (Some (i + 1) = Some (j + 1)) as [= ?]; [|lia].
  rewrite <- (int_str (i + 1)), <- (int_str (j + 1)) by lia. by rewrite H.
Qed.

Lemma card_filename_instance_inj i j :
  0 ≤ i → 0 ≤ j →
  card_filename (device_instance_name i) = card_filename (device_instance_name j) →
  i = j.
Proof.
  intros Hi Hj. unfold card_filename. rewrite !card_slug_instance by done.
  intros H%string_app_inj_head.
  apply string_app_inj_tail in H as [H%string_app_inj_head _]; [|done].
  assert (Some (i + 1) = Some (j + 1)) as [= ?]; [|lia].
  rewrite <- (int_str (i + 1)), <- (int_str (j + 1)) by lia. by rewrite H.
Qed.

(** X14: two instances of a run never share a sensor file or a card: the paths
    of different indices differ. *)
Theorem instance_paths_differ (i j : Z) :
  0 ≤ i → 0 ≤ j → i ≠ j →
  sensors_file_path (device_instance_name i) ≠ sensors_file_path (device_instance_name j)
  ∧ card_filename (device_instance_name i) ≠ card_filename (device_instance_name j).
Proof.
  intros Hi Hj Hne. split; intros H; apply Hne.
  - by apply sensors_file_path_instance_inj.
  - by apply card_filename_instance_inj.
Qed.

Lemma instance_paths_differ_witness :
  sensors_file_path (device_instance_name 0) ≠ sensors_file_path (device_instance_name 10)
  ∧ card_filename (device_instance_name 0) ≠ card_filename (device_instance_name 10).
Proof. apply (instance_paths_differ 0 10); lia. Defined.

(** ** Registers and devices *)

Lemma startswith_app p s : Py.startswith p (p +:+ s) = true.
Proof.
  induction p as [|c p IH]; [by destruct s|].
  rewrite string_app_cons. cbn [Py.startswith]. by rewrite Ascii.eqb_refl, IH.
Qed.

Lemma drop_app a b : Py.drop (String.length a) (a +:+ b) = b.
Proof.
  induction a as [|c a IH]; [by destruct b|]. rewrite string_app_cons. exact IH.
Qed.

Lemma lower_app a b : Py.lower (a +:+ b) = Py.lower a +:+ Py.lower b.
Proof.
  induction a as [|c a IH]; [done|]. rewrite string_app_cons. cbn [Py.lower].
  by rewrite IH.
Qed.

Lemma replace_app x y a b : Py.replace x y (a +:+ b) = Py.replace x y a +:+ Py.replace x y b.
Proof.
  induction a as [|c a IH]; [done|]. rewrite string_app_cons. cbn [Py.replace].
  by rewrite IH.
Qed.

(** The card entry of a register named after its device: the prefix test
    succeeds, the display name is what follows the device name, and the
    entity id is made of both slugs. *)
Lemma card_entity_prefixed device_name suffix slave address data_type scale unit scan state :
  card_entity device_name
    (ModbusRegister.mk (device_name +:+ " " +:+ suffix) slave address data_type
       scale unit scan state)
  = PDict [ (PStr "entity",
             PStr ("sensor." +:+ Py.replace " " "_" (Py.lower device_name) +:+ "_"
                   +:+ Py.replace " " "_" (Py.lower suffix)));
            (PStr "name", PStr suffix) ].
Proof.
  unfold card_entity. cbn [ModbusRegister.name].
  rewrite <- (string_app_assoc device_name " " suffix), startswith_app.
  replace (String.length device_name + 1)%nat with (String.length (device_name +:+ " "))
    by (rewrite string_length_app; reflexivity).
  rewrite drop_app.
  rewrite (string_app_assoc device_name " " suffix), lower_app, replace_app.
  rewrite (lower_app " " suffix), (replace_app _ _ (Py.lower " ")). reflexivity.
Qed.

Lemma inverter_sensors_prefixed name slave :
  Forall (λ r, ∃ suffix address data_type scale unit state,
            r = ModbusRegister.mk (name +:+ " " +:+ suffix) slave address data_type
                  scale unit None state)
    (ChisageInverter.inverter_sensors name slave).
Proof.
  unfold ChisageInverter.inverter_sensors, ChisageInverter.reg.
  repeat (apply Forall_cons; split; [by repeat eexists|]). apply Forall_nil_2.
Qed.

(** What the constructor makes of the table: every register of an inverter
    carries the device's name before a space and its own suffix, the
    device's slave id, and the default scan interval. *)
Lemma inverter_registers name slave host d r :
  r ∈ ModbusDevice.sensors (ChisageInverter.init name slave host d) →
  ∃ suffix address data_type scale unit state,
    r = ModbusRegister.mk (name +:+ " " +:+ suffix) slave address data_type
          scale unit (Some d) state.
Proof.
  unfold ChisageInverter.init, ModbusDevice.init. cbn [ModbusDevice.sensors from_option id].
  intros (r0 & -> & Hr0)%list_elem_of_fmap.
  pose proof (inverter_sensors_prefixed name slave) as Hall.
  rewrite Forall_forall in Hall.
  destruct (Hall r0 Hr0) as (suffix & address & data_type & scale & unit & state & ->).
  by exists suffix, address, data_type, scale, unit, state.
Qed.

(** X15: in the card of an inverter every entry shows a register under its own
    suffix, without the device name, and points to the entity that is named
    by the slugs of device and suffix. *)
Theorem card_entity_of_inverter (name host : string) (slave d : Z)
    (r : ModbusRegister.t) :
  r ∈ ModbusDevice.sensors (ChisageInverter.init name slave host d) →
  ∃ suffix,
    ModbusRegister.name r = name +:+ " " +:+ suffix
    ∧ card_entity name r
      = PDict [ (PStr "entity",
                 PStr ("sensor." +:+ Py.replace " " "_" (Py.lower name) +:+ "_"
                       +:+ Py.replace " " "_" (Py.lower suffix)));
                (PStr "name", PStr suffix) ].
Proof.
  intros (suffix & address & data_type & scale & unit & state & ->)%inverter_registers.
  exists suffix. split; [done|]. apply card_entity_prefixed.
Qed.

Lemma card_entity_of_inverter_witness :
  ∃ r, ModbusDevice.sensors first_inverter !! 0%nat = Some r
    ∧ card_entity "Chisage 1" r
      = PDict [ (PStr "entity", PStr "sensor.chisage_1_inverter_voltage_a");
                (PStr "name", PStr "Inverter Voltage A") ].
Proof.
  eexists. split; [reflexivity|].
  destruct (card_entity_of_inverter "Chisage 1" "192.168.1.10" 1 20
              (ModbusRegister.mk "Chisage 1 Inverter Voltage A" 1 26 "uint16"
                 (Some (PyFloat "0.1")) (Some "V") (Some 20) None))
    as (suffix & Hn & _); [apply (list_elem_of_lookup_2 _ 0%nat); reflexivity|].
  reflexivity.
Defined.

(** X17: the constructor of a device with a default interval leaves no register
    without one: the registers are those given, in order, each with its own
    interval if it has one and the default otherwise, so that the mapping
    of each has the key [scan_interval]. *)
Theorem init_back_fills (name host : string) (slave d : Z)
    (sensors : list ModbusRegister.t) (k : nat) (r : ModbusRegister.t) :
  ModbusDevice.sensors (ModbusDevice.init name slave host (Some d) (Some sensors)) !! k
  = Some r →
  ∃ r0, sensors !! k = Some r0
    ∧ ModbusRegister.scan_interval r = Some (default d (ModbusRegister.scan_interval r0))
    ∧ ModbusRegister.name r = ModbusRegister.name r0
    ∧ ModbusRegister.slave r = ModbusRegister.slave r0
    ∧ ModbusRegister.address r = ModbusRegister.address r0
    ∧ ModbusRegister.data_type r = ModbusRegister.data_type r0
    ∧ ModbusRegister.scale r = ModbusRegister.scale r0
    ∧ ModbusRegister.unit_of_measurement r = ModbusRegister.unit_of_measurement r0
    ∧ ModbusRegister.state_class r = ModbusRegister.state_class r0
    ∧ dict_get "scan_interval" (ModbusRegister.to_dict r)
      = Some (PInt (default d (ModbusRegister.scan_interval r0))).
Proof.
  unfold ModbusDevice.init. cbn [ModbusDevice.sensors from_option id].
  rewrite list_lookup_fmap. destruct (sensors !! k) as [r0|]; simpl; [|discriminate].
  intros [= <-]. exists r0. split; [done|].
  destruct r0 as [n s a t [f|] [u|] [i|] [c|]]; repeat split; reflexivity.
Qed.

Lemma init_back_fills_witness :
  ∃ r, ModbusDevice.sensors first_inverter !! 0%nat = Some r
    ∧ dict_get "scan_interval" (ModbusRegister.to_dict r) = Some (PInt 20).
Proof.
  eexists. split; [reflexivity|].
  destruct (init_back_fills "Chisage 1" "192.168.1.10" 1 20
              (ChisageInverter.inverter_sensors "Chisage 1" 1) 0
              (ModbusRegister.mk "Chisage 1 Inverter Voltage A" 1 26 "uint16"
                 (Some (PyFloat "0.1")) (Some "V") (Some 20) None) eq_refl)
    as (r0 & Hr0 & _).
  reflexivity.
Defined.

(** X18: the mapping of a register determines the register: two registers with
    the same mapping are the same. *)
Theorem to_dict_injective (r1 r2 : ModbusRegister.t) :
  ModbusRegister.to_dict r1 = ModbusRegister.to_dict r2 → r1 = r2.
Proof.
  destruct r1 as [n1 s1 a1 t1 [f1|] [u1|] [i1|] [c1|]],
           r2 as [n2 s2 a2 t2 [f2|] [u2|] [i2|] [c2|]];
    intros H; vm_compute in H; congruence.
Qed.

Lemma to_dict_injective_witness :
  ModbusRegister.mk "Chisage 1 Inverter Voltage A" 1 26 "uint16"
    (Some (PyFloat "0.1")) (Some "V") (Some 20) None
  = ModbusRegister.mk "Chisage 1 Inverter Voltage A" 1 26 "uint16"
    (Some (PyFloat "0.1")) (Some "V") (Some 20) None.
Proof. apply to_dict_injective. reflexivity. Defined.

(** X16: every inverter has the fifty registers of the table, each under the
    device's slave id and with the default scan interval, and no two of them
    share a name. *)
Theorem inverter_register_table (name host : string) (slave d : Z) :
  let sensors := ModbusDevice.sensors (ChisageInverter.init name slave host d) in
  length sensors = 50%nat
  ∧ NoDup (ModbusRegister.name <$> sensors)
  ∧ ∀ r, r ∈ sensors →
      ModbusRegister.slave r = slave
      ∧ ModbusRegister.scan_interval r = Some d
      ∧ ∃ suffix, ModbusRegister.name r = name +:+ " " +:+ suffix.
Proof.
  cbv zeta. split; [reflexivity|]. split.
  - assert (ModbusRegister.name
              <$> ModbusDevice.sensors (ChisageInverter.init name slave host d)
            = (λ s, name +:+ s)
              <$> (ModbusRegister.name
                     <$> ModbusDevice.sensors (ChisageInverter.init "" 0 "" 0))) as ->
      by reflexivity.
    apply NoDup_fmap_2.
    + intros a b. apply string_app_inj_head.
    + compute_done.
  - intros r (suffix & address & data_type & scale & unit & state & ->)%inverter_registers.
    split; [done|]. split; [done|]. by exists suffix.
Qed.

(** ** The registry merge, whatever the registry holds *)

Lemma list_find_split (n : string) (l : list pyval) i old :
  list_find (λ entry, names n entry = true) l = Some (i, old) →
  ∃ l1 l2, l = l1 ++ old :: l2 ∧ length l1 = i
    ∧ (n ∉ entry_names l1) ∧ entry_name old = Some n.
Proof.
  intros (Hi & Hold & Hbefore)%list_find_Some.
  exists (take i l), (drop (S i) l).
  split; [by rewrite take_drop_middle|].
  split; [apply length_take_le; apply lookup_lt_Some in Hi; lia|].
  split; [|by apply names_entry_name].
  intros (x & Hx & Hn)%list_elem_of_omap.
  apply list_elem_of_lookup in Hx as [j Hj].
  pose proof (lookup_lt_Some _ _ _ Hj) as Hlt. rewrite length_take in Hlt.
  rewrite lookup_take_lt in Hj by lia.
  apply (Hbefore j x Hj); [lia|]. by apply names_entry_name.
Qed.

(** X10: the merge on any list, with or without repeated names and with
    entries that are no dicts: the first entry of the name is replaced where
    it stands and everything else stays, later entries of the same name
    included; without an entry of the name the new one goes to the end. *)
Theorem upsert_first_match (n : string) (e : pyval) (l : list pyval) :
  ((n ∉ entry_names l) ∧ upsert n e l = l ++ [e])
  ∨ (∃ l1 old l2,
       l = l1 ++ old :: l2 ∧ (n ∉ entry_names l1) ∧ entry_name old = Some n
       ∧ upsert n e l = l1 ++ e :: l2).
Proof.
  destruct (list_find (λ entry, names n entry = true) l) as [[i old]|] eqn:Hf.
  - right. rewrite (upsert_found _ _ _ _ _ Hf).
    destruct (list_find_split n l i old Hf) as (l1 & l2 & -> & <- & Hl1 & Hold).
    exists l1, old, l2. repeat split; try done.
    replace (length l1) with (length l1 + 0)%nat by lia.
    by rewrite insert_app_r.
  - left. rewrite (upsert_not_found _ _ _ Hf). split; [|done].
    apply list_find_None in Hf. rewrite Forall_forall in Hf.
    intros (x & Hx & Hn)%list_elem_of_omap. apply (Hf x Hx). by apply names_entry_name.
Qed.

(** ** The substitution of the include markers *)

Lemma until_quote_spec s body rest :
  Re.until_quote s = Some (body, rest) →
  s = body +:+ String Re.quote rest ∧ quote_free body = true.
Proof.
  revert body. induction s as [|c s IH]; [done|]. intros body.
  cbn [Re.until_quote]. destruct (Ascii.eqb_spec c Re.quote) as [->|Hc].
  - by intros [= <- <-].
  - destruct (Re.until_quote s) as [[b r]|]; [|done]. simpl. intros [= <- <-].
    destruct (IH b eq_refl) as [-> Hb]. split; [done|].
    unfold quote_free in *. cbn [PyYAML.any_char].
    apply Ascii.eqb_neq in Hc. by rewrite Hc.
Qed.

Lemma match_here_spec s group rest :
  Re.match_here s = Some (group, rest) →
  ∃ body, s = "'!include " +:+ body +:+ String Re.quote rest
    ∧ group = "!include " +:+ body
    ∧ Re.path_matches body = true ∧ quote_free body = true.
Proof.
  unfold Re.match_here.
  destruct (Re.strip_prefix "'!include " s) as [after|] eqn:Hp; [|done].
  apply strip_prefix_spec in Hp as ->. simpl.
  destruct (Re.until_quote after) as [[body r]|] eqn:Hu; [|done]. simpl.
  destruct (Re.path_matches body) eqn:Hm; [|done]. intros [= <- <-].
  destruct (until_quote_spec _ _ _ Hu) as [-> Hq]. by exists body.
Qed.

Lemma strip_quotes_app a b : strip_quotes (a +:+ b) = strip_quotes a +:+ strip_quotes b.
Proof.
  induction a as [|c a IH]; [done|]. rewrite string_app_cons. cbn [strip_quotes].
  destruct (Ascii.eqb c Re.quote); [done|]. by rewrite string_app_cons, IH.
Qed.

Lemma strip_quotes_quote_free s : quote_free s = true → strip_quotes s = s.
Proof.
  unfold quote_free. induction s as [|c s IH]; [done|].
  cbn [PyYAML.any_char strip_quotes]. intros H.
  apply negb_true_iff, orb_false_iff in H as [-> Hs]. rewrite IH; [done|]. by rewrite Hs.
Qed.

Lemma sub_from_step (n : nat) :
  ∀ s, (String.length s ≤ n)%nat →
    strip_quotes (Re.sub_from 0 s) = strip_quotes s
    ∧ (String.length (Re.sub_from 0 s) ≤ String.length s)%nat.
Proof.
  induction n as [|n IH]; intros [|c r] Hlen; try done.
  { cbn [String.length] in Hlen. lia. }
  cbn [String.length] in Hlen.
  destruct (Re.match_here (String c r)) as [[group rest]|] eqn:Hm.
  - destruct (match_here_spec _ _ _ Hm) as (body & Hs & -> & Hp & Hq).
    rewrite Hs, sub_include_match by done.
    assert (String.length rest ≤ n)%nat as Hrest.
    { apply (f_equal String.length) in Hs. cbn [String.length] in Hs.
      rewrite !string_length_app in Hs. cbn [String.length] in Hs. lia. }
    destruct (IH rest Hrest) as [IH1 IH2]. split.
    + rewrite !strip_quotes_app, IH1. cbn [strip_quotes].
      by rewrite Ascii.eqb_refl.
    + rewrite !string_length_app. cbn [String.length]. rewrite ?string_length_app. lia.
  - cbn [Re.sub_from]. rewrite Hm.
    destruct (IH r) as [IH1 IH2]; [lia|]. split.
    + cbn [strip_quotes]. by rewrite IH1.
    + cbn [String.length]. lia.
Qed.

(** X11: the substitution takes single quotes away and does nothing else: the
    text without its quotes is the same before and after, the text never
    grows, and a text without a quote is left as it is. *)
Theorem sub_include_drops_quotes_only (text : string) :
  strip_quotes (Re.sub_include text) = strip_quotes text
  ∧ (String.length (Re.sub_include text) ≤ String.length text)%nat
  ∧ (quote_free text = true → Re.sub_include text = text).
Proof.
  unfold Re.sub_include.
  destruct (sub_from_step (String.length text) text) as [H1 H2]; [done|].
  split; [done|]. split; [done|]. intros Hq.
  rewrite <- (string_app_nil_r text) at 1.
  rewrite sub_include_quote_free by done. apply string_app_nil_r.
Qed.

(** ** What a run writes *)

Lemma writes_within_ret {A} P (a : A) : writes_within P (mret a).
Proof. intros w. cbn. repeat split; try done. apply union_subseteq_r. Qed.

Lemma writes_within_bind {A B} P (m : Run A) (k : A → Run B) :
  writes_within P m → (∀ a, writes_within P (k a)) → writes_within P (m ≫= k).
Proof.
  intros Hm Hk w. destruct (Hm w) as (Hf & Hd & Hs1 & Hs2).
  unfold mbind, run_bind. destruct (m w) as [[a| |] w1]; cbn [snd] in *; [|done..].
  destruct (Hk a w1) as (Hf' & Hd' & Hs1' & Hs2').
  split; [intros p Hp; by rewrite Hf', Hf|].
  split; [by etrans|]. split; [by etrans|].
  etrans; [exact Hs2'|]. apply union_least; [apply union_subseteq_l|done].
Qed.

Lemma writes_within_print P m : writes_within P (print m).
Proof. intros w. cbn. repeat split; try done. apply union_subseteq_r. Qed.

Lemma writes_within_exit {A} P c : writes_within P (@exit A c).
Proof. intros w. cbn. repeat split; try done. apply union_subseteq_r. Qed.

Lemma writes_within_raise {A} P e : writes_within P (@raise A e).
Proof. intros w. cbn. repeat split; try done. apply union_subseteq_r. Qed.

Lemma writes_within_makedirs P : writes_within P (makedirs "chisage").
Proof. intros w. cbn. repeat split; try done. apply union_subseteq_r. Qed.

Lemma writes_within_write_file (P : string → Prop) p c : P p → writes_within P (write_file p c).
Proof.
  intros Hp w. cbn. split.
  - intros q Hq. apply lookup_insert_ne. by intros ->.
  - rewrite dom_insert_L. repeat split; try done; apply union_subseteq_r.
Qed.

Lemma writes_within_read_file P p : writes_within P (read_file p).
Proof. intros w. cbn. repeat split; try done. apply union_subseteq_r. Qed.

Lemma writes_within_read_var {A} P x (v : option A) : writes_within P (read_var x v).
Proof. destruct v; [apply writes_within_ret|apply writes_within_raise]. Qed.

Lemma writes_within_for_each {A} P (l : list A) (body : A → Run unit) :
  (∀ x, x ∈ l → writes_within P (body x)) → writes_within P (for_each l body).
Proof.
  induction l as [|x l IH]; intros Hb; cbn [for_each]; [apply writes_within_ret|].
  apply writes_within_bind; [apply Hb; left|].
  intros _. apply IH. intros y Hy. apply Hb. by right.
Qed.

Create HintDb frame.
#[local] Hint Resolve writes_within_ret writes_within_print writes_within_exit
  writes_within_raise writes_within_makedirs writes_within_read_file
  writes_within_read_var : frame.

Ltac frame :=
  repeat first
    [ progress eauto with frame
    | apply writes_within_bind; [|intros ?]
    | case_match ].

Section RunFacts.

Variable yaml_dump : pyval → string.
Variable yaml_safe_load : constructors → string → load_result.

Lemma writes_within_load_hubs P : writes_within P (load_hubs yaml_safe_load).
Proof. unfold load_hubs. frame. Qed.

Lemma writes_within_make_config (P : string → Prop) self port :
  P modbus_hubs_filename → P (sensors_file_path (ModbusDevice.name self)) →
  writes_within P (make_config yaml_dump yaml_safe_load self port).
Proof.
  intros Hr Hs. unfold make_config.
  frame; first [by apply writes_within_write_file | apply writes_within_load_hubs].
Qed.

Lemma writes_within_generate_card (P : string → Prop) dev :
  P (card_filename (ModbusDevice.name dev)) →
  writes_within P (generate_card yaml_dump dev).
Proof. intros Hc. unfold generate_card. frame. by apply writes_within_write_file. Qed.

Lemma writes_within_generate_at (P : string → Prop) args ipl pl i :
  P modbus_hubs_filename →
  P (sensors_file_path (device_instance_name i)) →
  (generate_cards args = true → P (card_filename (device_instance_name i))) →
  writes_within P (generate yaml_dump yaml_safe_load args ipl pl i).
Proof.
  intros Hr Hs Hc. unfold generate.
  apply writes_within_bind; [unfold current_host_ip; frame|]. intros host.
  apply writes_within_bind; [unfold current_port_val; frame|]. intros port.
  apply writes_within_bind; [apply writes_within_print|]. intros _. cbv zeta.
  apply writes_within_bind.
  - by apply writes_within_make_config.
  - intros _. destruct (generate_cards args) eqn:Hg; [|apply writes_within_ret].
    apply writes_within_generate_card. by apply Hc.
Qed.

Lemma writes_within_generate args ipl pl i :
  0 ≤ i < count args →
  writes_within (run_path args) (generate yaml_dump yaml_safe_load args ipl pl i).
Proof.
  intros Hi. apply writes_within_generate_at.
  - by left.
  - right. exists i. split; [done|]. by left.
  - intros Hc. right. exists i. split; [done|]. by right.
Qed.

Lemma writes_within_main args :
  writes_within (run_path args) (main yaml_dump yaml_safe_load args).
Proof.
  unfold main.
  apply writes_within_bind; [unfold ip_setup; frame|]. intros ipl.
  apply writes_within_bind; [unfold port_setup; frame|]. intros pl.
  apply writes_within_bind; [frame|]. intros _.
  apply writes_within_bind; [apply writes_within_print|]. intros _.
  apply writes_within_bind; [apply writes_within_print|]. intros _.
  apply writes_within_bind; [|intros _; frame].
  apply writes_within_for_each. intros i Hi%elem_of_seqZ.
  apply writes_within_generate. lia.
Qed.

(** X5: however a run ends, it has written only to the registry, to the sensor
    files of the indices below the count and, with [--generate-cards], to
    their cards: every other file is as it was, no file is removed, and the
    only directory that can be new is [chisage]. *)
Theorem main_writes_only_its_files (args : Args) (w : world) :
  let w' := snd (main yaml_dump yaml_safe_load args w) in
  (∀ p, ¬ run_path args p → files w' !! p = files w !! p)
  ∧ dom (files w) ⊆ dom (files w')
  ∧ dirs w ⊆ dirs w'
  ∧ dirs w' ⊆ {["chisage"]} ∪ dirs w.
Proof. apply writes_within_main. Qed.

(** *** How a run ends *)



(** X2: a malformed address that is not empty, or a count that is not positive,
    ends the run in [exit(1)] with the error as the last line printed, and
    nothing on disk is touched. *)
Theorem bad_arguments_touch_nothing (args : Args) (ip : string) (w : world) :
  ip_argument args ip →
  (ip ≠ "" ∧ ip_ok ip = false) ∨ count args ≤ 0 →
  ∃ lines m,
    main yaml_dump yaml_safe_load args w
    = (Exit 1, World (files w) (dirs w) (stdout w ++ lines ++ [m]))
    ∧ (m = MsgCountError ∨ ∃ e, m = MsgError e).
Proof.
  intros Hip Hbad.
  assert ((ip ≠ "" ∧ ip_ok ip = false) ∨ (count args ≤ 0 ∧ (ip = "" ∨ ip_ok ip = true)))
    as [[Hne Hok]|[Hc Hgood]].
  { destruct ip as [|c r]; [right; split; [by destruct Hbad as [[??]|?]|by left]|].
    destruct (ip_ok (String c r)) eqn:Hok; [|by left].
    right. split; [by destruct Hbad as [[??]|?]|by right]. }
  - destruct (malformed_ip_exits yaml_dump yaml_safe_load args ip w Hip Hne Hok)
      as (e & ->).
    exists [], (MsgError e). split; [done|]. right. by exists e.
  - destruct (nonpositive_count_exits yaml_dump yaml_safe_load args ip w Hip Hgood Hc)
      as (ms & ->).
    exists ms, MsgCountError. split; [done|]. by left.
Qed.

End RunFacts.


Lemma bad_arguments_touch_nothing_witness :
  (∃ out, run_main bad_octet_args empty_world = (Exit 1, World ∅ ∅ out))
  ∧ (∃ out, run_main zero_count_args empty_world = (Exit 1, World ∅ ∅ out)).
Proof.
  split.
  - destruct (bad_arguments_touch_nothing PyYAML.dump PyYAML.safe_load bad_octet_args
                "192.168.1.300" empty_world) as (lines & m & H & _).
    + right. split; reflexivity.
    + left. split; [discriminate|reflexivity].
    + eexists. exact H.
  - destruct (bad_arguments_touch_nothing PyYAML.dump PyYAML.safe_load zero_count_args
                "192.168.1.100" empty_world) as (lines & m & H & _).
    + right. split; reflexivity.
    + right. reflexivity.
    + eexists. exact H.
Defined.

Lemma empty_ip_NameError_witness :
  ∃ m, run_main empty_ip_args empty_world
       = (Raise (NameError "fixed_ip_str"),
          say empty_world [m; MsgGenerating 1; MsgSlave 1]).
Proof.
  apply (empty_ip_NameError PyYAML.dump PyYAML.safe_load empty_ip_args 5000).
  - left. split; reflexivity.
  - right. split; reflexivity.
  - discriminate.
  - reflexivity.
Defined.

(** ** The hosts of a run *)

Lemma str_octet z : 0 ≤ z ≤ 255 → octet (Py.str z).
Proof.
  intros Hz. split; [|split].
  - destruct (str_natural z) as (c & r & -> & _); [lia|done].
  - apply str_digits. lia.
  - exists z. split; [apply int_str; lia|done].
Qed.

Lemma octets_split a b c d :
  octet a → octet b → octet c →
  Py.all_chars (λ x, negb (Ascii.eqb x ".")) d = true →
  Py.split "." (a +:+ "." +:+ b +:+ "." +:+ c +:+ "." +:+ d) = [a; b; c; d].
Proof.
  intros Ha Hb Hc Hd.
  rewrite (split_field "." a) by (by apply octet_no_dot).
  rewrite (split_field "." b) by (by apply octet_no_dot).
  rewrite (split_field "." c) by (by apply octet_no_dot).
  by rewrite (split_last_field "." d).
Qed.

Lemma octets_ip_ok a b c d :
  octet a → octet b → octet c → octet d →
  ip_ok (a +:+ "." +:+ b +:+ "." +:+ c +:+ "." +:+ d) = true.
Proof.
  intros Ha Hb Hc Hd. unfold ip_ok, check_octets. apply bool_decide_eq_true.
  rewrite octets_split by (done || by apply octet_no_dot).
  rewrite bool_decide_eq_false_2 by (cbn; lia).
  rewrite all_octets_octets; [done|].
  repeat (apply Forall_cons; split; [done|]). apply Forall_nil_2.
Qed.

(** An address the check accepted, with its last field replaced by the
    decimal form of a number up to 255. *)
Lemma incremented_host ip (z : Z) :
  ip_ok ip = true → 0 ≤ z ≤ 255 →
  let host := Py.join "." (take 3 (Py.split "." ip)) +:+ "." +:+ Py.str z in
  ip_ok host = true
  ∧ take 3 (Py.split "." host) = take 3 (Py.split "." ip)
  ∧ last_octet host = z
  ∧ Py.split "." host = take 3 (Py.split "." ip) ++ [Py.str z].
Proof.
  intros (a & b & c & d & Hs & Hall)%ip_ok_octets Hz. cbv zeta.
  apply Forall_cons in Hall as [Ha Hall]. apply Forall_cons in Hall as [Hb Hall].
  apply Forall_cons in Hall as [Hc _].
  apply octet_checked in Ha, Hb, Hc.
  pose proof (str_octet z Hz) as Hd.
  rewrite Hs. cbn [take].
  assert (Py.join "." [a; b; c] +:+ "." +:+ Py.str z
          = a +:+ "." +:+ b +:+ "." +:+ c +:+ "." +:+ Py.str z) as ->.
  { cbn [Py.join]. by rewrite !string_app_assoc. }
  split; [by apply octets_ip_ok|].
  unfold last_octet. rewrite octets_split by (done || by apply octet_no_dot).
  split; [done|]. split; [|done]. cbn. rewrite int_str by lia. done.
Qed.

(** X7: for an address argument of code points up to 255 that passed the
    check, every host the loop hands to a device is a well-formed address:
    in fixed mode the argument itself; in incremental mode its fields are
    the first three fields of the argument and, as the fourth, the decimal
    form [str(last_octet_start + i)] of the last octet plus the index, so
    that leading zeros of the argument's last field are gone. *)
Theorem current_host_ip_well_formed (args : Args) (ip : string) (ipl : ip_locals)
    (i : Z) (host : string) (w w1 w2 w3 : world) :
  ip_argument args ip →
  ip_setup args w = (Return ipl, w1) →
  0 ≤ i →
  current_host_ip args ipl i w2 = (Return host, w3) →
  ip_ok host = true
  ∧ take 3 (Py.split "." host) = take 3 (Py.split "." ip)
  ∧ last_octet host = (if ip_mode_is_start ipl then last_octet ip + i else last_octet ip)
  ∧ (ip_mode_is_start ipl = false → host = ip)
  ∧ (ip_mode_is_start ipl = true →
     Py.split "." host = take 3 (Py.split "." ip) ++ [Py.str (last_octet ip + i)]
     ∧ host = Py.join "." (take 3 (Py.split "." ip)) +:+ "." +:+ Py.str (last_octet ip + i)).
Proof.
  intros Hip Hsetup Hi Hhost.
  destruct (decide (ip = "")) as [->|Hne].
  { rewrite (ip_setup_empty args w Hip) in Hsetup. injection Hsetup as <- _.
    by rewrite current_host_ip_unbound in Hhost. }
  destruct (ip_ok ip) eqn:Hok.
  2: { destruct (ip_setup_malformed args ip w Hip Hne Hok) as (e & He). congruence. }
  destruct (ip_ok_last ip Hok) as [_ HL].
  destruct Hip as [[Hs Hf]|[Hs Hf]].
  - rewrite (ip_setup_start args ip w Hs Hok) in Hsetup. injection Hsetup as <- _.
    cbn [ip_mode_is_start].
    destruct (Z.le_gt_cases (last_octet ip + i) 255) as [Hle|Hgt].
    + rewrite current_host_ip_start in Hhost by done. injection Hhost as <- _.
      destruct (incremented_host ip (last_octet ip + i) Hok) as (H1 & H2 & H3 & H4); [lia|].
      done.
    + by rewrite current_host_ip_overflow in Hhost by done.
  - rewrite (ip_setup_fixed args ip w Hs Hf Hok) in Hsetup. injection Hsetup as <- _.
    rewrite current_host_ip_fixed in Hhost. injection Hhost as <- _.
    done.
Qed.

Lemma current_host_ip_well_formed_witness :
  ip_ok "192.168.1.12" = true ∧ last_octet "192.168.1.12" = 10 + 2
  ∧ Py.split "." "192.168.1.12" = ["192"; "168"; "1"; Py.str 12].
Proof.
  destruct (current_host_ip_well_formed three_args "192.168.1.10"
              {| ip_mode_is_start := true; base_ip_prefix := Some "192.168.1";
                 last_octet_start := Some 10; fixed_ip_str := None |}
              2 "192.168.1.12" empty_world
              (say empty_world [MsgIpIncremental "192.168.1.10"]) empty_world empty_world)
    as (H1 & _ & H3 & _ & H5).
  - left. split; reflexivity.
  - reflexivity.
  - lia.
  - reflexivity.
  - split; [exact H1|]. split; [exact H3|]. apply (H5 eq_refl).
Defined.

(** ** The files of a run that goes through *)

Section FileFacts.

Variable yaml_dump : pyval → string.
Variable yaml_safe_load : constructors → string → load_result.

(** One turn of the loop: the sensor file and, if asked for, the card of
    the device hold the dumps of its registers and of its card. *)
Lemma generate_files args ipl pl i host port w :
  (∀ w, current_host_ip args ipl i w = (Return host, w)) →
  (∀ w, current_port_val pl i w = (Return port, w)) →
  let dev := ChisageInverter.init (device_instance_name i) (slave_id args) host 20 in
  ∃ w',
    generate yaml_dump yaml_safe_load args ipl pl i w = (Return (), w')
    ∧ files w' !! sensors_file_path (device_instance_name i)
      = Some (yaml_dump (PList (sensor_config_list dev)))
    ∧ (generate_cards args = true →
       files w' !! card_filename (device_instance_name i)
       = Some (yaml_dump (card_config dev)))
    ∧ "chisage" ∈ dirs w'.
Proof.
  intros Hh Hp dev. unfold generate. cbv zeta.
  unfold mbind at 1, run_bind at 1. rewrite Hh.
  unfold mbind at 1, run_bind at 1. rewrite Hp.
  unfold mbind at 1, run_bind at 1, print at 1. cbn [fst snd].
  unfold mbind at 1, run_bind at 1. fold dev.
  assert (ModbusDevice.name dev = device_instance_name i) as Hname by reflexivity.
  match goal with |- context [make_config _ _ dev port ?w0] =>
    destruct (make_config_total yaml_dump yaml_safe_load dev port w0)
      as (l & warn & -> & Hw) end.
  cbn [files dirs stdout]. rewrite Hname.
  destruct (generate_cards args).
  - rewrite generate_card_total. eexists. split; [reflexivity|].
    cbn [files dirs stdout]. rewrite Hname. split; [|split].
    + rewrite lookup_insert_ne by (apply not_eq_sym, sensors_file_path_not_card).
      rewrite lookup_insert_ne by (apply not_eq_sym, sensors_file_path_not_registry).
      by rewrite lookup_insert_eq.
    + intros _. by rewrite lookup_insert_eq.
    + apply elem_of_union_l, elem_of_singleton. done.
  - eexists. split; [reflexivity|].
    cbn [files dirs stdout]. split; [|split; [done|]].
    + rewrite lookup_insert_ne by (apply not_eq_sym, sensors_file_path_not_registry).
      by rewrite lookup_insert_eq.
    + apply elem_of_union_l, elem_of_singleton. done.
Qed.

(** A stretch of the loop: the files of its indices are there at the end,
    since no later turn writes to the files of an earlier one. *)
Lemma for_each_generate_files args ipl pl (hosts : Z → string) (ports : Z → Z) (n : nat) :
  ∀ a w,
    0 ≤ a →
    (∀ i, a ≤ i < a + Z.of_nat n → ∀ w, current_host_ip args ipl i w = (Return (hosts i), w)) →
    (∀ i, a ≤ i < a + Z.of_nat n → ∀ w, current_port_val pl i w = (Return (ports i), w)) →
    ∃ w',
      for_each (seqZ a (Z.of_nat n)) (generate yaml_dump yaml_safe_load args ipl pl) w
      = (Return (), w')
      ∧ (∀ i, a ≤ i < a + Z.of_nat n →
           let dev :=
             ChisageInverter.init (device_instance_name i) (slave_id args) (hosts i) 20 in
           files w' !! sensors_file_path (device_instance_name i)
           = Some (yaml_dump (PList (sensor_config_list dev)))
           ∧ (generate_cards args = true →
              files w' !! card_filename (device_instance_name i)
              = Some (yaml_dump (card_config dev)))
           ∧ "chisage" ∈ dirs w').
Proof.
  induction n as [|n IH]; intros a w Ha Hh Hp.
  - exists w. split; [done|]. intros i Hi. lia.
  - rewrite seqZ_cons by lia.
    replace (Z.pred (Z.of_nat (S n))) with (Z.of_nat n) by lia.
    cbn [for_each]. unfold mbind at 1, run_bind at 1.
    destruct (generate_files args ipl pl a (hosts a) (ports a) w)
      as (w1 & -> & Hs1 & Hc1 & Hd1).
    { apply Hh. lia. } { apply Hp. lia. }
    destruct (IH (Z.succ a) w1) as (w2 & Hrun & Hfiles); [lia| | |].
    { intros i Hi. apply Hh. lia. } { intros i Hi. apply Hp. lia. }
    exists w2. split; [done|].
    intros i Hi. destruct (decide (i = a)) as [->|Hne]; [|apply Hfiles; lia].
    set (P := λ p : string,
           p = modbus_hubs_filename
           ∨ ∃ j, a < j
               ∧ (p = sensors_file_path (device_instance_name j)
                  ∨ p = card_filename (device_instance_name j))).
    assert (writes_within P
              (for_each (seqZ (Z.succ a) (Z.of_nat n))
                 (generate yaml_dump yaml_safe_load args ipl pl))) as Hframe.
    { apply writes_within_for_each. intros j Hj%elem_of_seqZ.
      apply writes_within_generate_at.
      - by left.
      - right. exists j. split; [lia|by left].
      - intros _. right. exists j. split; [lia|by right]. }
    destruct (Hframe w1) as (Hkeep & _ & Hdirs & _). rewrite Hrun in Hkeep, Hdirs.
    cbn [snd] in Hkeep, Hdirs. cbv zeta. split; [|split].
    + rewrite Hkeep; [done|]. intros [Hr|(j & Hj & [Hs|Hc])].
      * by apply sensors_file_path_not_registry in Hr.
      * pose proof (sensors_file_path_instance_inj a j ltac:(lia) ltac:(lia) Hs). lia.
      * by apply sensors_file_path_not_card in Hc.
    + intros Hg. rewrite Hkeep; [by apply Hc1|]. intros [Hr|(j & Hj & [Hs|Hc])].
      * by apply card_filename_not_registry in Hr.
      * symmetry in Hs. by apply sensors_file_path_not_card in Hs.
      * pose proof (card_filename_instance_inj a j ltac:(lia) ltac:(lia) Hc). lia.
    + by apply Hdirs.
Qed.


End FileFacts.


(** ** The registry entries of a run, as YAML *)

Lemma no_break_pairs s :
  PyYAML.line_breaks s = false →
  PyYAML.break_space s = false ∧ PyYAML.space_break s = false.
Proof.
  unfold PyYAML.line_breaks.
  induction s as [|c s IH]; [done|]. cbn [PyYAML.any_char].
  intros [Hc Hs]%orb_false_iff. destruct (IH Hs) as [IH1 IH2]. split.
  - destruct s as [|c' s']; [done|].
    destruct c' as [[][][][][][][][]]; cbn [PyYAML.break_space]; rewrite ?Hc; exact IH1.
  - destruct s as [|c' s']; [by destruct c as [[][][][][][][][]]|].
    cbn [PyYAML.any_char] in Hs. apply orb_false_iff in Hs as [Hc' _].
    destruct c as [[][][][][][][][]]; cbn [PyYAML.space_break]; rewrite ?Hc'; exact IH2.
Qed.

Lemma last_char_app a b : b ≠ "" → PyYAML.last_char (a +:+ b) = PyYAML.last_char b.
Proof.
  intros Hb. induction a as [|c a IH]; [done|]. rewrite string_app_cons.
  cbn [PyYAML.last_char]. destruct (a +:+ b) eqn:Hab; [|done].
  destruct a; [|done]. by rewrite string_app_nil_l in Hab.
Qed.

Lemma no_indicator_later pw s :
  PyYAML.any_char (λ c, PyYAML.in_set c ":#") s = false →
  PyYAML.later_block_indicator pw s = false.
Proof.
  revert pw. induction s as [|c s IH]; [done|]. intros pw. cbn [PyYAML.any_char].
  intros [Hc Hs]%orb_false_iff. cbn [PyYAML.later_block_indicator]. rewrite (IH _ Hs).
  destruct c as [[][][][][][][][]]; try discriminate Hc; reflexivity.
Qed.

(** A text of printable characters without colon and hash, which does not
    start with a space or an indicator and does not end in a space, may be
    written plain. *)
Lemma words_allow_block_plain c r :
  PyYAML.special_characters (String c r) = false →
  PyYAML.line_breaks (String c r) = false →
  PyYAML.any_char (λ c, PyYAML.in_set c ":#") (String c r) = false →
  PyYAML.in_set c " -." = false →
  PyYAML.first_block_indicator c r = false →
  PyYAML.trailing_space (String c r) = false →
  PyYAML.allow_block_plain (String c r) = true.
Proof.
  intros Hsp Hlb Hci Hc Hf Ht.
  unfold PyYAML.allow_block_plain, PyYAML.block_indicators.
  destruct (no_break_pairs _ Hlb) as [-> ->]. rewrite Hsp, Hlb, Ht, Hf.
  cbn [PyYAML.any_char] in Hci. apply orb_false_iff in Hci as [_ Hr].
  rewrite (no_indicator_later _ _ Hr).
  destruct c as [[][][][][][][][]]; try discriminate Hc; reflexivity.
Qed.

Lemma resolve_capital_C r : PyYAML.resolve (String "C" r) = Some (PStr (String "C" r)).
Proof.
  unfold PyYAML.resolve.
  rewrite !bool_decide_eq_false_2; [done|..];
    intros H; repeat (apply elem_of_cons in H as [H|H]; [discriminate H|]);
    by apply elem_of_nil in H.
Qed.

Lemma unfolded_no_space col s :
  PyYAML.any_char (λ c, Ascii.eqb c " ") s = false → unfolded col s = true.
Proof.
  revert col. induction s as [|c s IH]; [done|]. intros col. cbn [PyYAML.any_char unfolded].
  intros [-> Hs]%orb_false_iff. by rewrite IH.
Qed.

Lemma bland_no_space s :
  Py.all_chars bland s = true → PyYAML.any_char (λ c, Ascii.eqb c " ") s = false.
Proof. apply all_chars_none, bland_not_space. Qed.

Lemma bland_no_indicator s :
  Py.all_chars bland s = true → PyYAML.any_char (λ c, PyYAML.in_set c ":#") s = false.
Proof.
  apply all_chars_none. intros c Hc.
  destruct c as [[][][][][][][][]]; try discriminate Hc; reflexivity.
Qed.

Lemma bland_quote_free s :
  Py.all_chars (λ c, bland c && negb (Ascii.eqb c Re.quote)) s = true → quote_free s = true.
Proof.
  intros H. unfold quote_free. apply negb_true_iff. revert H. apply all_chars_none.
  intros c [_ Hc]%andb_true_iff. by apply negb_true_iff.
Qed.

Lemma special_characters_app a b :
  PyYAML.special_characters (a +:+ b)
  = PyYAML.special_characters a || PyYAML.special_characters b.
Proof. apply any_char_app. Qed.

Lemma line_breaks_app a b :
  PyYAML.line_breaks (a +:+ b) = PyYAML.line_breaks a || PyYAML.line_breaks b.
Proof. apply any_char_app. Qed.

Lemma quote_free_literal a b : quote_free a = true → quote_free b = true → quote_free (a +:+ b) = true.
Proof. intros Ha Hb. by rewrite quote_free_app, Ha, Hb. Qed.

(** The name of an instance is written plain, on its line. *)
Lemma instance_name_plain i col :
  0 ≤ i → (col ≤ 72)%nat → plain_value col (device_instance_name i) = true.
Proof.
  intros Hi Hcol. unfold plain_value, device_instance_name.
  pose proof (str_digits (i + 1) ltac:(lia)) as Hd.
  pose proof (digits_bland _ Hd) as Hb.
  destruct (str_natural (i + 1)) as (c & r & Hs & _); [lia|].
  assert (Py.str (i + 1) ≠ "") as Hne by (by rewrite Hs).
  apply andb_true_iff. split; [apply andb_true_iff; split|].
  - apply plain_spec. split.
    + change ("Chisage " +:+ Py.str (i + 1)) with (String "C" ("hisage " +:+ Py.str (i + 1))).
      unfold PyYAML.implicit_str. rewrite resolve_capital_C. apply String.eqb_refl.
    + change ("Chisage " +:+ Py.str (i + 1)) with (String "C" ("hisage " +:+ Py.str (i + 1))).
      apply words_allow_block_plain; try reflexivity.
      * change (String "C" ("hisage " +:+ Py.str (i + 1))) with ("Chisage " +:+ Py.str (i + 1)).
        by rewrite special_characters_app, (bland_special _ Hb).
      * change (String "C" ("hisage " +:+ Py.str (i + 1))) with ("Chisage " +:+ Py.str (i + 1)).
        by rewrite line_breaks_app, (bland_line_breaks _ Hb).
      * change (String "C" ("hisage " +:+ Py.str (i + 1))) with ("Chisage " +:+ Py.str (i + 1)).
        rewrite any_char_app. by rewrite (bland_no_indicator _ Hb).
      * change (String "C" ("hisage " +:+ Py.str (i + 1))) with ("Chisage " +:+ Py.str (i + 1)).
        unfold PyYAML.trailing_space. rewrite last_char_app by done.
        apply (bland_trailing_space _ Hb).
  - apply quote_free_literal; [reflexivity|apply str_quote_free].
  - change ("Chisage " +:+ Py.str (i + 1))
      with (String "C" (String "h" (String "i" (String "s" (String "a" (String "g"
             (String "e" (String " " (Py.str (i + 1)))))))))).
    cbn [unfolded Ascii.eqb Bool.eqb negb orb andb].
    rewrite unfolded_no_space by (by apply bland_no_space).
    rewrite andb_true_r. apply Nat.leb_le. lia.
Qed.

Lemma digit_or_dot_bland c :
  Py.is_ascii_digit c || Ascii.eqb c "." = true → bland c = true.
Proof. destruct c as [[][][][][][][][]]; try discriminate; reflexivity. Qed.

Lemma digits_dotted s :
  Py.all_chars Py.is_ascii_digit s = true →
  Py.all_chars (λ c, Py.is_ascii_digit c || Ascii.eqb c ".") s = true.
Proof. apply all_chars_impl. by intros c ->. Qed.

(** What an address the check accepts looks like to the resolver: it starts
    with a digit, is made of digits and dots, and has three dots. *)
Lemma ip_ok_shape host :
  ip_ok host = true →
  ∃ c r, host = String c r ∧ Py.is_ascii_digit c = true
    ∧ Py.all_chars (λ c, Py.is_ascii_digit c || Ascii.eqb c ".") host = true
    ∧ PyYAML.count_char "." host = 3%nat.
Proof.
  intros Hok. pose proof Hok as (a & b & c & d & Hs & Hall)%ip_ok_octets.
  apply Forall_cons in Hall as [Ha Hall]. apply Forall_cons in Hall as [Hb Hall].
  apply Forall_cons in Hall as [Hc Hall]. apply Forall_cons in Hall as [Hd _].
  apply octet_checked in Ha as (Hane & Ha & _), Hb as (_ & Hb & _),
    Hc as (_ & Hc & _), Hd as (_ & Hd & _).
  assert (host = a +:+ "." +:+ b +:+ "." +:+ c +:+ "." +:+ d) as ->.
  { rewrite <- (join_split "." host), Hs. reflexivity. }
  destruct a as [|x a]; [done|]. cbn [Py.all_chars] in Ha.
  apply andb_true_iff in Ha as [Hx Ha].
  exists x, (a +:+ "." +:+ b +:+ "." +:+ c +:+ "." +:+ d).
  split; [by rewrite string_app_cons|]. split; [done|]. split.
  - rewrite !all_chars_app. cbn [Py.all_chars]. rewrite Hx.
    rewrite !digits_dotted by done. reflexivity.
  - rewrite !count_char_app. cbn [PyYAML.count_char].
    rewrite (digit_not_dot x Hx), !digits_no_dot by done. reflexivity.
Qed.

Lemma natural_no_dot s : PyYAML.is_natural s = true → PyYAML.count_char "." s = 0%nat.
Proof.
  intros (c & r & -> & Hc & Hr)%is_natural_digits.
  apply digits_no_dot. cbn [Py.all_chars]. by rewrite Hc, Hr.
Qed.

(** Such an address is written plain, on its line. *)
Lemma host_plain host col : ip_ok host = true → plain_value col host = true.
Proof.
  intros (c & r & -> & Hc & Hall & Hdots)%ip_ok_shape.
  assert (Py.all_chars bland (String c r) = true) as Hb.
  { revert Hall. apply all_chars_impl, digit_or_dot_bland. }
  unfold plain_value. apply andb_true_iff. split; [apply andb_true_iff; split|].
  - apply plain_spec. split.
    + unfold PyYAML.implicit_str, PyYAML.resolve.
      assert (PyYAML.numeric_start c = true) as Hs
        by (unfold PyYAML.numeric_start; by rewrite Hc).
      rewrite !bool_decide_eq_false_2
        by (apply numeric_word; [done|repeat constructor]).
      rewrite Hs.
      assert (PyYAML.is_decimal (String c r) = PyYAML.is_natural (String c r)) as ->.
      { by destruct c as [[][][][][][][][]]. }
      destruct (PyYAML.is_natural (String c r)) eqn:Hn.
      { apply natural_no_dot in Hn. congruence. }
      unfold PyYAML.is_dotted. rewrite Hall, Hdots. cbn [andb Nat.leb]. apply String.eqb_refl.
    + apply bland_allow_block_plain; [done|by apply digit_not_indicator|..];
        destruct c as [[][][][][][][][]]; try discriminate Hc; reflexivity.
  - unfold quote_free. apply negb_true_iff. revert Hall. apply all_chars_none.
    intros x Hx. destruct x as [[][][][][][][][]]; try discriminate Hx; reflexivity.
  - by apply unfolded_no_space, bland_no_space.
Qed.

Lemma path_matches_app a : a ≠ "" → Re.path_matches (a +:+ ".yaml") = true.
Proof.
  induction a as [|x a IH]; [done|]. intros _. rewrite string_app_cons.
  cbn [Re.path_matches]. destruct a as [|y a]; [done|].
  rewrite IH by done. apply orb_true_r.
Qed.

Lemma digits_path_chars s :
  Py.all_chars Py.is_ascii_digit s = true →
  Py.all_chars (λ c, bland c && negb (Ascii.eqb c Re.quote)) s = true.
Proof.
  apply all_chars_impl. intros c Hc.
  destruct c as [[][][][][][][][]]; try discriminate Hc; reflexivity.
Qed.

(** The marker of an instance's sensor file is one the substitution takes
    and the loader reads back. *)
Lemma instance_marker i col :
  0 ≤ i → (col ≤ 70)%nat →
  include_value col ("!include " +:+ sensors_file_path (device_instance_name i)) = true.
Proof.
  intros Hi Hcol. unfold include_value, sensors_file_path.
  rewrite slug_instance by done.
  pose proof (str_digits (i + 1) ltac:(lia)) as Hd.
  set (ds := Py.str (i + 1)) in *.
  set (path := "chisage/" +:+ ("chisage_" +:+ ds) +:+ "_sensors.yaml").
  change (Re.strip_prefix "!include " ("!include " +:+ path)) with (Some path).
  assert (Py.all_chars (λ c, bland c && negb (Ascii.eqb c Re.quote)) path = true) as Hp.
  { unfold path. rewrite !all_chars_app, (digits_path_chars ds Hd). reflexivity. }
  assert (Py.all_chars bland path = true) as Hb.
  { revert Hp. apply all_chars_impl. by intros c [? _]%andb_true_iff. }
  apply andb_true_iff; split; [apply andb_true_iff; split; [apply andb_true_iff; split|]|].
  - unfold path.
    change "_sensors.yaml" with ("_sensors" +:+ ".yaml").
    rewrite <- !string_app_assoc. by apply path_matches_app.
  - by apply bland_quote_free.
  - unfold path in *. rewrite string_app_cons in Hb |- *.
    by apply bland_allow_block_plain.
  - change ("!include " +:+ path)
      with (String "!" (String "i" (String "n" (String "c" (String "l" (String "u"
             (String "d" (String "e" (String " " path))))))))).
    cbn [unfolded Ascii.eqb Bool.eqb negb orb andb].
    rewrite unfolded_no_space by (by apply bland_no_space).
    rewrite andb_true_r. apply Nat.leb_le. lia.
Qed.

(** The registry entry of an instance with a well-formed host is an entry
    of the registry fragment. *)
Lemma hub_entry_fragment i host port :
  0 ≤ i → ip_ok host = true →
  registry_entry (hub_entry (device_instance_name i) host port) = true.
Proof.
  intros Hi Hok. unfold hub_entry, registry_entry.
  apply andb_true_iff. split; [|reflexivity].
  cbn [forallb registry_pair].
  change (simple_key "name") with true. change (simple_key "type") with true.
  change (simple_key "host") with true. change (simple_key "port") with true.
  change (simple_key "sensors") with true.
  change (plain_value (value_column "type") "tcp") with true.
  rewrite (instance_name_plain i) by (done || (cbn; lia)).
  rewrite (host_plain host) by done.
  rewrite (instance_marker i) by (done || (cbn; lia)).
  cbn. by rewrite orb_true_r.
Qed.

(** ** The registry across the turns of a run *)

Lemma forallb_Forall {A} (f : A → bool) (l : list A) :
  forallb f l = true ↔ Forall (λ x, f x = true) l.
Proof.
  induction l as [|x l IH]; cbn [forallb]; [by split; [constructor|]|].
  rewrite andb_true_iff, Forall_cons, IH. done.
Qed.

Lemma registry_fragment_upsert n e l :
  registry_entry e = true → registry_fragment l = true →
  registry_fragment (upsert n e l) = true.
Proof.
  unfold registry_fragment. rewrite !forallb_Forall. intros He Hl. unfold upsert.
  destruct (list_find _ l) as [[i old]|].
  - by apply Forall_insert.
  - apply Forall_app. split; [done|]. by apply Forall_singleton.
Qed.

Lemma registry_holds_say w l lines : registry_holds w l → registry_holds (say w lines) l.
Proof. done. Qed.

(** The load gives back the list the registry was written for. *)
Lemma load_hubs_registry w l :
  registry_holds w l → load_hubs PyYAML.safe_load w = (Return l, w).
Proof.
  intros [Hl [Hf|[-> Hf]]]; unfold load_hubs, read_file;
    unfold mbind at 1, run_bind at 1; rewrite Hf; [|done].
  unfold PyYAML.safe_load. by rewrite load_written_registry.
Qed.

Lemma make_config_registry dev port w l :
  registry_holds w l →
  registry_entry (hub_entry (ModbusDevice.name dev) (ModbusDevice.host dev) port) = true →
  ∃ w',
    make_config PyYAML.dump PyYAML.safe_load dev port w = (Return (), w')
    ∧ registry_holds w'
        (upsert (ModbusDevice.name dev)
           (hub_entry (ModbusDevice.name dev) (ModbusDevice.host dev) port) l).
Proof.
  intros Hw He. unfold make_config.
  unfold mbind at 1, run_bind at 1, makedirs at 1.
  unfold mbind at 1, run_bind at 1, write_file at 1. cbn [files dirs stdout].
  unfold mbind at 1, run_bind at 1.
  rewrite (load_hubs_registry _ l).
  - eexists. split; [reflexivity|]. destruct Hw as [Hl _].
    split; [by apply registry_fragment_upsert|]. left. cbn [files].
    by rewrite lookup_insert_eq.
  - destruct Hw as [Hl Hf]. split; [done|]. cbn [files].
    rewrite lookup_insert_ne by apply sensors_file_path_not_registry. done.
Qed.

Lemma generate_registry args ipl pl i host port w l :
  (∀ w, current_host_ip args ipl i w = (Return host, w)) →
  (∀ w, current_port_val pl i w = (Return port, w)) →
  0 ≤ i → ip_ok host = true →
  registry_holds w l →
  ∃ w',
    generate PyYAML.dump PyYAML.safe_load args ipl pl i w = (Return (), w')
    ∧ registry_holds w'
        (upsert (device_instance_name i) (hub_entry (device_instance_name i) host port) l).
Proof.
  intros Hh Hp Hi Hok Hw. unfold generate. cbv zeta.
  unfold mbind at 1, run_bind at 1. rewrite Hh.
  unfold mbind at 1, run_bind at 1. rewrite Hp.
  unfold mbind at 1, run_bind at 1, print at 1. cbn [fst snd].
  unfold mbind at 1, run_bind at 1.
  set (dev := ChisageInverter.init (device_instance_name i) (slave_id args) host 20).
  match goal with |- context [make_config _ _ dev port ?w0] =>
    destruct (make_config_registry dev port w0 l) as (w1 & -> & Hw1) end.
  { exact Hw. }
  { by apply hub_entry_fragment. }
  change (ModbusDevice.name dev) with (device_instance_name i) in Hw1.
  change (ModbusDevice.host dev) with host in Hw1.
  destruct (generate_cards args).
  - rewrite generate_card_total. eexists. split; [reflexivity|].
    destruct Hw1 as [Hl Hf]. split; [done|]. cbn [files].
    rewrite lookup_insert_ne by apply card_filename_not_registry. done.
  - eexists. split; [reflexivity|]. done.
Qed.

Lemma for_each_generate_registry args ipl pl (hosts : Z → string) (ports : Z → Z) (n : nat) :
  ∀ a w l,
    0 ≤ a →
    (∀ i, a ≤ i < a + Z.of_nat n → ∀ w, current_host_ip args ipl i w = (Return (hosts i), w)) →
    (∀ i, a ≤ i < a + Z.of_nat n → ∀ w, current_port_val pl i w = (Return (ports i), w)) →
    (∀ i, a ≤ i < a + Z.of_nat n → ip_ok (hosts i) = true) →
    registry_holds w l →
    ∃ w',
      for_each (seqZ a (Z.of_nat n)) (generate PyYAML.dump PyYAML.safe_load args ipl pl) w
      = (Return (), w')
      ∧ registry_holds w'
          (foldl (λ l i, upsert (device_instance_name i)
                           (hub_entry (device_instance_name i) (hosts i) (ports i)) l)
             l (seqZ a (Z.of_nat n))).
Proof.
  induction n as [|n IH]; intros a w l Ha Hh Hp Hok Hw.
  - exists w. by split.
  - rewrite seqZ_cons by lia.
    replace (Z.pred (Z.of_nat (S n))) with (Z.of_nat n) by lia.
    cbn [for_each foldl]. unfold mbind at 1, run_bind at 1.
    destruct (generate_registry args ipl pl a (hosts a) (ports a) w l)
      as (w1 & -> & Hw1); [apply Hh; lia|apply Hp; lia|done|apply Hok; lia|done|].
    apply IH; [lia|intros i Hi; apply Hh; lia|intros i Hi; apply Hp; lia
              |intros i Hi; apply Hok; lia|done].
Qed.

(** The hosts of a run that goes through are well formed. *)
Lemma expected_host_ok args ip i :
  ip_argument args ip → ip_ok ip = true → 0 ≤ i →
  (is_Some (ip_start args) → last_octet ip + i ≤ 255) →
  ip_ok (derived_host (expected_device args i)) = true.
Proof.
  intros [[Hs Hf]|[Hs Hf]] Hok Hi Hfit; unfold expected_device; cbn [derived_host];
    rewrite Hs; [|by rewrite Hf].
  destruct (ip_ok_last ip Hok) as [_ HL].
  apply (incremented_host ip (last_octet ip + i) Hok).
  split; [lia|]. apply Hfit. by rewrite Hs.
Qed.

(** The state a run that goes through leaves, from a registry that is
    absent or was written by the program. *)
Lemma run_state args ip port w l :
  0 < count args →
  ip_argument args ip → ip_ok ip = true →
  port_argument args port → port ≠ 0 →
  (is_Some (ip_start args) → last_octet ip + (count args - 1) ≤ 255) →
  registry_holds w l →
  ∃ w',
    run_main args w = (Return (), w')
    ∧ registry_holds w' (merged args l (count args))
    ∧ "chisage" ∈ dirs w'
    ∧ ∀ i, 0 ≤ i < count args →
        files w' !! sensors_file_path (device_instance_name i)
        = Some (PyYAML.dump (PList (sensor_config_list (instance args i))))
        ∧ (generate_cards args = true →
           files w' !! card_filename (device_instance_name i)
           = Some (PyYAML.dump (card_config (instance args i)))).
Proof.
  intros Hcount Hip Hok Hport Hne Hfit Hw. unfold run_main.
  destruct (ip_setup_ok args ip w Hip Hok) as (ipl & m1 & Hipl & _ & Hhost & _).
  destruct (port_setup_ok args port (say w [m1]) Hport Hne) as (pl & m2 & Hpl & _ & Hp).
  rewrite (main_loop PyYAML.dump PyYAML.safe_load args w ipl pl _ _ Hipl Hpl Hcount).
  set (w0 := say (say (say w [m1]) [m2])
               [MsgGenerating (count args); MsgSlave (slave_id args)]).
  assert (∀ i, 0 ≤ i < 0 + Z.of_nat (Z.to_nat (count args)) →
            ∀ w, current_host_ip args ipl i w
                 = (Return (derived_host (expected_device args i)), w)) as Hh.
  { intros i Hi w'. apply Hhost. intros Hs. specialize (Hfit Hs). lia. }
  destruct (for_each_generate_files PyYAML.dump PyYAML.safe_load args ipl pl
              (λ i, derived_host (expected_device args i))
              (λ i, derived_port (expected_device args i))
              (Z.to_nat (count args)) 0 w0) as (w1 & Hrun & Hfiles);
    [lia|exact Hh|intros i Hi w'; apply Hp|].
  destruct (for_each_generate_registry args ipl pl
              (λ i, derived_host (expected_device args i))
              (λ i, derived_port (expected_device args i))
              (Z.to_nat (count args)) 0 w0 l) as (w2 & Hrun2 & Hreg);
    [lia|exact Hh|intros i Hi w'; apply Hp| |exact Hw|].
  { intros i Hi. apply (expected_host_ok args ip i Hip Hok); [lia|].
    intros Hs. specialize (Hfit Hs). lia. }
  rewrite Hrun in Hrun2. injection Hrun2 as <-.
  rewrite Z2Nat.id in Hrun, Hfiles, Hreg by lia.
  unfold mbind at 1, run_bind at 1. rewrite Hrun.
  eexists. split; [reflexivity|]. split; [exact Hreg|]. cbn [files dirs]. split.
  - assert (0 ≤ 0 < 0 + count args) as H0 by lia.
    by destruct (Hfiles 0 H0) as (_ & _ & Hd).
  - intros i Hi. assert (0 ≤ i < 0 + count args) as Hi' by lia.
    destruct (Hfiles i Hi') as (Hs & Hc & _). by split.
Qed.

Lemma device_instance_name_inj i j :
  0 ≤ i → 0 ≤ j → device_instance_name i = device_instance_name j → i = j.
Proof.
  intros Hi Hj H%string_app_inj_head.
  assert (Some (i + 1) = Some (j + 1)) as [= ?]; [|lia].
  rewrite <- (int_str (i + 1)), <- (int_str (j + 1)) by lia. by rewrite H.
Qed.

Lemma list_find_upsert_same n e l :
  entry_name e = Some n →
  ∃ k, list_find (λ entry, names n entry = true) (upsert n e l) = Some (k, e).
Proof.
  intros He.
  destruct (list_find (λ entry, names n entry = true) l) as [[i old]|] eqn:Hf.
  - rewrite (upsert_found _ _ _ _ _ Hf).
    apply list_find_Some in Hf as (Hi & Hold & Hbefore).
    exists i. apply list_find_Some. split.
    + apply list_lookup_insert_eq. by eapply lookup_lt_Some.
    + split; [by apply names_entry_name|].
      intros j y Hj Hlt. rewrite list_lookup_insert_ne in Hj by lia. eauto.
  - rewrite (upsert_not_found _ _ _ Hf).
    exists (length l). apply list_find_Some.
    split; [by rewrite lookup_app_r, Nat.sub_diag by lia|].
    split; [by apply names_entry_name|].
    intros j y Hj Hlt. rewrite lookup_app_l in Hj by done.
    apply list_find_None in Hf. rewrite Forall_forall in Hf.
    apply Hf. by eapply list_elem_of_lookup_2.
Qed.

Lemma list_find_upsert_other n m e l k x :
  n ≠ m → entry_name e = Some m →
  list_find (λ entry, names n entry = true) l = Some (k, x) →
  list_find (λ entry, names n entry = true) (upsert m e l) = Some (k, x).
Proof.
  intros Hne He (Hk & Hx & Hbefore)%list_find_Some. apply list_find_Some.
  assert (names n e ≠ true) as Hen.
  { intros H%names_entry_name. congruence. }
  destruct (list_find (λ entry, names m entry = true) l) as [[j old]|] eqn:Hf.
  - rewrite (upsert_found _ _ _ _ _ Hf).
    apply list_find_Some in Hf as (Hj & Hold & _).
    assert (j ≠ k) as Hjk.
    { intros ->. apply names_entry_name in Hold, Hx. congruence. }
    split; [by rewrite list_lookup_insert_ne|]. split; [done|].
    intros j' y Hj' Hlt. destruct (decide (j' = j)) as [->|Hj'j].
    + rewrite list_lookup_insert_eq in Hj' by (by eapply lookup_lt_Some).
      by injection Hj' as <-.
    + rewrite list_lookup_insert_ne in Hj' by done. eauto.
  - rewrite (upsert_not_found _ _ _ Hf).
    pose proof (lookup_lt_Some _ _ _ Hk) as Hlen.
    split; [by rewrite lookup_app_l|]. split; [done|].
    intros j' y Hj' Hlt. rewrite lookup_app_l in Hj' by lia. eauto.
Qed.

Lemma upsert_present n e l k :
  list_find (λ entry, names n entry = true) l = Some (k, e) → upsert n e l = l.
Proof.
  intros Hf. rewrite (upsert_found _ _ _ _ _ Hf).
  apply list_find_Some in Hf as (Hk & _). by apply list_insert_id.
Qed.

Lemma instance_entry_name args i :
  entry_name (instance_entry args i) = Some (device_instance_name i).
Proof. reflexivity. Qed.

Lemma merged_succ args l n :
  0 ≤ n →
  merged args l (n + 1)
  = upsert (device_instance_name n) (instance_entry args n) (merged args l n).
Proof.
  intros Hn. unfold merged. rewrite (seqZ_app 0 n 1) by lia. rewrite foldl_app.
  rewrite Z.add_0_l, (seqZ_cons n 1) by lia.
  by rewrite (seqZ_nil (Z.succ n)) by lia.
Qed.

(** After the merges of a run, the first entry under the name of each
    instance is the entry of that instance. *)
Lemma merged_finds args l (n : nat) i :
  0 ≤ i < Z.of_nat n →
  ∃ k, list_find (λ entry, names (device_instance_name i) entry = true)
         (merged args l (Z.of_nat n))
       = Some (k, instance_entry args i).
Proof.
  induction n as [|n IH]; [lia|]. intros Hi.
  replace (Z.of_nat (S n)) with (Z.of_nat n + 1) by lia.
  rewrite merged_succ by lia.
  destruct (decide (i = Z.of_nat n)) as [->|Hne].
  - apply list_find_upsert_same, instance_entry_name.
  - destruct IH as [k Hk]; [lia|]. exists k.
    apply list_find_upsert_other; [|apply instance_entry_name|done].
    intros H%device_instance_name_inj; lia.
Qed.

Lemma merged_again args l n :
  0 ≤ n → merged args (merged args l n) n = merged args l n.
Proof.
  intros Hn. unfold merged at 1.
  assert (∀ (indices : list Z) L,
            (∀ i, i ∈ indices →
               ∃ k, list_find (λ entry, names (device_instance_name i) entry = true) L
                    = Some (k, instance_entry args i)) →
            foldl (λ l i, upsert (device_instance_name i) (instance_entry args i) l) L indices
            = L) as Hfold.
  { induction indices as [|i indices IH]; intros L HL; [done|]. cbn [foldl].
    destruct (HL i) as [k Hk]; [left|]. rewrite (upsert_present _ _ _ _ Hk).
    apply IH. intros j Hj. apply HL. by right. }
  apply Hfold. intros i Hi%elem_of_seqZ.
  rewrite <- (Z2Nat.id n) by done. apply merged_finds. lia.
Qed.

(** Into an empty registry the merges put one entry for each instance, in
    the order of the indices. *)
Lemma merged_nil args (n : nat) :
  merged args [] (Z.of_nat n) = instance_entry args <$> seqZ 0 (Z.of_nat n).
Proof.
  induction n as [|n IH]; [done|].
  replace (Z.of_nat (S n)) with (Z.of_nat n + 1) by lia.
  rewrite merged_succ, IH by lia.
  rewrite (seqZ_app 0 (Z.of_nat n) 1) by lia.
  rewrite fmap_app, Z.add_0_l, (seqZ_cons (Z.of_nat n) 1) by lia.
  rewrite (seqZ_nil (Z.succ (Z.of_nat n))) by lia.
  apply upsert_not_found, list_find_None, Forall_forall.
  intros x (j & -> & Hj%elem_of_seqZ)%list_elem_of_fmap H%names_entry_name.
  rewrite instance_entry_name in H.
  assert (device_instance_name j = device_instance_name (Z.of_nat n)) as Hjn by congruence.
  apply device_instance_name_inj in Hjn; lia.
Qed.

(** X8: a run that goes through, starting from a registry that is absent or
    was written by the program for the list [l], leaves the registry
    written for [l] with the entries of the instances merged in, in the order
    of the indices.  That file loads as the merged list, in which the first
    entry under the name of each instance is the entry of that instance; from
    an absent registry the list is the entries of the instances and nothing
    else. *)
Theorem run_registry (args : Args) (ip : string) (port : Z) (w : world) (l : list pyval) :
  0 < count args →
  ip_argument args ip → ip_ok ip = true →
  port_argument args port → port ≠ 0 →
  (is_Some (ip_start args) → last_octet ip + (count args - 1) ≤ 255) →
  registry_holds w l →
  let registry := merged args l (count args) in
  ∃ w',
    run_main args w = (Return (), w')
    ∧ files w' !! modbus_hubs_filename = Some (written_registry registry)
    ∧ PyYAML.load safe_loader_constructors (written_registry registry)
      = Some (Loaded (PList registry))
    ∧ (∀ i, 0 ≤ i < count args →
         ∃ k, list_find (λ entry, names (device_instance_name i) entry = true) registry
              = Some (k, instance_entry args i))
    ∧ (l = [] → registry = instance_entry args <$> seqZ 0 (count args)).
Proof.
  intros Hcount Hip Hok Hport Hne Hfit Hw registry.
  destruct (run_state args ip port w l Hcount Hip Hok Hport Hne Hfit Hw)
    as (w' & Hrun & [Hfrag Hfile] & _).
  assert (∀ i, 0 ≤ i < count args →
            ∃ k, list_find (λ entry, names (device_instance_name i) entry = true) registry
                 = Some (k, instance_entry args i)) as Hfind.
  { intros i Hi. unfold registry. rewrite <- (Z2Nat.id (count args)) by lia.
    apply merged_finds. lia. }
  exists w'. split; [exact Hrun|]. split; [|split; [|split]].
  - destruct Hfile as [Hfile|[Hnil _]]; [exact Hfile|].
    destruct (Hfind 0) as [k Hk]; [lia|]. fold registry in Hnil.
    rewrite Hnil in Hk. discriminate Hk.
  - by apply load_written_registry.
  - exact Hfind.
  - intros ->. unfold registry. rewrite <- (Z2Nat.id (count args)) by lia.
    apply merged_nil.
Qed.

Lemma run_registry_witness :
  ∃ w',
    run_main three_args empty_world = (Return (), w')
    ∧ files w' !! modbus_hubs_filename
      = Some (written_registry
                [hub_entry "Chisage 1" "192.168.1.10" 5001;
                 hub_entry "Chisage 2" "192.168.1.11" 5002;
                 hub_entry "Chisage 3" "192.168.1.12" 5003]).
Proof.
  destruct (run_registry three_args "192.168.1.10" 5001 empty_world [])
    as (w' & Hrun & Hfile & _ & _ & Hnil).
  - reflexivity.
  - left. split; reflexivity.
  - reflexivity.
  - left. split; reflexivity.
  - discriminate.
  - intros _. by vm_compute.
  - split; [reflexivity|]. right. split; reflexivity.
  - exists w'. split; [exact Hrun|]. rewrite Hfile, (Hnil eq_refl). reflexivity.
Defined.

Lemma merged_nonempty args l n : 0 < n → merged args l n ≠ [].
Proof.
  intros Hn Hnil. destruct (merged_finds args l (Z.to_nat n) 0) as [k Hk]; [lia|].
  rewrite Z2Nat.id, Hnil in Hk by lia. discriminate Hk.
Qed.

Lemma registry_holds_file w l :
  registry_holds w l → l ≠ [] → files w !! modbus_hubs_filename = Some (written_registry l).
Proof. by intros [_ [H|[-> _]]] Hne. Qed.

(** X9: running the same invocation a second time changes nothing on disk:
    after a run that goes through, from a registry that is absent or was
    written by the program, a second run goes through as well and leaves
    every file and directory as the first run left it. *)
Theorem second_run_changes_nothing (args : Args) (ip : string) (port : Z) (w : world)
    (l : list pyval) :
  0 < count args →
  ip_argument args ip → ip_ok ip = true →
  port_argument args port → port ≠ 0 →
  (is_Some (ip_start args) → last_octet ip + (count args - 1) ≤ 255) →
  registry_holds w l →
  ∃ w1 w2,
    run_main args w = (Return (), w1)
    ∧ run_main args w1 = (Return (), w2)
    ∧ files w2 = files w1 ∧ dirs w2 = dirs w1.
Proof.
  intros Hcount Hip Hok Hport Hne Hfit Hw.
  destruct (run_state args ip port w l Hcount Hip Hok Hport Hne Hfit Hw)
    as (w1 & Hrun1 & Hreg1 & Hd1 & Hfiles1).
  destruct (run_state args ip port w1 _ Hcount Hip Hok Hport Hne Hfit Hreg1)
    as (w2 & Hrun2 & Hreg2 & _ & Hfiles2).
  rewrite merged_again in Hreg2 by lia.
  pose proof (merged_nonempty args l (count args) Hcount) as Hnil.
  destruct (writes_within_main PyYAML.dump PyYAML.safe_load args w1)
    as (Hkeep & _ & Hsub1 & Hsub2).
  fold (run_main args) in Hkeep, Hsub1, Hsub2.
  rewrite Hrun2 in Hkeep, Hsub1, Hsub2. cbn [snd] in Hkeep, Hsub1, Hsub2.
  exists w1, w2. split; [done|]. split; [done|]. split.
  - apply map_eq. intros p.
    destruct (decide (p = modbus_hubs_filename)) as [->|Hpr].
    { by rewrite (registry_holds_file _ _ Hreg1 Hnil), (registry_holds_file _ _ Hreg2 Hnil). }
    destruct (decide (p ∈ (λ i, sensors_file_path (device_instance_name i))
                            <$> seqZ 0 (count args)))
      as [(i & -> & Hi%elem_of_seqZ)%list_elem_of_fmap|Hps].
    { destruct (Hfiles1 i) as [H1 _]; [lia|]. destruct (Hfiles2 i) as [H2 _]; [lia|].
      by rewrite H1, H2. }
    destruct (decide (p ∈ (λ i, card_filename (device_instance_name i))
                            <$> seqZ 0 (count args)))
      as [(i & -> & Hi%elem_of_seqZ)%list_elem_of_fmap|Hpc].
    { destruct (generate_cards args) eqn:Hg.
      - destruct (Hfiles1 i) as [_ H1]; [lia|]. destruct (Hfiles2 i) as [_ H2]; [lia|].
        by rewrite (H1 eq_refl), (H2 eq_refl).
      - apply Hkeep. intros [Hr|(j & Hj & [Hs|[Hc _]])].
        + by apply card_filename_not_registry in Hr.
        + symmetry in Hs. by apply sensors_file_path_not_card in Hs.
        + congruence. }
    apply Hkeep. intros [Hr|(j & Hj & [Hs|[_ Hc]])]; [done| |].
    + apply Hps, list_elem_of_fmap. exists j. split; [done|]. apply elem_of_seqZ. lia.
    + apply Hpc, list_elem_of_fmap. exists j. split; [done|]. apply elem_of_seqZ. lia.
  - apply (anti_symm (⊆)); [|done].
    intros x Hx. apply Hsub2 in Hx. apply elem_of_union in Hx as [Hx|Hx]; [|done].
    apply elem_of_singleton in Hx as ->. done.
Qed.

Lemma second_run_changes_nothing_witness :
  ∃ w1 w2,
    run_main three_args empty_world = (Return (), w1)
    ∧ run_main three_args w1 = (Return (), w2)
    ∧ files w2 = files w1 ∧ dirs w2 = dirs w1.
Proof.
  apply (second_run_changes_nothing three_args "192.168.1.10" 5001 empty_world []).
  - reflexivity.
  - left. split; reflexivity.
  - reflexivity.
  - left. split; reflexivity.
  - discriminate.
  - intros _. by vm_compute.
  - split; [reflexivity|]. right. split; reflexivity.
Defined.

(** * Registry documents *)

(** ** Texts in which the pattern has no match *)




Lemma unmatched_cons c r :
  unmatched (String c r)
  = match Re.strip_prefix "'!include " (String c r) with
    | Some after =>
        match Re.until_quote after with
        | Some (body, _) => negb (Re.path_matches body)
        | None => false
        end
    | None => true
    end && unmatched r.
Proof. reflexivity. Qed.


Lemma quote_free_unmatched t : quote_free t = true → unmatched t = true.
Proof.
  unfold quote_free. induction t as [|c t IH]; [done|].
  cbn [PyYAML.any_char]. intros [Hc Ht]%negb_true_iff%orb_false_iff.
  rewrite unmatched_cons, IH by (by rewrite Ht). rewrite andb_true_r.
  cbn [Re.strip_prefix]. rewrite Ascii.eqb_sym in Hc. unfold Re.quote in Hc. by rewrite Hc.
Qed.

(** ** Markers *)


(** ** The values of a document *)















(** ** The registry fragment is made of documents *)

Lemma unfolded_app col a b :
  unfolded col (a +:+ b) = unfolded col a && unfolded (col + String.length a) b.
Proof.
  revert col. induction a as [|c a IH]; intros col.
  - rewrite string_app_nil_l. cbn [unfolded String.length]. by rewrite Nat.add_0_r.
  - rewrite string_app_cons. cbn [unfolded String.length]. rewrite IH.
    replace (S col + String.length a)%nat with (col + S (String.length a))%nat by lia.
    by rewrite andb_assoc.
Qed.

Lemma registry_pair_document p : registry_pair p = true → document_pair p = true.
Proof.
  destruct p as [[| | | |k| | |] [| |z| |s| | |]]; try done; cbn [registry_pair document_pair].
  - intros ->. done.
  - intros [-> Hv]%andb_true_iff. cbn [andb document_value].
    apply orb_true_iff in Hv as [Hv|Hv].
    + unfold plain_value in Hv.
      apply andb_true_iff in Hv as [[Hp Hq]%andb_true_iff Hu].
      assert (single_line s = true) as ->.
      { apply plain_spec in Hp as [_ Ha]. by apply plain_single_line. }
      unfold not_folded. rewrite (plain_write s Hp).
      unfold plain in Hp. destruct (PyYAML.choose_scalar_style s); try done.
      rewrite Hu, (quote_free_unmatched s Hq). by rewrite orb_true_r.
    + pose proof Hv as (path & -> & Hm & Hq & Ha & Hne)%include_value_spec.
      assert (marker ("!include " +:+ path) = true) as ->.
      { unfold marker.
        change (Re.strip_prefix "!include " ("!include " +:+ path)) with (Some path).
        cbv beta iota. by rewrite Hm, Hq, Ha. }
      assert (single_line ("!include " +:+ path) = true) as ->.
      { rewrite single_line_app. by rewrite (plain_single_line path). }
      unfold not_folded. rewrite include_single_quoted, include_write by done.
      unfold include_value in Hv.
      change (Re.strip_prefix "!include " ("!include " +:+ path)) with (Some path) in Hv.
      cbv beta iota in Hv. apply andb_true_iff in Hv as [_ Hu].
      change ("'!include " +:+ path +:+ String Re.quote "")
        with (String Re.quote (("!include " +:+ path) +:+ String Re.quote "")).
      cbn [unfolded]. rewrite unfolded_app, Hu. reflexivity.
Qed.

Lemma registry_entry_document e : registry_entry e = true → document_entry e = true.
Proof.
  destruct e as [| | | | | |[|p d]|]; try done. cbn [registry_entry document_entry].
  intros [Hd ->]%andb_true_iff. rewrite andb_true_r.
  apply forallb_forall. intros q Hq. apply registry_pair_document.
  by apply (proj1 (forallb_forall _ _) Hd).
Qed.

Lemma registry_fragment_document l : registry_fragment l = true → registry_document l = true.
Proof.
  unfold registry_fragment, registry_document. intros H.
  apply forallb_forall. intros e He. apply registry_entry_document.
  by apply (proj1 (forallb_forall _ _) H).
Qed.

(** ** The markers in the registry file *)






(** ** The merge step on the registry file *)






